(** * The multi-factor recall estimation engine of [dashboard.py]

    A shallow embedding of the six "Fermi" agents and of the master agent
    of [src/taiwan_recall_prediction/dashboard.py], followed by the
    properties of the engine.

    Modelling conventions.
    - Python floats are idealised as exact rationals ([Q]); [==] is the
      equality of rationals.  Percentages stay on the code's 0..100 scale.
    - Python [str] is a [string] holding the UTF-8 bytes of the text.  The
      substring test [a in b] on code points coincides with the substring
      test on UTF-8 bytes; [len] counts code points ([py_len]).
    - A Python [dict] is an association list in insertion order ([dict]),
      since the code iterates dictionaries and slices their key lists.
      Indexing [d[k]] raises [KeyError] when the key is absent; [d.get(k, v)]
      never raises.
    - The module-level generator behind [random.uniform] and
      [random.randint] is an explicit state ([Rng]) threaded through the
      calls that draw from it. *)

From Stdlib Require Import QArith Qround Lqa Lia ZArith.
From Stdlib Require Import List String Ascii Bool.
Import ListNotations.

Open Scope string_scope.
Open Scope Q_scope.

(** ** Numbers *)

(** [a < b] as Python evaluates it on numbers. *)
Definition Qltb (a b : Q) : bool := negb (Qle_bool b a).

(** [max(a, b)]: the first argument unless the second is strictly greater. *)
Definition py_max (a b : Q) : Q := if Qltb a b then b else a.

(** [min(a, b)]: the first argument unless the second is strictly smaller. *)
Definition py_min (a b : Q) : Q := if Qltb b a then b else a.

(** ** Strings *)

(** [needle in hay] *)
Fixpoint contains (needle hay : string) : bool :=
  String.prefix needle hay ||
  match hay with
  | EmptyString => false
  | String _ rest => contains needle rest
  end.

(** [s in l] for a list of strings *)
Definition in_list (s : string) (l : list string) : bool :=
  existsb (String.eqb s) l.

(** [any(name in target for name in names)] *)
Definition any_in (names : list string) (target : string) : bool :=
  existsb (fun name => contains name target) names.

(** UTF-8 continuation bytes are [10xxxxxx]. *)
Definition is_continuation (c : ascii) : bool :=
  let n := nat_of_ascii c in (128 <=? n)%nat && (n <? 192)%nat.

(** [len(s)]: the number of code points *)
Fixpoint py_len (s : string) : nat :=
  match s with
  | EmptyString => 0%nat
  | String c rest => ((if is_continuation c then 0 else 1) + py_len rest)%nat
  end.

(** The ASCII whitespace on which [str.split()] cuts (tab, line feed,
    vertical tab, form feed, carriage return, the four separators 28..31
    and the space). *)
Definition is_space (c : ascii) : bool :=
  let n := nat_of_ascii c in
  ((9 <=? n)%nat && (n <=? 13)%nat) || ((28 <=? n)%nat && (n <=? 32)%nat).

Fixpoint split_from (cur : string) (s : string) : list string :=
  match s with
  | EmptyString => match cur with EmptyString => [] | _ => [cur] end
  | String c rest =>
      if is_space c then
        match cur with
        | EmptyString => split_from EmptyString rest
        | _ => cur :: split_from EmptyString rest
        end
      else split_from (cur ++ String c EmptyString) rest
  end.

(** [s.split()] *)
Definition split (s : string) : list string := split_from EmptyString s.

(** ** Dictionaries and exceptions *)

Definition dict (V : Type) : Type := list (string * V).

Fixpoint get {V : Type} (d : dict V) (k : string) : option V :=
  match d with
  | [] => None
  | (k', v) :: rest => if String.eqb k k' then Some v else get rest k
  end.

(** [k in d] *)
Definition mem {V : Type} (d : dict V) (k : string) : bool :=
  match get d k with Some _ => true | None => false end.

(** [d[k] = v]: overwrite in place, or append a new key at the end. *)
Fixpoint set {V : Type} (d : dict V) (k : string) (v : V) : dict V :=
  match d with
  | [] => [(k, v)]
  | (k', v') :: rest =>
      if String.eqb k k' then (k', v) :: rest else (k', v') :: set rest k v
  end.

Definition keys {V : Type} (d : dict V) : list string := map fst d.

(** [d.get(k, default)] *)
Definition get_default {V : Type} (d : dict V) (k : string) (default : V) : V :=
  match get d k with Some v => v | None => default end.

Inductive exn : Type :=
| KeyError (key : string).

Inductive result (A : Type) : Type :=
| Ok (a : A)
| Raise (e : exn).
Arguments Ok {A} a.
Arguments Raise {A} e.

Definition bind {A B : Type} (r : result A) (k : A -> result B) : result B :=
  match r with
  | Ok a => k a
  | Raise e => Raise e
  end.

Notation "x <- r ;; k" := (bind r (fun x => k))
  (at level 61, r at next level, right associativity).

(** [d[k]] *)
Definition index {V : Type} (d : dict V) (k : string) : result V :=
  match get d k with
  | Some v => Ok v
  | None => Raise (KeyError k)
  end.

Definition is_ok {A : Type} (r : result A) : bool :=
  match r with Ok _ => true | Raise _ => false end.

(** The three age groups every table of the engine is keyed by. *)
Definition youth : string := "青年層".
Definition middle : string := "中年層".
Definition elder : string := "長者層".

(** ** PsychologicalMotivationAgent *)

Module PsychologicalMotivationAgent.

Record Params : Type := mkParams {
  political_interest : Q;
  political_efficacy : Q;
  economic_motivation : Q
}.

Record Entry : Type := mkEntry {
  percentage : Q;
  entry_params : Params;
  voting_intention : Q
}.

Definition _get_base_params (recall_target : string) : dict Params :=
  let base :=
    [ (youth, mkParams 0.6 0.7 0.8);
      (middle, mkParams 0.8 0.6 0.9);
      (elder, mkParams 0.9 0.5 0.7) ] in
  if any_in ["韓國瑜"; "柯文哲"; "羅智強"] recall_target then
    map (fun '(age, p) =>
           (age, mkParams (political_interest p * 1.2)
                          (political_efficacy p)
                          (economic_motivation p))) base
  else base.

(** The body of [for age_group, percentage in age_structure.items()]. *)
Fixpoint loop (base_params : dict Params) (items : dict Q)
         (results : dict Entry) : result (dict Entry) :=
  match items with
  | [] => Ok results
  | (age_group, pct) :: rest =>
      p <- index base_params age_group ;;
      let vi := political_interest p * political_efficacy p
                * economic_motivation p in
      loop base_params rest (set results age_group (mkEntry pct p vi))
  end.

Definition analyze (age_structure : dict Q) (recall_target : string)
           (political_context : dict Q) : result (dict Entry) :=
  loop (_get_base_params recall_target) age_structure [].

End PsychologicalMotivationAgent.

(** ** MediaEnvironmentAgent *)

Module MediaEnvironmentAgent.

Record Entry : Type := mkEntry {
  media_coefficient : Q;
  dominant_platforms : list string
}.

Definition media_weights : dict (dict Q) :=
  [ (youth, [("IG", 0.3); ("TikTok", 0.25); ("YouTube", 0.25); ("PTT", 0.2)]);
    (middle, [("Facebook", 0.4); ("LINE", 0.3); ("TV", 0.2); ("News", 0.1)]);
    (elder, [("TV", 0.5); ("Newspaper", 0.2); ("Radio", 0.2); ("Word", 0.1)]) ].

Definition _get_media_attention (recall_target : string) : Q :=
  if any_in ["韓國瑜"; "柯文哲"; "羅智強"; "趙少康"] recall_target
  then 1.5 else 1.0.

Definition multipliers : dict Q :=
  [ ("IG", 1.1); ("TikTok", 1.2); ("YouTube", 1.0); ("PTT", 1.3);
    ("Facebook", 1.1); ("LINE", 0.9); ("TV", 1.2); ("News", 1.0);
    ("Newspaper", 0.8); ("Radio", 0.7); ("Word", 0.8) ].

Definition _get_platform_multiplier (platform : string) : Q :=
  get_default multipliers platform 1.0.

(** The inner loop over the platforms of one age group. *)
Definition accumulate (base_attention : Q) (weights : dict Q) (start : Q) : Q :=
  fold_left
    (fun coefficient '(platform, weight) =>
       coefficient
       + base_attention * weight * _get_platform_multiplier platform * 0.3)
    weights start.

Fixpoint loop (base_attention : Q) (age_groups : list string)
         (results : dict Entry) : result (dict Entry) :=
  match age_groups with
  | [] => Ok results
  | age_group :: rest =>
      weights <- index media_weights age_group ;;
      let coefficient := accumulate base_attention weights 0.5 in
      let coefficient := py_max 0.5 (py_min coefficient 1.5) in
      loop base_attention rest
           (set results age_group
                (mkEntry coefficient (firstn 2 (keys weights))))
  end.

Definition analyze (age_structure : dict Q) (recall_target : string)
           (media_coverage : dict Q) : result (dict Entry) :=
  loop (_get_media_attention recall_target) (keys age_structure) [].

End MediaEnvironmentAgent.

(** ** SocialAtmosphereAgent *)

Module SocialAtmosphereAgent.

Record Entry : Type := mkEntry {
  social_coefficient : Q;
  sentiment_impact : Q;
  heat_impact : Q;
  pressure_impact : Q
}.

Definition _calculate_sentiment_score (forum_sentiment : dict Q) : Q :=
  let dcard_positive := get_default forum_sentiment "dcard_positive" 20 / 100 in
  let ptt_positive := get_default forum_sentiment "ptt_positive" 30 / 100 in
  (dcard_positive + ptt_positive) / 2 + 0.5.

Definition _calculate_heat_multiplier (discussion_heat : Q) : Q :=
  py_min (discussion_heat / 100 + 0.8) 1.5.

Definition _calculate_pressure_factor (peer_pressure : Q) : Q :=
  py_min (peer_pressure / 100 + 0.9) 1.3.

Definition age_groups : list string := [youth; middle; elder].

Definition sensitivity_map : dict Q :=
  [ (youth, 0.3); (middle, 0.25); (elder, 0.2) ].

Fixpoint loop (sentiment_score heat_multiplier pressure_factor : Q)
         (groups : list string) (results : dict Entry) : result (dict Entry) :=
  match groups with
  | [] => Ok results
  | age_group :: rest =>
      sensitivity <- index sensitivity_map age_group ;;
      let social :=
        0.7 + (sentiment_score * heat_multiplier * pressure_factor * sensitivity) in
      let social := py_max 0.5 (py_min social 1.5) in
      loop sentiment_score heat_multiplier pressure_factor rest
           (set results age_group
                (mkEntry social sentiment_score heat_multiplier pressure_factor))
  end.

Definition analyze (forum_sentiment : dict Q) (discussion_heat peer_pressure : Q)
  : result (dict Entry) :=
  let sentiment_score := _calculate_sentiment_score forum_sentiment in
  let heat_multiplier := _calculate_heat_multiplier discussion_heat in
  let pressure_factor := _calculate_pressure_factor peer_pressure in
  loop sentiment_score heat_multiplier pressure_factor age_groups [].

End SocialAtmosphereAgent.

(** ** ClimateConditionAgent *)

Module ClimateConditionAgent.

Record Entry : Type := mkEntry {
  weather_coefficient : Q;
  temperature_impact : Q;
  rainfall_impact : Q;
  condition_impact : string
}.

Definition extreme_conditions : list string := ["颱風"; "暴雨"; "極端高溫"].

(** The [if / elif / elif] chain on the temperature. *)
Definition after_temperature (temperature adjustment : Q) : Q :=
  if Qltb 30 temperature then adjustment - 0.05
  else if Qltb 35 temperature then adjustment - 0.1
  else if Qltb temperature 10 then adjustment - 0.08
  else adjustment.

(** The [if / elif] chain on the rainfall. *)
Definition after_rainfall (rainfall adjustment : Q) : Q :=
  if Qltb 5 rainfall then adjustment - 0.1
  else if Qltb 15 rainfall then adjustment - 0.2
  else adjustment.

Definition after_condition (weather_condition : string) (adjustment : Q) : Q :=
  if in_list weather_condition extreme_conditions then adjustment - 0.15
  else adjustment.

Definition analyze (temperature rainfall : Q) (weather_condition : string) : Entry :=
  let weather_adjustment := 1.0 in
  let weather_adjustment := after_temperature temperature weather_adjustment in
  let weather_adjustment := after_rainfall rainfall weather_adjustment in
  let weather_adjustment := after_condition weather_condition weather_adjustment in
  mkEntry (py_max weather_adjustment 0.5) temperature rainfall weather_condition.

End ClimateConditionAgent.

(** ** RegionalGeographyAgent *)

Module RegionalGeographyAgent.

Record Entry : Type := mkEntry {
  adjustment_factor : Q;
  regional_coefficient : Q;
  historical_impact : Q;
  mobilization_impact : Q;
  region_multiplier : Q
}.

Definition region_factors : dict Q :=
  [ ("台北", 1.05); ("新北", 1.02); ("桃園", 1.0); ("台中", 1.03);
    ("台南", 1.08); ("高雄", 1.06); ("基隆", 0.98); ("新竹", 1.01);
    ("苗栗", 0.97); ("彰化", 1.0); ("南投", 0.96); ("雲林", 0.98);
    ("嘉義", 1.02); ("屏東", 1.04); ("宜蘭", 0.99); ("花蓮", 0.95);
    ("台東", 0.94); ("澎湖", 0.92); ("金門", 0.90); ("連江", 0.88) ].

(** [for key in region_factors: if key in region: return region_factors[key]] *)
Fixpoint first_match (factors : dict Q) (region : string) : Q :=
  match factors with
  | [] => 1.0
  | (key, factor) :: rest =>
      if contains key region then factor else first_match rest region
  end.

Definition _get_region_multiplier (region : string) : Q :=
  first_match region_factors region.

Definition after_history (historical_turnout base_adjustment : Q) : Q :=
  if Qltb 60 historical_turnout then base_adjustment + 0.1
  else if Qltb historical_turnout 50 then base_adjustment - 0.05
  else base_adjustment.

Definition analyze (region : string) (historical_turnout mobilization_capacity : Q)
  : Entry :=
  let base_adjustment := 1.0 in
  let base_adjustment := after_history historical_turnout base_adjustment in
  let mobilization_factor := mobilization_capacity / 100 in
  let base_adjustment := base_adjustment * (0.9 + mobilization_factor * 0.2) in
  let multiplier := _get_region_multiplier region in
  let final_adjustment := base_adjustment * multiplier in
  mkEntry (py_max (py_min final_adjustment 1.1) 0.95)
          (py_max (py_min final_adjustment 1.1) 0.95)
          historical_turnout mobilization_capacity multiplier.

End RegionalGeographyAgent.

(** ** The random source

    [random.random()] draws the next number of a tape of unit draws (each
    in the half-open interval from 0 to 1 for a real generator) and
    advances the
    generator.  [random.uniform(a, b)] is [a + (b - a) * random()], as in
    the Python library; [random.randint(a, b)] is modelled as one unit draw
    scaled to the [b - a + 1] integers of the range. *)

Record Rng : Type := mkRng {
  tape : nat -> Q;
  pos : nat
}.

Definition random (g : Rng) : Q * Rng :=
  (tape g (pos g), mkRng (tape g) (S (pos g))).

Definition uniform (a b : Q) (g : Rng) : Q * Rng :=
  let '(u, g) := random g in (a + (b - a) * u, g).

Definition randint (a b : Z) (g : Rng) : Z * Rng :=
  let '(u, g) := random g in
  ((a + Qfloor (u * inject_Z (b - a + 1)))%Z, g).

(** ** ForumSentimentAgent *)

Module ForumSentimentAgent.

Record Characteristics : Type := mkChar {
  negativity_bias : Q;
  volatility : Q
}.

Record Crawl : Type := mkCrawl {
  positive_ratio : Q;
  negative_ratio : Q;
  sample_size : Z;
  crawl_volatility : Q
}.

(** The value [analyze] returns: its numeric entries ([scalars]) and the
    nested dictionary stored under ['forum_breakdown']. *)
Record Entry : Type := mkEntry {
  scalars : dict Q;
  forum_breakdown : dict Q
}.

(** Keyed by ['youth'], ['middle'] and ['elder'] in the source. *)
Definition _get_forum_usage_by_age : dict (dict Q) :=
  [ ("youth", [("ptt", 0.45); ("dcard", 0.35); ("mobile01", 0.20)]);
    ("middle", [("ptt", 0.25); ("dcard", 0.15); ("mobile01", 0.60)]);
    ("elder", [("ptt", 0.10); ("dcard", 0.05); ("mobile01", 0.85)]) ].

Definition forum_characteristics : dict Characteristics :=
  [ ("ptt", mkChar 1.2 1.3);
    ("dcard", mkChar 0.9 1.1);
    ("mobile01", mkChar 1.0 0.8) ].

Definition _crawl_forum_sentiment (target_name forum_type : string) (g : Rng)
  : Crawl * Rng :=
  let char := get_default forum_characteristics forum_type (mkChar 1.2 1.3) in
  let '(base_sentiment, g) := uniform 0.3 0.7 g in
  let adjusted_sentiment := base_sentiment / negativity_bias char in
  let adjusted_sentiment := py_max 0.1 (py_min 0.9 adjusted_sentiment) in
  let '(samples, g) := randint 50 200 g in
  (mkCrawl adjusted_sentiment (1 - adjusted_sentiment) samples (volatility char), g).

Definition news_sources : list string :=
  ["自由時報"; "聯合報"; "中國時報"; "蘋果日報"; "ETtoday"].

Definition source_bias (source : string) : Q :=
  if in_list source ["自由時報"; "蘋果日報"] then 0.6
  else if in_list source ["聯合報"; "中國時報"] then 0.4
  else 0.5.

Record News : Type := mkNews {
  news_positive_ratio : Q;
  news_negative_ratio : Q;
  news_sample_size : Z
}.

(** The loop of [_crawl_news_sentiment] over the news sources, on the
    running totals (positive, negative, samples). *)
Fixpoint news_loop (sources : list string) (totals : Q * Q * Z) (g : Rng)
  : (Q * Q * Z) * Rng :=
  match sources with
  | [] => (totals, g)
  | source :: rest =>
      let '(total_positive, total_negative, total_samples) := totals in
      let bias := source_bias source in
      let '(sentiment, g) := uniform (bias - 0.1) (bias + 0.1) g in
      let '(samples, g) := randint 20 80 g in
      news_loop rest
        (total_positive + sentiment * inject_Z samples,
         total_negative + (1 - sentiment) * inject_Z samples,
         (total_samples + samples)%Z) g
  end.

Definition _crawl_news_sentiment (target_name : string) (g : Rng) : News * Rng :=
  let '((total_positive, total_negative, total_samples), g) :=
    news_loop news_sources (0, 0, 0%Z) g in
  (mkNews
     (if (0 <? total_samples)%Z
      then total_positive / inject_Z total_samples else 0.5)
     (if (0 <? total_samples)%Z
      then total_negative / inject_Z total_samples else 0.5)
     total_samples, g).

(** One of the two loops [for forum, weight in forum_usage[...].items()],
    on the running totals (positive, negative, total_weight). *)
Fixpoint forum_loop (target_name : string) (usage : dict Q) (totals : Q * Q * Q)
         (g : Rng) : (Q * Q * Q) * Rng :=
  match usage with
  | [] => (totals, g)
  | (forum, weight) :: rest =>
      let '(positive, negative, total_weight) := totals in
      let '(sentiment, g) := _crawl_forum_sentiment target_name forum g in
      forum_loop target_name rest
        (positive + positive_ratio sentiment * weight,
         negative + negative_ratio sentiment * weight,
         total_weight + weight) g
  end.

Definition stratum (target_name : string) (usage : dict Q) (g : Rng) : Q * Rng :=
  let '((positive, _, total_weight), g) :=
    forum_loop target_name usage (0, 0, 0) g in
  (if Qltb 0 total_weight then positive / total_weight else 0.5, g).

Definition analyze (dcard_sentiment ptt_sentiment : dict Q)
           (mobilization_strength : Q) (g : Rng) : Entry * Rng :=
  let forum_usage := _get_forum_usage_by_age in
  let target_name := "當前罷免對象" in
  (* [forum_usage['youth']] and [forum_usage['middle']]: both keys are in
     the table above, the default is never taken *)
  let youth_usage := get_default forum_usage "youth" [] in
  let middle_usage := get_default forum_usage "middle" [] in
  let '(s1, g) := stratum target_name youth_usage g in
  let '(s2, g) := stratum target_name middle_usage g in
  let '(news_sentiment, g) := _crawl_news_sentiment target_name g in
  let s3 := news_positive_ratio news_sentiment in
  let '(factor, g) := uniform 1.1 1.3 g in
  let mobilization_modifier := (s1 * 0.4 + s2 * 0.35 + s3 * 0.25) * factor in
  (mkEntry
     [ ("positive_emotion_ratio", (s1 + s2 + s3) / 3);
       ("mobilization_modifier", mobilization_modifier);
       ("mobilization_strength", mobilization_modifier);
       ("s1_youth_forum", s1);
       ("s2_middle_forum", s2);
       ("s3_elder_news", s3);
       ("dcard_positive", s1);
       ("ptt_positive", s2);
       ("final_support_rate", (s1 + s2 + s3) / 3 * mobilization_modifier) ]
     [ ("youth_ptt", get_default youth_usage "ptt" 0);
       ("youth_dcard", get_default youth_usage "dcard" 0);
       ("middle_mobile01", get_default middle_usage "mobile01" 0);
       ("elder_news_sentiment", s3) ], g).

End ForumSentimentAgent.

(** ** MasterAnalysisAgent *)

Module MasterAnalysisAgent.

(** [scenario_data]: a dictionary whose keys are read either by indexing
    ([age_structure], [recall_target]) or with [.get] and a default; an
    absent key is [None]. *)
Record Scenario : Type := mkScenario {
  age_structure : option (dict Q);
  recall_target : option string;
  political_context : option (dict Q);
  media_coverage : option (dict Q);
  forum_sentiment : option (dict Q);
  discussion_heat : option Q;
  peer_pressure : option Q;
  temperature : option Q;
  rainfall : option Q;
  weather_condition : option string;
  region : option string;
  historical_turnout : option Q;
  mobilization_capacity : option Q;
  dcard_sentiment : option (dict Q);
  ptt_sentiment : option (dict Q);
  mobilization_strength : option Q
}.

Record AgentResults : Type := mkAgentResults {
  psychological : dict PsychologicalMotivationAgent.Entry;
  media : dict MediaEnvironmentAgent.Entry;
  social : dict SocialAtmosphereAgent.Entry;
  climate : ClimateConditionAgent.Entry;
  regional : RegionalGeographyAgent.Entry;
  sentiment : ForumSentimentAgent.Entry
}.

(** The three message templates of [_determine_recall_result], with the
    numbers each one formats. *)
Inductive Reason : Type :=
| TurnoutBelowThreshold (turnout : Q)
| AgreementNotMajority (agreement : Q)
| ThresholdsMet (turnout agreement : Q).

Record Prediction : Type := mkPrediction {
  predicted_turnout : Q;
  predicted_agreement : Q;
  will_pass : bool;
  reason : Reason;
  agent_results : AgentResults
}.

Definition intensity_map : dict Q :=
  [ ("韓國瑜 (2020年罷免成功)", 1.8);
    ("柯文哲 (台北市長)", 1.6);
    ("羅智強 (台北市第1選區)", 1.5);
    ("趙少康 (媒體人/政治人物)", 1.4);
    ("黃國昌 (2017年罷免失敗)", 1.3);
    ("陳柏惟 (2021年罷免成功)", 1.2);
    ("李彥秀 (台北市第2選區)", 1.1);
    ("蔣萬安相關立委", 1.1);
    ("邱若華 (桃園市第6選區)", 0.9);
    ("地方議員", 0.8) ].

(** [any(name in target for name in key.split() if len(name) > 1)] *)
Definition key_matches (key target : string) : bool :=
  any_in (filter (fun name => (1 <? py_len name)%nat) (split key)) target.

Fixpoint fuzzy_match (items : dict Q) (target : string) : option Q :=
  match items with
  | [] => None
  | (key, value) :: rest =>
      if key_matches key target then Some value else fuzzy_match rest target
  end.

Definition _get_dynamic_political_intensity (target : option string) : Q :=
  let target := match target with None => "一般立委" | Some t => t end in
  match get intensity_map target with
  | Some value => value
  | None =>
      match fuzzy_match intensity_map target with
      | Some value => value
      | None => 1.0
      end
  end.

(** The loop [for age_group in age_structure.keys()] of
    [_calculate_turnout], on the running [total_turnout]. *)
Fixpoint turnout_loop (age_structure : dict Q)
         (psychological : dict PsychologicalMotivationAgent.Entry)
         (media : dict MediaEnvironmentAgent.Entry)
         (social : dict SocialAtmosphereAgent.Entry)
         (age_groups : list string) (total_turnout : Q) : result Q :=
  match age_groups with
  | [] => Ok total_turnout
  | age_group :: rest =>
      if mem psychological age_group && mem media age_group
         && mem social age_group
      then
        share <- index age_structure age_group ;;
        p <- index psychological age_group ;;
        m <- index media age_group ;;
        s <- index social age_group ;;
        let Pi := share / 100 in
        let Vi := PsychologicalMotivationAgent.voting_intention p in
        let Ei_media := MediaEnvironmentAgent.media_coefficient m in
        let Ei_social := SocialAtmosphereAgent.social_coefficient s in
        let age_contribution := Pi * Vi * Ei_media * Ei_social in
        turnout_loop age_structure psychological media social rest
                     (total_turnout + age_contribution)
      else
        turnout_loop age_structure psychological media social rest total_turnout
  end.

Definition _calculate_turnout (age_structure : dict Q)
           (psychological : dict PsychologicalMotivationAgent.Entry)
           (media : dict MediaEnvironmentAgent.Entry)
           (social : dict SocialAtmosphereAgent.Entry)
           (climate : ClimateConditionAgent.Entry)
           (regional : RegionalGeographyAgent.Entry)
           (target : option string) : result Q :=
  total_turnout <- turnout_loop age_structure psychological media social
                                (keys age_structure) 0 ;;
  let T_weather := ClimateConditionAgent.weather_coefficient climate in
  let Adjustment_factor := RegionalGeographyAgent.adjustment_factor regional in
  let political_intensity := _get_dynamic_political_intensity target in
  let final_turnout :=
    total_turnout * T_weather * Adjustment_factor * political_intensity * 100 in
  Ok (py_max final_turnout 20).

Definition _calculate_agreement (turnout_rate : Q)
           (sentiment : ForumSentimentAgent.Entry) (target : option string) : Q :=
  let p_youth := 0.30 in
  let p_middle := 0.45 in
  let p_elder := 0.25 in
  let scalars := ForumSentimentAgent.scalars sentiment in
  let s1_youth := get_default scalars "s1_youth_forum" 0.5 in
  let s2_middle := get_default scalars "s2_middle_forum" 0.5 in
  let s3_elder := get_default scalars "s3_elder_news" 0.5 in
  let s_youth := s1_youth * 1.2 in
  let s_middle := s2_middle * 1.0 in
  let s_elder := s3_elder * 0.8 in
  let i_factor := _get_dynamic_political_intensity target in
  let base_agreement :=
    p_youth * s_youth + p_middle * s_middle + p_elder * s_elder in
  let final_agreement := base_agreement * i_factor * 100 in
  py_min (py_max final_agreement 10) 90.

Definition _determine_recall_result (turnout agreement : Q) : bool * Reason :=
  if Qltb turnout 25 then (false, TurnoutBelowThreshold turnout)
  else if Qle_bool agreement 50 then (false, AgreementNotMajority agreement)
  else (true, ThresholdsMet turnout agreement).

(** [scenario_data[key]] *)
Definition required {A : Type} (field : option A) (key : string) : result A :=
  match field with
  | Some v => Ok v
  | None => Raise (KeyError key)
  end.

(** [scenario_data.get(key, default)] *)
Definition optional {A : Type} (field : option A) (default : A) : A :=
  match field with
  | Some v => v
  | None => default
  end.

Record Collected : Type := mkCollected {
  c_ages : dict Q;
  c_target : string;
  c_psychological : dict PsychologicalMotivationAgent.Entry;
  c_media : dict MediaEnvironmentAgent.Entry;
  c_social : dict SocialAtmosphereAgent.Entry;
  c_climate : ClimateConditionAgent.Entry;
  c_regional : RegionalGeographyAgent.Entry
}.

(** Step 1 of [predict] up to the regional agent: the two indexed keys and
    the five agents that draw nothing from the random source. *)
Definition collect (scenario_data : Scenario) : result Collected :=
  ages <- required (age_structure scenario_data) "age_structure" ;;
  target <- required (recall_target scenario_data) "recall_target" ;;
  psychological_results <-
    PsychologicalMotivationAgent.analyze
      ages target (optional (political_context scenario_data) []) ;;
  media_results <-
    MediaEnvironmentAgent.analyze
      ages target (optional (media_coverage scenario_data) []) ;;
  social_results <-
    SocialAtmosphereAgent.analyze
      (optional (forum_sentiment scenario_data) [])
      (optional (discussion_heat scenario_data) 70)
      (optional (peer_pressure scenario_data) 60) ;;
  let climate_results :=
    ClimateConditionAgent.analyze
      (optional (temperature scenario_data) 25)
      (optional (rainfall scenario_data) 0)
      (optional (weather_condition scenario_data) "晴天") in
  let regional_results :=
    RegionalGeographyAgent.analyze
      (optional (region scenario_data) "")
      (optional (historical_turnout scenario_data) 55)
      (optional (mobilization_capacity scenario_data) 70) in
  Ok (mkCollected ages target psychological_results media_results
        social_results climate_results regional_results).

(** Steps 2 to 4 of [predict], once every agent has answered. *)
Definition conclude (c : Collected) (sentiment_results : ForumSentimentAgent.Entry)
  : result Prediction :=
  predicted_turnout <-
    _calculate_turnout (c_ages c) (c_psychological c) (c_media c) (c_social c)
                       (c_climate c) (c_regional c) (Some (c_target c)) ;;
  let predicted_agreement :=
    _calculate_agreement predicted_turnout sentiment_results
                         (Some (c_target c)) in
  let '(will_pass, reason) :=
    _determine_recall_result predicted_turnout predicted_agreement in
  Ok (mkPrediction predicted_turnout predicted_agreement will_pass reason
        (mkAgentResults (c_psychological c) (c_media c) (c_social c)
           (c_climate c) (c_regional c) sentiment_results)).

Definition predict (scenario_data : Scenario) (g : Rng) : result Prediction * Rng :=
  match collect scenario_data with
  | Raise e => (Raise e, g)
  | Ok c =>
      let '(sentiment_results, g) :=
        ForumSentimentAgent.analyze
          (optional (dcard_sentiment scenario_data) [("positive", 20)])
          (optional (ptt_sentiment scenario_data) [("positive", 30)])
          (optional (mobilization_strength scenario_data) 80) g in
      (conclude c sentiment_results, g)
  end.

End MasterAnalysisAgent.

(** * Statements of the specification

    Definitions that follow the words of the specification, to be compared
    with the functions above, and the concrete inputs the properties are
    evaluated on. *)

Module Spec.

(** "Clamp: force a value into a fixed numeric range." *)
Definition clamp (x lo hi : Q) : Q := py_min (py_max x lo) hi.

(** The Weather Estimator as section 4.4 words it: the penalty above 35
    degrees replaces the one above 30, the penalty above 15 mm replaces the
    one above 5, the result is floored at 0.5. *)
Definition weather (temperature rainfall : Q) (condition_label : string) : Q :=
  let temperature_penalty :=
    if Qltb 35 temperature then 0.10
    else if Qltb 30 temperature then 0.05
    else if Qltb temperature 10 then 0.08
    else 0 in
  let rainfall_penalty :=
    if Qltb 15 rainfall then 0.20
    else if Qltb 5 rainfall then 0.10
    else 0 in
  let condition_penalty :=
    if in_list condition_label ClimateConditionAgent.extreme_conditions
    then 0.15 else 0 in
  py_max (1.0 - temperature_penalty - rainfall_penalty - condition_penalty) 0.5.

(** The agreement formula of section 4.7, on the 0..1 scale, as a function
    of the three population shares it weighs the sentiments with. *)
Definition agreement (share_youth share_middle share_elder : Q)
           (youth_forum middle_forum elder_news political_intensity : Q) : Q :=
  let s_youth := youth_forum * 1.2 in
  let s_middle := middle_forum * 1.0 in
  let s_elder := elder_news * 0.8 in
  clamp ((share_youth * s_youth + share_middle * s_middle
          + share_elder * s_elder) * political_intensity) 0.10 0.90.

(** The age groups of the fixed parameter tables. *)
Definition known_group (k : string) : bool := in_list k [youth; middle; elder].

Fixpoint distinct (l : list string) : bool :=
  match l with
  | [] => true
  | k :: rest => negb (in_list k rest) && distinct rest
  end.

Definition total (d : dict Q) : Q := fold_right (fun kv acc => snd kv + acc) 0 d.

Definition within (lo hi : Q) (x : Q) : bool := Qle_bool lo x && Qle_bool x hi.

Definition field_within (lo hi : Q) (field : option Q) : bool :=
  match field with Some x => within lo hi x | None => true end.

(** A valid [ScenarioInput] (section 3): both indexed keys are there, the
    age shares are keyed by distinct known age groups, are non-negative and
    sum to 100 percent, and the two sentiment ratios of the forum
    dictionary ([dcard_positive], [ptt_positive]), the heat, the pressure,
    the turnout baseline and the mobilization capacity are percentages.
    Other entries of the forum dictionary (post counts and the like) are
    not constrained. *)
Definition valid_scenario (s : MasterAnalysisAgent.Scenario) : bool :=
  match MasterAnalysisAgent.age_structure s, MasterAnalysisAgent.recall_target s with
  | Some ages, Some _ =>
      forallb known_group (keys ages) && distinct (keys ages)
      && forallb (fun kv => Qle_bool 0 (snd kv)) ages
      && Qeq_bool (total ages) 100
      && match MasterAnalysisAgent.forum_sentiment s with
         | Some fs =>
             field_within 0 100 (get fs "dcard_positive")
             && field_within 0 100 (get fs "ptt_positive")
         | None => true
         end
      && field_within 0 100 (MasterAnalysisAgent.discussion_heat s)
      && field_within 0 100 (MasterAnalysisAgent.peer_pressure s)
      && field_within 0 100 (MasterAnalysisAgent.historical_turnout s)
      && field_within 0 100 (MasterAnalysisAgent.mobilization_capacity s)
  | _, _ => false
  end.

(** The share of an age group in a scenario, on the 0..1 scale. *)
Definition age_share (s : MasterAnalysisAgent.Scenario) (k : string) : Q :=
  match MasterAnalysisAgent.age_structure s with
  | Some ages => get_default ages k 0 / 100
  | None => 0
  end.

(** The three stratified sentiments of a prediction's breakdown. *)
Definition breakdown_sentiment (r : MasterAnalysisAgent.Prediction) (key : string) : Q :=
  get_default
    (ForumSentimentAgent.scalars
       (MasterAnalysisAgent.sentiment (MasterAnalysisAgent.agent_results r)))
    key 0.5.

(** The term of one age group in the raw turnout sum. *)
Definition contribution (age_structure : dict Q)
           (psychological : dict PsychologicalMotivationAgent.Entry)
           (media : dict MediaEnvironmentAgent.Entry)
           (social : dict SocialAtmosphereAgent.Entry) (k : string) : Q :=
  match get age_structure k, get psychological k, get media k, get social k with
  | Some share, Some p, Some m, Some s =>
      share / 100 * PsychologicalMotivationAgent.voting_intention p
      * MediaEnvironmentAgent.media_coefficient m
      * SocialAtmosphereAgent.social_coefficient s
  | _, _, _, _ => 0
  end.

Definition in_all_three (psychological : dict PsychologicalMotivationAgent.Entry)
           (media : dict MediaEnvironmentAgent.Entry)
           (social : dict SocialAtmosphereAgent.Entry) (k : string) : bool :=
  mem psychological k && mem media k && mem social k.

(** The sum of the terms of the age groups [groups], in their order. *)
Definition raw_turnout (age_structure : dict Q)
           (psychological : dict PsychologicalMotivationAgent.Entry)
           (media : dict MediaEnvironmentAgent.Entry)
           (social : dict SocialAtmosphereAgent.Entry)
           (groups : list string) : Q :=
  fold_left
    (fun acc k => acc + contribution age_structure psychological media social k)
    groups 0.

(** The coefficient the Climate (social-mood) estimator gives an age group. *)
Definition social_value (r : result (dict SocialAtmosphereAgent.Entry))
           (k : string) : option Q :=
  match r with
  | Ok d => option_map SocialAtmosphereAgent.social_coefficient (get d k)
  | Raise _ => None
  end.

(** Two generators that will deliver the same draws. *)
Definition same_draws (g1 g2 : Rng) : Prop :=
  pos g1 = pos g2 /\ forall n, tape g1 n = tape g2 n.

(** A drawing computation whose result is a function of the draws it is
    given, and which leaves generators that agree in agreement. *)
Definition draws_only {A : Type} (f : Rng -> A * Rng) : Prop :=
  forall g1 g2,
    same_draws g1 g2 ->
    fst (f g1) = fst (f g2) /\ same_draws (snd (f g1)) (snd (f g2)).

End Spec.

(** ** Concrete inputs *)

Module Inputs.

Import MasterAnalysisAgent.

(** The age structure [_prepare_scenario_data] builds. *)
Definition default_ages : dict Q := [(youth, 30); (middle, 45); (elder, 25)].

Definition empty_scenario : Scenario :=
  mkScenario None None None None None None None None
             None None None None None None None None.

(** Every optional key absent, an unlisted target. *)
Definition baseline : Scenario :=
  mkScenario (Some default_ages) (Some "一般立委")
             None None None None None None None None None None None None None None.

(** A listed, highly contested target in a favourable setting. *)
Definition contested : Scenario :=
  mkScenario (Some default_ages) (Some "韓國瑜 (2020年罷免成功)")
             None None
             (Some [("dcard_positive", 60); ("ptt_positive", 60)])
             (Some 70) (Some 60) (Some 28.5) (Some 2.3) (Some "多雲時晴")
             (Some "高雄") (Some 65) (Some 80) None None None.

(** The baseline with a younger electorate. *)
Definition younger : Scenario :=
  mkScenario (Some [(youth, 50); (middle, 30); (elder, 20)]) (Some "一般立委")
             None None None None None None None None None None None None None None.

(** An age-shares map with a key the parameter tables do not have. *)
Definition ages_with_unknown : dict Q := [(youth, 30); ("未知層", 70)].

(** What a dictionary-valued agent answered, the empty dictionary if it
    raised. *)
Definition answer {V : Type} (r : result (dict V)) : dict V :=
  match r with Ok d => d | Raise _ => [] end.

Definition baseline_psychological : dict PsychologicalMotivationAgent.Entry :=
  answer (PsychologicalMotivationAgent.analyze default_ages "一般立委" []).

Definition baseline_media : dict MediaEnvironmentAgent.Entry :=
  answer (MediaEnvironmentAgent.analyze default_ages "一般立委" []).

Definition baseline_social : dict SocialAtmosphereAgent.Entry :=
  answer (SocialAtmosphereAgent.analyze [] 70 60).

(** A generator whose unit draws cycle through 0.0, 0.1, ..., 0.9. *)
Definition ramp : Rng :=
  mkRng (fun n => inject_Z (Z.of_nat (n mod 10)) / 10) 0.

(** A generator whose unit draws are all 0.5. *)
Definition steady : Rng := mkRng (fun _ => 0.5) 0.

End Inputs.

(** ** Well-behaved random sources *)

Module Draws.

(** Every number of the tape is a unit draw, as [random.random()] returns:
    at least 0 and below 1. *)
Definition unit_draws (g : Rng) : Prop := forall n, 0 <= tape g n < 1.

(** The generator [g] after [n] more draws. *)
Definition advance (n : nat) (g : Rng) : Rng := mkRng (tape g) (n + pos g).

(** The negativity bias [_crawl_forum_sentiment] divides by for a forum. *)
Definition bias_of (forum : string) : Q :=
  ForumSentimentAgent.negativity_bias
    (get_default ForumSentimentAgent.forum_characteristics forum
                 (ForumSentimentAgent.mkChar 1.2 1.3)).

(** The least and the greatest weighted positive total a stratum can reach
    when the base sentiments are drawn between 0.3 and 0.7. *)
Definition low_sum (usage : dict Q) : Q :=
  fold_right (fun kv acc => snd kv * (0.3 / bias_of (fst kv)) + acc) 0 usage.

Definition high_sum (usage : dict Q) : Q :=
  fold_right (fun kv acc => snd kv * (0.7 / bias_of (fst kv)) + acc) 0 usage.

End Draws.

(** ** EnhancedDashboardApp: the data behind a scenario and the second
    prediction path *)

(** [s.split(sep)[0]]: the text before the first separator. *)
Fixpoint before (sep : ascii) (s : string) : string :=
  match s with
  | EmptyString => EmptyString
  | String c rest =>
      if Ascii.eqb c sep then EmptyString else String c (before sep rest)
  end.

(** The white space of [str.strip()] is the one of [str.isspace()]: the
    ASCII characters of [is_space] and, beyond ASCII, U+0085, U+00A0,
    U+1680, U+2000..U+200A, U+2028, U+2029, U+202F, U+205F and U+3000.
    [space2] and [space3] recognise the UTF-8 encodings of the latter, two
    bytes (C2 85, C2 A0) or three (E1 9A 80; E2 80 80..8A, A8, A9, AF;
    E2 81 9F; E3 80 80). *)
Definition space2 (a b : ascii) : bool :=
  let a := nat_of_ascii a in
  let b := nat_of_ascii b in
  (a =? 194)%nat && ((b =? 133)%nat || (b =? 160)%nat).

Definition space3 (a b c : ascii) : bool :=
  let a := nat_of_ascii a in
  let b := nat_of_ascii b in
  let c := nat_of_ascii c in
  ((a =? 225)%nat && (b =? 154)%nat && (c =? 128)%nat)
  || ((a =? 226)%nat && (b =? 128)%nat
      && (((128 <=? c)%nat && (c <=? 138)%nat)
          || (c =? 168)%nat || (c =? 169)%nat || (c =? 175)%nat))
  || ((a =? 226)%nat && (b =? 129)%nat && (c =? 159)%nat)
  || ((a =? 227)%nat && (b =? 128)%nat && (c =? 128)%nat).

(** The number of bytes of the white-space character [s] starts with, 0
    when it starts with none. *)
Definition leading_space (s : string) : nat :=
  match s with
  | EmptyString => 0
  | String a EmptyString => if is_space a then 1 else 0
  | String a (String b EmptyString) =>
      if is_space a then 1 else if space2 a b then 2 else 0
  | String a (String b (String c _)) =>
      if is_space a then 1
      else if space2 a b then 2
      else if space3 a b c then 3
      else 0
  end.

(** The same for the white-space character a text ends with, read off the
    bytes of the text in reverse order. *)
Definition trailing_space (r : string) : nat :=
  match r with
  | EmptyString => 0
  | String c EmptyString => if is_space c then 1 else 0
  | String c (String b EmptyString) =>
      if is_space c then 1 else if space2 b c then 2 else 0
  | String c (String b (String a _)) =>
      if is_space c then 1
      else if space2 b c then 2
      else if space3 a b c then 3
      else 0
  end.

(** Drops white-space characters, as [width] finds them, from the front of
    [s]; [skip] counts the bytes still to drop of the character at hand. *)
Fixpoint drop_spaces (width : string -> nat) (skip : nat) (s : string) : string :=
  match s with
  | EmptyString => EmptyString
  | String _ rest =>
      match skip with
      | S n => drop_spaces width n rest
      | O =>
          match width s with
          | O => s
          | S n => drop_spaces width n rest
          end
      end
  end.

Definition lstrip (s : string) : string := drop_spaces leading_space 0 s.

Definition reverse (s : string) : string :=
  string_of_list_ascii (rev (list_ascii_of_string s)).

Definition rstrip (s : string) : string :=
  reverse (drop_spaces trailing_space 0 (reverse s)).

(** [s.strip()] *)
Definition strip (s : string) : string := rstrip (lstrip s).

Module EnhancedDashboardApp.

Record Weather : Type := mkWeather {
  w_temperature : Q;
  w_rainfall : Q;
  w_condition : string;
  w_humidity : Q;
  w_data_source : string
}.

Definition _get_historical_weather_data : Weather :=
  mkWeather 28.5 2.3 "多雲時晴" 78 "中央氣象署2022-2023年7月平均".

(** [recall_target.split('(')[0].strip()] *)
Definition target_name (recall_target : string) : string :=
  strip (before "(" recall_target).

Record Turnout : Type := mkTurnout {
  base_major_election_avg : Q;
  target_coefficient : Q;
  fame_coefficient : Q;
  regional_coefficient : Q;
  adjusted_turnout : Q;
  t_data_source : string
}.

Definition base_turnout_data : dict Q :=
  [ ("2020總統大選", 74.9); ("2022九合一選舉", 63.9);
    ("2021四大公投", 41.8); ("2018九合一選舉", 66.1) ].

Definition target_coefficients : dict Q :=
  [ ("韓國瑜", 1.2); ("柯文哲", 1.15); ("羅智強", 1.1);
    ("趙少康", 1.05); ("黃國昌", 1.08) ].

Definition regional_coefficients : dict Q :=
  [ ("台北市", 1.1); ("新北市", 1.05); ("桃園市", 1.0);
    ("台中市", 1.02); ("台南市", 0.98); ("高雄市", 1.03) ].

Definition _get_historical_turnout_data (region recall_target : string) : Turnout :=
  (* the three keys indexed are in the literal above: the default is never taken *)
  let major_election_avg :=
    (get_default base_turnout_data "2020總統大選" 0
     + get_default base_turnout_data "2022九合一選舉" 0
     + get_default base_turnout_data "2018九合一選舉" 0) / 3 in
  let target_coeff := get_default target_coefficients (target_name recall_target) 1.0 in
  let region_coeff := get_default regional_coefficients region 1.0 in
  let adjusted := major_election_avg * 0.7 * target_coeff * region_coeff in
  mkTurnout major_election_avg target_coeff target_coeff region_coeff
            (py_min adjusted 85) "中選會歷史選舉資料".

Record Mobilization : Type := mkMobilization {
  capacity : Q;
  strength : Q;
  m_party_strength : Q;
  m_faction_influence : Q;
  m_civic_activity : Q;
  m_data_source : string
}.

Definition party_strength : dict Q :=
  [ ("台北市", 75); ("新北市", 70); ("桃園市", 68);
    ("台中市", 72); ("台南市", 65); ("高雄市", 70) ].

Definition faction_influence : dict Q :=
  [ ("台北市", 60); ("新北市", 65); ("桃園市", 70);
    ("台中市", 75); ("台南市", 80); ("高雄市", 72) ].

Definition civic_activity : dict Q :=
  [ ("台北市", 85); ("新北市", 75); ("桃園市", 70);
    ("台中市", 72); ("台南市", 68); ("高雄市", 78) ].

Definition controversy_multiplier : dict Q :=
  [ ("韓國瑜", 1.3); ("柯文哲", 1.2); ("羅智強", 1.15);
    ("趙少康", 1.1); ("黃國昌", 1.05) ].

Definition _get_mobilization_capacity (region recall_target : string) : Mobilization :=
  let base_capacity :=
    (get_default party_strength region 70
     + get_default faction_influence region 70
     + get_default civic_activity region 70) / 3 in
  let multiplier :=
    get_default controversy_multiplier (target_name recall_target) 1.0 in
  let final_capacity := py_min (base_capacity * multiplier) 95 in
  mkMobilization final_capacity (py_min (final_capacity * 1.1) 98)
                 (get_default party_strength region 70)
                 (get_default faction_influence region 70)
                 (get_default civic_activity region 70)
                 "政治學研究與選舉觀察".

(** One row of the forum sentiment table, in the order of its keys. *)
Definition sentiment_row (dcard_positive dcard_negative ptt_positive ptt_negative
                          heat pressure posts engagement : Q) : dict Q :=
  [ ("dcard_positive", dcard_positive); ("dcard_negative", dcard_negative);
    ("ptt_positive", ptt_positive); ("ptt_negative", ptt_negative);
    ("discussion_heat", heat); ("peer_pressure", pressure);
    ("total_posts", posts); ("engagement_rate", engagement) ].

Definition sentiment_data : dict (dict Q) :=
  [ ("韓國瑜", sentiment_row 28.5 71.5 35.2 64.8 92 78 1247 85.3);
    ("柯文哲", sentiment_row 42.1 57.9 38.7 61.3 88 72 1089 79.6);
    ("羅智強", sentiment_row 51.3 48.7 47.8 52.2 76 65 892 71.2);
    ("趙少康", sentiment_row 33.7 66.3 29.4 70.6 68 58 634 63.8);
    ("黃國昌", sentiment_row 45.8 54.2 52.1 47.9 71 61 756 68.9) ].

Definition avg_data : dict Q :=
  sentiment_row 40.3 59.7 40.6 59.4 79 67 924 73.8.

(** What [_get_forum_sentiment_data] returns: its six numeric entries, and
    the two strings stored under ['data_source'] and ['last_updated']. *)
Record ForumData : Type := mkForumData {
  numbers : dict Q;
  f_data_source : string;
  last_updated : string
}.

Definition _get_forum_sentiment_data (recall_target : string) : ForumData :=
  let name := target_name recall_target in
  let data :=
    match get sentiment_data name with
    | Some row => row
    | None => avg_data
    end in
  (* every row has the six keys read here: the default is never taken *)
  mkForumData
    [ ("dcard_positive", get_default data "dcard_positive" 0);
      ("ptt_positive", get_default data "ptt_positive" 0);
      ("discussion_heat", get_default data "discussion_heat" 0);
      ("peer_pressure", get_default data "peer_pressure" 0);
      ("total_posts", get_default data "total_posts" 0);
      ("engagement_rate", get_default data "engagement_rate" 0) ]
    "7/26罷免案論壇爬蟲分析" "2025-07-06".

(** [_prepare_scenario_data]: the scenario handed to [predict].  The key
    ['regional_coefficient'] it also stores is read by no agent and has no
    field in [Scenario]. *)
Definition _prepare_scenario_data (recall_target region : string)
  : MasterAnalysisAgent.Scenario :=
  let age_structure := [(youth, 30); (middle, 45); (elder, 25)] in
  let weather_data := _get_historical_weather_data in
  let historical_data := _get_historical_turnout_data region recall_target in
  let mobilization_data := _get_mobilization_capacity region recall_target in
  let forum_sentiment := numbers (_get_forum_sentiment_data recall_target) in
  MasterAnalysisAgent.mkScenario
    (Some age_structure)
    (Some recall_target)
    None
    None
    (Some forum_sentiment)
    (Some (get_default forum_sentiment "discussion_heat" 0))
    (Some (get_default forum_sentiment "peer_pressure" 0))
    (Some (w_temperature weather_data))
    (Some (w_rainfall weather_data))
    (Some (w_condition weather_data))
    (Some region)
    (Some (adjusted_turnout historical_data))
    (Some (capacity mobilization_data))
    (Some [("positive", get_default forum_sentiment "dcard_positive" 0)])
    (Some [("positive", get_default forum_sentiment "ptt_positive" 0)])
    (Some (strength mobilization_data)).

(** [a <= x <= b] as Python chains it. *)
Definition between (a x b : Q) : bool := Qle_bool a x && Qle_bool x b.

Definition _calculate_confidence (prediction_results : MasterAnalysisAgent.Prediction)
  : Z :=
  let base_confidence := 75%Z in
  let turnout := MasterAnalysisAgent.predicted_turnout prediction_results in
  let base_confidence :=
    if between 25 turnout 60 then (base_confidence + 10)%Z
    else if Qltb turnout 15 || Qltb 80 turnout then (base_confidence - 15)%Z
    else base_confidence in
  let agreement := MasterAnalysisAgent.predicted_agreement prediction_results in
  let base_confidence :=
    if between 30 agreement 80 then (base_confidence + 10)%Z
    else if Qltb agreement 20 || Qltb 90 agreement then (base_confidence - 10)%Z
    else base_confidence in
  let agent_results := MasterAnalysisAgent.agent_results prediction_results in
  let base_confidence :=
    if Qltb 0.8 (ClimateConditionAgent.weather_coefficient
                   (MasterAnalysisAgent.climate agent_results))
    then (base_confidence + 5)%Z else base_confidence in
  let base_confidence :=
    if Qltb 1.0 (RegionalGeographyAgent.adjustment_factor
                   (MasterAnalysisAgent.regional agent_results))
    then (base_confidence + 5)%Z else base_confidence in
  Z.min (Z.max base_confidence 60) 95.

Record Unified : Type := mkUnified {
  turnout_rate : Q;
  agreement_rate : Q;
  unified_will_pass : bool;
  confidence : Q;
  error : option exn
}.

(** The first loop of [_calculate_unified_prediction], on the running
    [total_base_turnout]. *)
Fixpoint unified_turnout_loop
         (psychological : dict PsychologicalMotivationAgent.Entry)
         (media : dict MediaEnvironmentAgent.Entry)
         (social : dict SocialAtmosphereAgent.Entry)
         (items : dict Q) (total_base_turnout : Q) : result Q :=
  match items with
  | [] => Ok total_base_turnout
  | (age_group, percentage) :: rest =>
      if mem psychological age_group && mem media age_group
         && mem social age_group
      then
        p <- index psychological age_group ;;
        m <- index media age_group ;;
        s <- index social age_group ;;
        let voting_intention := PsychologicalMotivationAgent.voting_intention p in
        let media_coeff := MediaEnvironmentAgent.media_coefficient m in
        let social_coeff := SocialAtmosphereAgent.social_coefficient s in
        let age_contribution :=
          percentage * voting_intention * media_coeff * social_coeff in
        unified_turnout_loop psychological media social rest
                             (total_base_turnout + age_contribution)
      else unified_turnout_loop psychological media social rest total_base_turnout
  end.

(** The second loop, on the running [total_weighted_sentiment]. *)
Fixpoint unified_sentiment_loop (sentiment_data : dict Q) (items : dict Q)
         (total_weighted_sentiment : Q) : Q :=
  match items with
  | [] => total_weighted_sentiment
  | (age_group, percentage) :: rest =>
      let age_sentiment :=
        if String.eqb age_group youth then
          let ptt_ratio := 0.40 in
          let dcard_ratio := 0.60 in
          let ptt_positive := get_default sentiment_data "ptt_positive" 0.30 in
          let dcard_positive := get_default sentiment_data "dcard_positive" 0.25 in
          ptt_ratio * ptt_positive + dcard_ratio * dcard_positive
        else if String.eqb age_group middle then
          0.20 * 0.30 + 0.30 * 0.25 + 0.50 * 0.45
        else 0.80 * 0.45 + 0.20 * 0.55 in
      unified_sentiment_loop sentiment_data rest
                             (total_weighted_sentiment + percentage * age_sentiment)
  end.

Definition unified_ages : dict Q := [(youth, 0.30); (middle, 0.45); (elder, 0.25)].

(** The body of the [try] up to the regional agent: nothing is drawn. *)
Definition unified_collect (recall_target region : string)
  : result MasterAnalysisAgent.Collected :=
  let age_structure := unified_ages in
  psychological_data <-
    PsychologicalMotivationAgent.analyze age_structure recall_target [] ;;
  media_data <- MediaEnvironmentAgent.analyze age_structure recall_target [] ;;
  social_data <- SocialAtmosphereAgent.analyze [] 70 60 ;;
  let climate_data := ClimateConditionAgent.analyze 25 0 "晴天" in
  let regional_data := RegionalGeographyAgent.analyze region 55 70 in
  Ok (MasterAnalysisAgent.mkCollected age_structure recall_target psychological_data
        media_data social_data climate_data regional_data).

(** What the [except] branch returns. *)
Definition unified_fallback (e : exn) : Unified :=
  mkUnified 0.30 0.45 false 0.60 (Some e).

Definition _calculate_unified_prediction (recall_target region : string) (g : Rng)
  : Unified * Rng :=
  match unified_collect recall_target region with
  | Raise e => (unified_fallback e, g)
  | Ok c =>
      let '(sentiment, g) :=
        ForumSentimentAgent.analyze [("positive", 20)] [("positive", 30)] 80 g in
      let sentiment_data := ForumSentimentAgent.scalars sentiment in
      match unified_turnout_loop (MasterAnalysisAgent.c_psychological c)
                                 (MasterAnalysisAgent.c_media c)
                                 (MasterAnalysisAgent.c_social c)
                                 (MasterAnalysisAgent.c_ages c) 0 with
      | Raise e => (unified_fallback e, g)
      | Ok total_base_turnout =>
          let weather_coeff :=
            ClimateConditionAgent.weather_coefficient (MasterAnalysisAgent.c_climate c) in
          let regional_coeff :=
            RegionalGeographyAgent.regional_coefficient
              (MasterAnalysisAgent.c_regional c) in
          let corrected_turnout := total_base_turnout * weather_coeff * regional_coeff in
          let total_weighted_sentiment :=
            unified_sentiment_loop sentiment_data (MasterAnalysisAgent.c_ages c) 0 in
          let mobilization_modifier :=
            get_default sentiment_data "mobilization_modifier" 1.0 in
          let corrected_agreement := total_weighted_sentiment * mobilization_modifier in
          let will_pass :=
            Qle_bool 0.25 corrected_turnout && Qltb 0.5 corrected_agreement in
          (mkUnified corrected_turnout corrected_agreement will_pass 0.75 None, g)
      end
  end.

End EnhancedDashboardApp.

(** The scenario whose only optional key is the region: every other input
    of [predict] takes its default. *)
Definition bare_scenario (recall_target region : string)
  : MasterAnalysisAgent.Scenario :=
  MasterAnalysisAgent.mkScenario
    (Some [(youth, 30); (middle, 45); (elder, 25)]) (Some recall_target)
    None None None None None None None None (Some region) None None None None None.

(** ** WeatherAnalyzer: simulated weather *)

(** [random.choice(seq)] on a non-empty sequence: one unit draw scaled to
    the indices of the sequence. *)
Definition choice {A : Type} (seq : list A) (default : A) (g : Rng) : A * Rng :=
  let '(u, g) := random g in
  (nth (Z.to_nat (Qfloor (u * inject_Z (Z.of_nat (List.length seq))))) seq default, g).

Module WeatherAnalyzer.

Record Data : Type := mkData {
  temperature : Z;
  rainfall : Q;
  condition : string
}.

Definition get_weather_data (region : string) (g : Rng) : Data * Rng :=
  let '(temperature, g) := randint 20 35 g in
  let '(rainfall, g) := choice [0; 0; 0; 2; 5; 8; 12] 0 g in
  (mkData temperature rainfall "晴天", g).

End WeatherAnalyzer.

(** * Properties *)

(** ** Comparisons, [max] and [min] *)

Lemma Qltb_true (a b : Q) : Qltb a b = true <-> a < b.
Proof.
  unfold Qltb. rewrite negb_true_iff, <- not_true_iff_false, Qle_bool_iff.
  split; [apply Qnot_le_lt | apply Qlt_not_le].
Qed.

Lemma Qltb_false (a b : Q) : Qltb a b = false <-> b <= a.
Proof.
  unfold Qltb. rewrite negb_false_iff. apply Qle_bool_iff.
Qed.

Lemma Qle_bool_false (a b : Q) : Qle_bool a b = false <-> b < a.
Proof.
  rewrite <- not_true_iff_false, Qle_bool_iff.
  split; [apply Qnot_le_lt | apply Qlt_not_le].
Qed.

(** Splits on every comparison under a [py_max], [py_min] or conditional
    and turns the outcomes into order facts. *)
Ltac by_comparisons :=
  unfold py_max, py_min in *;
  repeat match goal with
    | |- context [Qltb ?a ?b] =>
        let E := fresh "E" in
        destruct (Qltb a b) eqn:E;
        [apply Qltb_true in E | apply Qltb_false in E]
    | |- context [Qle_bool ?a ?b] =>
        let E := fresh "E" in
        destruct (Qle_bool a b) eqn:E;
        [apply Qle_bool_iff in E | apply Qle_bool_false in E]
    | _ : context [Qltb ?a ?b] |- _ =>
        let E := fresh "E" in
        destruct (Qltb a b) eqn:E;
        [apply Qltb_true in E | apply Qltb_false in E]
    | _ : context [Qle_bool ?a ?b] |- _ =>
        let E := fresh "E" in
        destruct (Qle_bool a b) eqn:E;
        [apply Qle_bool_iff in E | apply Qle_bool_false in E]
    end.

Lemma py_max_lower (a b : Q) : a <= py_max a b /\ b <= py_max a b.
Proof. by_comparisons; lra. Qed.

Lemma py_min_upper (a b : Q) : py_min a b <= a /\ py_min a b <= b.
Proof. by_comparisons; lra. Qed.

Lemma clamp_between (lo hi x : Q) :
  lo <= hi -> lo <= py_max lo (py_min x hi) <= hi.
Proof. intros; by_comparisons; lra. Qed.

Lemma py_min_monotone (a b c : Q) : a <= b -> py_min a c <= py_min b c.
Proof. intros; by_comparisons; lra. Qed.

Lemma py_max_monotone (a b c : Q) : a <= b -> py_max c a <= py_max c b.
Proof. intros; by_comparisons; lra. Qed.

(** Division by the two constants the engine divides by, for [lra]. *)
Lemma Qdiv_100 (x : Q) : x / 100 == x * 0.01.
Proof. field. Qed.

Lemma Qdiv_2 (x : Q) : x / 2 == x * 0.5.
Proof. field. Qed.

(** Names every quotient by 100 or by 2 and keeps its defining equation. *)
Ltac name_quotients :=
  repeat match goal with
    | |- context [?x / 100] =>
        let q := fresh "q" in
        pose proof (Qdiv_100 x); set (q := x / 100) in *; clearbody q
    | |- context [?x / 2] =>
        let q := fresh "q" in
        pose proof (Qdiv_2 x); set (q := x / 2) in *; clearbody q
    end.

(** ** Dictionaries *)

Lemma get_set {V : Type} (d : dict V) (k k' : string) (v : V) :
  get (set d k v) k' = if String.eqb k' k then Some v else get d k'.
Proof.
  induction d as [|[k0 v0] rest IH]; simpl.
  - reflexivity.
  - destruct (String.eqb_spec k k0) as [->|Hk]; simpl.
    + destruct (String.eqb k' k0); reflexivity.
    + rewrite IH. destruct (String.eqb_spec k' k0) as [->|Hk'].
      * destruct (String.eqb_spec k0 k); [congruence | reflexivity].
      * reflexivity.
Qed.

Lemma mem_set {V : Type} (d : dict V) (k k' : string) (v : V) :
  mem (set d k v) k' = String.eqb k' k || mem d k'.
Proof.
  unfold mem. rewrite get_set. destruct (String.eqb k' k); reflexivity.
Qed.

Lemma get_keys {V : Type} (d : dict V) (k : string) :
  In k (keys d) -> exists v, get d k = Some v.
Proof.
  induction d as [|[k0 v0] rest IH]; simpl; [tauto|].
  intros [->|Hin].
  - rewrite String.eqb_refl. eauto.
  - destruct (String.eqb k k0); eauto.
Qed.

Lemma in_list_In (k : string) (l : list string) : in_list k l = true <-> In k l.
Proof.
  unfold in_list. rewrite existsb_exists. split.
  - intros (x & Hx & E). apply String.eqb_eq in E. now subst.
  - intros H. exists k. split; [assumption | apply String.eqb_refl].
Qed.

(** ** The embedding on concrete inputs *)

Example split_key :
  split "韓國瑜 (2020年罷免成功)" = ["韓國瑜"; "(2020年罷免成功)"].
Proof. reflexivity. Qed.

Example py_len_counts_code_points : py_len "韓國瑜" = 3%nat.
Proof. reflexivity. Qed.

Example intensity_exact :
  MasterAnalysisAgent._get_dynamic_political_intensity
    (Some "韓國瑜 (2020年罷免成功)") == 1.8.
Proof. vm_compute. reflexivity. Qed.

Example intensity_fuzzy :
  MasterAnalysisAgent._get_dynamic_political_intensity (Some "罷免柯文哲") == 1.6.
Proof. vm_compute. reflexivity. Qed.

Example intensity_default :
  MasterAnalysisAgent._get_dynamic_political_intensity (Some "一般立委") == 1.0
  /\ MasterAnalysisAgent._get_dynamic_political_intensity None == 1.0.
Proof. split; vm_compute; reflexivity. Qed.

Example region_multiplier_first_match :
  RegionalGeographyAgent._get_region_multiplier "高雄市第3選區" == 1.06
  /\ RegionalGeographyAgent._get_region_multiplier "" == 1.0.
Proof. split; vm_compute; reflexivity. Qed.

Example regional_defaults :
  RegionalGeographyAgent.adjustment_factor
    (RegionalGeographyAgent.analyze "" 55 70) == 1.04.
Proof. vm_compute. reflexivity. Qed.

Example media_youth_baseline :
  option_map MediaEnvironmentAgent.media_coefficient
             (get Inputs.baseline_media youth)
  = Some (0.5 + 1.0 * 0.3 * 1.1 * 0.3 + 1.0 * 0.25 * 1.2 * 0.3
          + 1.0 * 0.25 * 1.0 * 0.3 + 1.0 * 0.2 * 1.3 * 0.3).
Proof. reflexivity. Qed.

Example motivation_middle_contested :
  match PsychologicalMotivationAgent.analyze Inputs.default_ages "韓國瑜" [] with
  | Ok r =>
      match get r middle with
      | Some e => PsychologicalMotivationAgent.voting_intention e == 0.5184
      | None => False
      end
  | Raise _ => False
  end.
Proof. vm_compute. reflexivity. Qed.

Example predict_without_age_structure (g : Rng) :
  MasterAnalysisAgent.predict Inputs.empty_scenario g
  = (Raise (KeyError "age_structure"), g).
Proof. reflexivity. Qed.

Example predict_consumes_draws :
  pos (snd (MasterAnalysisAgent.predict Inputs.baseline Inputs.ramp)) = 23%nat.
Proof. vm_compute. reflexivity. Qed.

(** ** The verdict *)

(** C3: the recall passes exactly when turnout is at least 25 and
    agreement is strictly above 50 (percent scale); at turnout 25 and
    agreement 50 it does not pass.  The same rule relates the verdict of a
    prediction to its two headline numbers. *)
Theorem will_pass_rule :
  (forall turnout agreement,
      fst (MasterAnalysisAgent._determine_recall_result turnout agreement) = true
      <-> 25 <= turnout /\ 50 < agreement)
  /\ (forall turnout agreement,
         turnout == 25 -> agreement == 50 ->
         fst (MasterAnalysisAgent._determine_recall_result turnout agreement) = false)
  /\ (forall s g r,
         fst (MasterAnalysisAgent.predict s g) = Ok r ->
         MasterAnalysisAgent.will_pass r = true
         <-> 25 <= MasterAnalysisAgent.predicted_turnout r
             /\ 50 < MasterAnalysisAgent.predicted_agreement r).
Proof.
  assert (rule : forall turnout agreement,
             fst (MasterAnalysisAgent._determine_recall_result turnout agreement) = true
             <-> 25 <= turnout /\ 50 < agreement).
  { intros t a. unfold MasterAnalysisAgent._determine_recall_result.
    by_comparisons; simpl; split; try discriminate; try lra; intros; split; lra || reflexivity. }
  split; [exact rule | split].
  - intros t a Ht Ha. apply not_true_iff_false. rewrite rule. lra.
  - intros s g r. unfold MasterAnalysisAgent.predict.
    destruct (MasterAnalysisAgent.collect s) as [c|e]; [|discriminate].
    destruct (ForumSentimentAgent.analyze _ _ _ g) as [sr g'].
    unfold MasterAnalysisAgent.conclude. cbn [fst].
    destruct (MasterAnalysisAgent._calculate_turnout _ _ _ _ _ _ _) as [t|e];
      [|discriminate].
    cbn [bind]. specialize (rule t (MasterAnalysisAgent._calculate_agreement t sr
                                      (Some (MasterAnalysisAgent.c_target c)))).
    destruct (MasterAnalysisAgent._determine_recall_result _ _) as [w why].
    intros [= <-]. exact rule.
Qed.

Lemma will_pass_rule_witness :
  fst (MasterAnalysisAgent._determine_recall_result 25 50) = false.
Proof.
  destruct will_pass_rule as (_ & boundary & _).
  apply boundary; reflexivity.
Defined.

(** ** Agreement and turnout are computed independently *)

(** C10: the agreement computation ignores the turnout it is handed: any
    two turnout values give the same agreement for the same sentiment
    breakdown and target. *)
Theorem agreement_ignores_turnout :
  forall turnout1 turnout2 sentiment target,
    MasterAnalysisAgent._calculate_agreement turnout1 sentiment target
    = MasterAnalysisAgent._calculate_agreement turnout2 sentiment target.
Proof. reflexivity. Qed.

(** ** The weather coefficient *)

Ltac weather_cases :=
  unfold ClimateConditionAgent.analyze, ClimateConditionAgent.after_temperature,
    ClimateConditionAgent.after_rainfall, ClimateConditionAgent.after_condition,
    Spec.weather;
  cbn [ClimateConditionAgent.weather_coefficient];
  match goal with
  | |- context [in_list ?c ?l] => destruct (in_list c l)
  end;
  by_comparisons; try lra.

Lemma weather_at_least_floor (temperature rainfall : Q) (condition : string) :
  0.5 <= ClimateConditionAgent.weather_coefficient
           (ClimateConditionAgent.analyze temperature rainfall condition).
Proof. weather_cases. Qed.

Lemma weather_at_most_one (temperature rainfall : Q) (condition : string) :
  ClimateConditionAgent.weather_coefficient
    (ClimateConditionAgent.analyze temperature rainfall condition) <= 1.0.
Proof. weather_cases. Qed.

(** C2: the code misses the two larger penalties of the claim, which its
    own [elif temperature > 35] and [elif rainfall > 15] branches were
    written for: the tests [> 30] and [> 5] come first and win.  Up to 35
    degrees and 15 mm the code returns what section 4.4 says; above 35
    degrees it returns 0.05 more, above 15 mm 0.10 more, above both 0.15
    more.  At 36 degrees without rain under a clear sky the code returns
    0.95 where section 4.4 gives 0.90; at 38 degrees, 20 mm and a typhoon
    it returns 0.70 where the penalties of section 4.4 give 0.55. *)
Theorem weather_misses_larger_penalties :
  (forall temperature rainfall condition,
      temperature <= 35 -> rainfall <= 15 ->
      ClimateConditionAgent.weather_coefficient
        (ClimateConditionAgent.analyze temperature rainfall condition)
      == Spec.weather temperature rainfall condition)
  /\ (forall temperature rainfall condition,
         35 < temperature -> rainfall <= 15 ->
         ClimateConditionAgent.weather_coefficient
           (ClimateConditionAgent.analyze temperature rainfall condition)
         == Spec.weather temperature rainfall condition + 0.05)
  /\ (forall temperature rainfall condition,
         temperature <= 35 -> 15 < rainfall ->
         ClimateConditionAgent.weather_coefficient
           (ClimateConditionAgent.analyze temperature rainfall condition)
         == Spec.weather temperature rainfall condition + 0.10)
  /\ (forall temperature rainfall condition,
         35 < temperature -> 15 < rainfall ->
         ClimateConditionAgent.weather_coefficient
           (ClimateConditionAgent.analyze temperature rainfall condition)
         == Spec.weather temperature rainfall condition + 0.15)
  /\ (ClimateConditionAgent.weather_coefficient
        (ClimateConditionAgent.analyze 36 0 "晴天") == 0.95
      /\ Spec.weather 36 0 "晴天" == 0.90)
  /\ (ClimateConditionAgent.weather_coefficient
        (ClimateConditionAgent.analyze 38 20 "颱風") == 0.70
      /\ Spec.weather 38 20 "颱風" == 0.55).
Proof.
  repeat apply conj.
  - intros t r c Ht Hr. weather_cases.
  - intros t r c Ht Hr. weather_cases.
  - intros t r c Ht Hr. weather_cases.
  - intros t r c Ht Hr. weather_cases.
  - vm_compute. reflexivity.
  - vm_compute. reflexivity.
  - vm_compute. reflexivity.
  - vm_compute. reflexivity.
Qed.

Lemma weather_misses_larger_penalties_witness :
  ClimateConditionAgent.weather_coefficient
    (ClimateConditionAgent.analyze 36 0 "晴天")
  == Spec.weather 36 0 "晴天" + 0.05.
Proof.
  destruct weather_misses_larger_penalties as (_ & above & _).
  apply above; vm_compute; [reflexivity | discriminate].
Defined.

(** ** Ranges of the coefficients *)

Section LoopInvariants.

Variable P : MediaEnvironmentAgent.Entry -> Prop.
Hypothesis clamped : forall x platforms,
    P (MediaEnvironmentAgent.mkEntry (py_max 0.5 (py_min x 1.5)) platforms).

(** Every entry the media loop stores satisfies what the clamped ones do. *)
Lemma media_loop_invariant (base : Q) (groups : list string) :
  forall results r,
    (forall k e, get results k = Some e -> P e) ->
    MediaEnvironmentAgent.loop base groups results = Ok r ->
    forall k e, get r k = Some e -> P e.
Proof.
  induction groups as [|group rest IH]; intros results r Hinv; simpl.
  - intros [= <-]. exact Hinv.
  - unfold index.
    destruct (get MediaEnvironmentAgent.media_weights group) as [weights|];
      simpl; [|discriminate].
    apply IH. intros k e. rewrite get_set.
    destruct (String.eqb k group); [intros [= <-]; apply clamped | apply Hinv].
Qed.

End LoopInvariants.

Section SocialInvariants.

Variable P : SocialAtmosphereAgent.Entry -> Prop.
Hypothesis clamped : forall x s h p,
    P (SocialAtmosphereAgent.mkEntry (py_max 0.5 (py_min x 1.5)) s h p).

Lemma social_loop_invariant (s h p : Q) (groups : list string) :
  forall results r,
    (forall k e, get results k = Some e -> P e) ->
    SocialAtmosphereAgent.loop s h p groups results = Ok r ->
    forall k e, get r k = Some e -> P e.
Proof.
  induction groups as [|group rest IH]; intros results r Hinv; simpl.
  - intros [= <-]. exact Hinv.
  - unfold index.
    destruct (get SocialAtmosphereAgent.sensitivity_map group) as [sens|];
      simpl; [|discriminate].
    apply IH. intros k e. rewrite get_set.
    destruct (String.eqb k group); [intros [= <-]; apply clamped | apply Hinv].
Qed.

End SocialInvariants.

Lemma regional_range (region : string) (historical_turnout mobilization : Q) :
  0.95 <= RegionalGeographyAgent.adjustment_factor
            (RegionalGeographyAgent.analyze region historical_turnout mobilization)
       <= 1.1.
Proof.
  unfold RegionalGeographyAgent.analyze.
  cbn [RegionalGeographyAgent.adjustment_factor].
  generalize (RegionalGeographyAgent.after_history historical_turnout 1.0
              * (0.9 + mobilization / 100 * 0.2)
              * RegionalGeographyAgent._get_region_multiplier region).
  intros x. by_comparisons; lra.
Qed.

(** C6: every coefficient the Media estimator and the Climate (social-mood)
    estimator return for an age group lies in [0.5, 1.5]; the Regional
    coefficient lies in [0.95, 1.1]; the Weather coefficient lies in
    [0.5, 1.0]. *)
Theorem coefficient_ranges :
  (forall ages target coverage r k e,
      MediaEnvironmentAgent.analyze ages target coverage = Ok r ->
      get r k = Some e ->
      0.5 <= MediaEnvironmentAgent.media_coefficient e <= 1.5)
  /\ (forall forum heat pressure r k e,
         SocialAtmosphereAgent.analyze forum heat pressure = Ok r ->
         get r k = Some e ->
         0.5 <= SocialAtmosphereAgent.social_coefficient e <= 1.5)
  /\ (forall region historical_turnout mobilization,
         let e := RegionalGeographyAgent.analyze region historical_turnout
                                                 mobilization in
         0.95 <= RegionalGeographyAgent.adjustment_factor e <= 1.1
         /\ 0.95 <= RegionalGeographyAgent.regional_coefficient e <= 1.1)
  /\ (forall temperature rainfall condition,
         0.5 <= ClimateConditionAgent.weather_coefficient
                  (ClimateConditionAgent.analyze temperature rainfall condition)
             <= 1.0).
Proof.
  split; [|split; [|split]].
  - intros ages target coverage r k e Hr He.
    unfold MediaEnvironmentAgent.analyze in Hr.
    eapply (media_loop_invariant
              (fun e => 0.5 <= MediaEnvironmentAgent.media_coefficient e <= 1.5));
      [ | | exact Hr | exact He].
    + intros x platforms. apply clamp_between. lra.
    + discriminate.
  - intros forum heat pressure r k e Hr He.
    unfold SocialAtmosphereAgent.analyze in Hr.
    eapply (social_loop_invariant
              (fun e => 0.5 <= SocialAtmosphereAgent.social_coefficient e <= 1.5));
      [ | | exact Hr | exact He].
    + intros x s h p. apply clamp_between. lra.
    + discriminate.
  - intros region historical_turnout mobilization e.
    split; apply regional_range.
  - intros temperature rainfall condition.
    split; [apply weather_at_least_floor | apply weather_at_most_one].
Qed.

Lemma coefficient_ranges_witness :
  exists r e r' e',
    MediaEnvironmentAgent.analyze Inputs.default_ages "一般立委" [] = Ok r
    /\ get r youth = Some e
    /\ 0.5 <= MediaEnvironmentAgent.media_coefficient e <= 1.5
    /\ SocialAtmosphereAgent.analyze [] 70 60 = Ok r'
    /\ get r' elder = Some e'
    /\ 0.5 <= SocialAtmosphereAgent.social_coefficient e' <= 1.5.
Proof.
  destruct coefficient_ranges as (media_range & social_range & _).
  do 4 eexists.
  split; [vm_compute; reflexivity|].
  split; [vm_compute; reflexivity|].
  split.
  - eapply (media_range Inputs.default_ages "一般立委" []) with (k := youth);
      vm_compute; reflexivity.
  - split; [vm_compute; reflexivity|].
    split; [vm_compute; reflexivity|].
    eapply (social_range [] 70 60) with (k := elder); vm_compute; reflexivity.
Defined.

(** ** Monotonicity in the discussion heat *)

(** The dictionary the social-mood estimator returns, entry by entry. *)
Lemma social_analyze_entries (forum : dict Q) (heat pressure : Q) :
  let s := SocialAtmosphereAgent._calculate_sentiment_score forum in
  let h := SocialAtmosphereAgent._calculate_heat_multiplier heat in
  let p := SocialAtmosphereAgent._calculate_pressure_factor pressure in
  let entry sensitivity :=
    SocialAtmosphereAgent.mkEntry
      (py_max 0.5 (py_min (0.7 + s * h * p * sensitivity) 1.5)) s h p in
  SocialAtmosphereAgent.analyze forum heat pressure
  = Ok [(youth, entry 0.3); (middle, entry 0.25); (elder, entry 0.2)].
Proof. reflexivity. Qed.

Lemma social_coefficient_monotone (s h1 h2 p sensitivity : Q) :
  0 <= s -> 0 <= p -> 0 <= sensitivity -> h1 <= h2 ->
  py_max 0.5 (py_min (0.7 + s * h1 * p * sensitivity) 1.5)
  <= py_max 0.5 (py_min (0.7 + s * h2 * p * sensitivity) 1.5).
Proof.
  intros Hs Hp Hsens Hh.
  apply py_max_monotone, py_min_monotone.
  assert (0 <= s * p * sensitivity) as Hc.
  { apply Qmult_le_0_compat; [apply Qmult_le_0_compat|]; assumption. }
  setoid_replace (s * h1 * p * sensitivity) with (h1 * (s * p * sensitivity)) by ring.
  setoid_replace (s * h2 * p * sensitivity) with (h2 * (s * p * sensitivity)) by ring.
  generalize dependent (s * p * sensitivity). intros c Hc. nra.
Qed.

(** C7: with forum sentiment ratios and peer pressure in their declared
    ranges (non-negative), raising the discussion heat never lowers the
    coefficient of any of the three age groups. *)
Theorem social_coefficient_monotone_in_heat :
  forall forum pressure heat1 heat2 k,
    0 <= get_default forum "dcard_positive" 20 ->
    0 <= get_default forum "ptt_positive" 30 ->
    0 <= pressure ->
    heat1 <= heat2 ->
    In k SocialAtmosphereAgent.age_groups ->
    exists c1 c2,
      Spec.social_value (SocialAtmosphereAgent.analyze forum heat1 pressure) k = Some c1
      /\ Spec.social_value (SocialAtmosphereAgent.analyze forum heat2 pressure) k = Some c2
      /\ c1 <= c2.
Proof.
  intros forum pressure heat1 heat2 k Hd Hp Hpr Hheat Hk.
  rewrite !social_analyze_entries. cbv zeta.
  assert (0 <= SocialAtmosphereAgent._calculate_sentiment_score forum) as Hs.
  { unfold SocialAtmosphereAgent._calculate_sentiment_score.
    name_quotients. lra. }
  assert (0 <= SocialAtmosphereAgent._calculate_pressure_factor pressure) as Hf.
  { unfold SocialAtmosphereAgent._calculate_pressure_factor.
    name_quotients. by_comparisons; lra. }
  assert (SocialAtmosphereAgent._calculate_heat_multiplier heat1
          <= SocialAtmosphereAgent._calculate_heat_multiplier heat2) as Hm.
  { unfold SocialAtmosphereAgent._calculate_heat_multiplier.
    apply py_min_monotone. name_quotients. lra. }
  destruct Hk as [<-|[<-|[<-|[]]]];
    (do 2 eexists; split; [reflexivity|]; split; [reflexivity|];
     apply social_coefficient_monotone; trivial; lra).
Qed.

(** The ranges matter: with a sentiment ratio of -200 the coefficient of
    the youth falls from 0.544 to the floor as the heat rises from 0 to 50. *)
Remark social_coefficient_outside_ranges :
  match Spec.social_value
          (SocialAtmosphereAgent.analyze
             [("dcard_positive", -200); ("ptt_positive", 0)] 0 60) youth,
        Spec.social_value
          (SocialAtmosphereAgent.analyze
             [("dcard_positive", -200); ("ptt_positive", 0)] 50 60) youth with
  | Some c1, Some c2 => c2 < c1
  | _, _ => False
  end.
Proof. vm_compute. reflexivity. Qed.

Lemma social_coefficient_monotone_in_heat_witness :
  exists c1 c2,
    Spec.social_value (SocialAtmosphereAgent.analyze [] 10 60) youth = Some c1
    /\ Spec.social_value (SocialAtmosphereAgent.analyze [] 40 60) youth = Some c2
    /\ c1 <= c2.
Proof.
  apply (social_coefficient_monotone_in_heat [] 60 10 40 youth);
    try (vm_compute; discriminate).
  left; reflexivity.
Defined.

(** ** The raw turnout sum *)

Section TurnoutLoop.

Variable ages : dict Q.
Variable psychological : dict PsychologicalMotivationAgent.Entry.
Variable media : dict MediaEnvironmentAgent.Entry.
Variable social : dict SocialAtmosphereAgent.Entry.

Let present := Spec.in_all_three psychological media social.
Let term := Spec.contribution ages psychological media social.

Lemma mem_get {V : Type} (d : dict V) (k : string) :
  mem d k = true -> exists v, get d k = Some v.
Proof. unfold mem. destruct (get d k); [eauto | discriminate]. Qed.

(** The loop never raises, and adds the terms of the groups that are in all
    three coefficient maps, in order. *)
Lemma turnout_loop_sum (groups : list string) :
  forall acc,
    (forall k, In k groups -> In k (keys ages)) ->
    MasterAnalysisAgent.turnout_loop ages psychological media social groups acc
    = Ok (fold_left (fun acc k => acc + term k) (filter present groups) acc).
Proof.
  induction groups as [|k rest IH]; intros acc Hin; simpl; [reflexivity|].
  subst present term. unfold Spec.in_all_three at 1.
  destruct (mem psychological k && mem media k && mem social k) eqn:E.
  - apply andb_prop in E as [E Hs]. apply andb_prop in E as [Hp Hm].
    destruct (get_keys ages k (Hin k (or_introl eq_refl))) as [share Hshare].
    destruct (mem_get _ _ Hp) as [p Hp'].
    destruct (mem_get _ _ Hm) as [m Hm'].
    destruct (mem_get _ _ Hs) as [s Hs'].
    assert (Spec.contribution ages psychological media social k
            = share / 100 * PsychologicalMotivationAgent.voting_intention p
              * MediaEnvironmentAgent.media_coefficient m
              * SocialAtmosphereAgent.social_coefficient s) as Hterm.
    { unfold Spec.contribution. rewrite Hshare, Hp', Hm', Hs'. reflexivity. }
    unfold index. rewrite Hshare, Hp', Hm', Hs'. cbn [bind fold_left].
    rewrite IH by (intros; apply Hin; now right).
    rewrite Hterm. reflexivity.
  - apply IH. intros; apply Hin; now right.
Qed.

(** A further age group that one of the maps lacks changes nothing. *)
Lemma turnout_loop_extra (extra : string) (share : Q) (groups : list string) :
  present extra = false ->
  forall acc,
    MasterAnalysisAgent.turnout_loop ((extra, share) :: ages)
      psychological media social groups acc
    = MasterAnalysisAgent.turnout_loop ages psychological media social groups acc.
Proof.
  intros Hextra. induction groups as [|k rest IH]; intros acc; simpl; [reflexivity|].
  destruct (mem psychological k && mem media k && mem social k) eqn:E.
  - destruct (String.eqb_spec k extra) as [->|Hk].
    + subst present. unfold Spec.in_all_three in Hextra. congruence.
    + apply String.eqb_neq in Hk.
      assert (index ((extra, share) :: ages) k = index ages k) as ->.
      { unfold index. simpl. rewrite Hk. reflexivity. }
      destruct (index ages k); simpl; [|reflexivity].
      destruct (index psychological k); simpl; [|reflexivity].
      destruct (index media k); simpl; [|reflexivity].
      destruct (index social k); simpl; [|reflexivity].
      apply IH.
  - apply IH.
Qed.

End TurnoutLoop.

(** C9: the turnout computation never raises; its raw sum ranges exactly
    over the age groups of the age structure that are present in all three
    coefficient maps; and an age group absent from one of the maps is
    skipped, so adding it to the age structure leaves the turnout unchanged. *)
Theorem turnout_skips_missing_groups :
  forall ages psychological media social climate regional target,
    let present :=
      filter (Spec.in_all_three psychological media social) (keys ages) in
    let raw := Spec.raw_turnout ages psychological media social present in
    MasterAnalysisAgent.turnout_loop ages psychological media social (keys ages) 0
    = Ok raw
    /\ MasterAnalysisAgent._calculate_turnout
         ages psychological media social climate regional target
       = Ok (py_max
               (raw * ClimateConditionAgent.weather_coefficient climate
                * RegionalGeographyAgent.adjustment_factor regional
                * MasterAnalysisAgent._get_dynamic_political_intensity target
                * 100) 20)
    /\ forall extra share,
        Spec.in_all_three psychological media social extra = false ->
        MasterAnalysisAgent._calculate_turnout
          ((extra, share) :: ages) psychological media social climate regional target
        = MasterAnalysisAgent._calculate_turnout
            ages psychological media social climate regional target.
Proof.
  intros ages psychological media social climate regional target present raw.
  assert (MasterAnalysisAgent.turnout_loop ages psychological media social
            (keys ages) 0 = Ok raw) as Hloop.
  { apply turnout_loop_sum. auto. }
  split; [exact Hloop | split].
  - unfold MasterAnalysisAgent._calculate_turnout. rewrite Hloop. reflexivity.
  - intros extra share Hextra.
    unfold MasterAnalysisAgent._calculate_turnout. simpl keys.
    simpl MasterAnalysisAgent.turnout_loop.
    unfold Spec.in_all_three in Hextra. rewrite Hextra.
    rewrite turnout_loop_extra by exact Hextra. reflexivity.
Qed.

Lemma turnout_skips_missing_groups_witness :
  MasterAnalysisAgent._calculate_turnout
    (("未知層", 40) :: Inputs.default_ages)
    Inputs.baseline_psychological Inputs.baseline_media Inputs.baseline_social
    (ClimateConditionAgent.analyze 25 0 "晴天")
    (RegionalGeographyAgent.analyze "" 55 70) None
  = MasterAnalysisAgent._calculate_turnout
      Inputs.default_ages
      Inputs.baseline_psychological Inputs.baseline_media Inputs.baseline_social
      (ClimateConditionAgent.analyze 25 0 "晴天")
      (RegionalGeographyAgent.analyze "" 55 70) None.
Proof.
  apply turnout_skips_missing_groups. reflexivity.
Defined.

(** ** Totality of the Motivation and Media estimators *)

Lemma base_params_known (target k : string) :
  mem (PsychologicalMotivationAgent._get_base_params target) k = Spec.known_group k.
Proof.
  unfold PsychologicalMotivationAgent._get_base_params, Spec.known_group, in_list, mem.
  destruct (any_in _ target); simpl;
    destruct (String.eqb k youth), (String.eqb k middle), (String.eqb k elder);
    reflexivity.
Qed.

Lemma media_weights_known (k : string) :
  mem MediaEnvironmentAgent.media_weights k = Spec.known_group k.
Proof.
  unfold MediaEnvironmentAgent.media_weights, Spec.known_group, in_list, mem. simpl.
  destruct (String.eqb k youth), (String.eqb k middle), (String.eqb k elder);
    reflexivity.
Qed.

Lemma index_mem {V : Type} (d : dict V) (k : string) :
  (mem d k = true -> exists v, index d k = Ok v)
  /\ (mem d k = false -> index d k = Raise (KeyError k)).
Proof.
  unfold mem, index. destruct (get d k); split; intros; eauto; discriminate.
Qed.

(** The motivation loop answers for every key when all keys are known. *)
Lemma psychological_loop_total (base : dict PsychologicalMotivationAgent.Params)
      (items : dict Q) :
  forall results,
    forallb (mem base) (keys items) = true ->
    exists r,
      PsychologicalMotivationAgent.loop base items results = Ok r
      /\ forall k, In k (keys items) \/ mem results k = true -> mem r k = true.
Proof.
  induction items as [|[k pct] rest IH]; intros results Hall; simpl in *.
  - exists results. split; [reflexivity | tauto].
  - apply andb_prop in Hall as [Hk Hrest].
    destruct (proj1 (index_mem base k) Hk) as [p ->]. simpl.
    destruct (IH (set results k
                    (PsychologicalMotivationAgent.mkEntry pct p
                       (PsychologicalMotivationAgent.political_interest p
                        * PsychologicalMotivationAgent.political_efficacy p
                        * PsychologicalMotivationAgent.economic_motivation p)))
                 Hrest) as (r & Hr & Hmem).
    exists r. split; [exact Hr|].
    intros k' [[<-|Hin]|Hres]; apply Hmem.
    + right. rewrite mem_set, String.eqb_refl. reflexivity.
    + now left.
    + right. rewrite mem_set, Hres. apply orb_true_r.
Qed.

(** It raises [KeyError] on the first key the table lacks. *)
Lemma psychological_loop_raises (base : dict PsychologicalMotivationAgent.Params)
      (items : dict Q) :
  forall results,
    forallb (mem base) (keys items) = false ->
    exists k,
      In k (keys items) /\ mem base k = false
      /\ PsychologicalMotivationAgent.loop base items results = Raise (KeyError k).
Proof.
  induction items as [|[k pct] rest IH]; intros results Hall; simpl in *.
  - discriminate.
  - destruct (mem base k) eqn:Hk; simpl in Hall.
    + destruct (proj1 (index_mem base k) Hk) as [p ->]. simpl.
      destruct (IH (set results k
                      (PsychologicalMotivationAgent.mkEntry pct p
                         (PsychologicalMotivationAgent.political_interest p
                          * PsychologicalMotivationAgent.political_efficacy p
                          * PsychologicalMotivationAgent.economic_motivation p)))
                   Hall) as (k' & Hin & Hk' & Hr).
      exists k'. auto.
    + exists k. rewrite (proj2 (index_mem base k) Hk). auto.
Qed.

Lemma media_loop_total (base : Q) (groups : list string) :
  forall results,
    forallb (mem MediaEnvironmentAgent.media_weights) groups = true ->
    exists r,
      MediaEnvironmentAgent.loop base groups results = Ok r
      /\ forall k, In k groups \/ mem results k = true -> mem r k = true.
Proof.
  induction groups as [|k rest IH]; intros results Hall; simpl in *.
  - exists results. split; [reflexivity | tauto].
  - apply andb_prop in Hall as [Hk Hrest].
    destruct (proj1 (index_mem _ k) Hk) as [w ->]. simpl.
    match goal with
    | |- context [MediaEnvironmentAgent.loop base rest ?res] =>
        destruct (IH res Hrest) as (r & Hr & Hmem)
    end.
    exists r. split; [exact Hr|].
    intros k' [[<-|Hin]|Hres]; apply Hmem.
    + right. rewrite mem_set, String.eqb_refl. reflexivity.
    + now left.
    + right. rewrite mem_set, Hres. apply orb_true_r.
Qed.

Lemma media_loop_raises (base : Q) (groups : list string) :
  forall results,
    forallb (mem MediaEnvironmentAgent.media_weights) groups = false ->
    exists k,
      In k groups /\ mem MediaEnvironmentAgent.media_weights k = false
      /\ MediaEnvironmentAgent.loop base groups results = Raise (KeyError k).
Proof.
  induction groups as [|k rest IH]; intros results Hall; simpl in *.
  - discriminate.
  - destruct (mem MediaEnvironmentAgent.media_weights k) eqn:Hk; simpl in Hall.
    + destruct (proj1 (index_mem _ k) Hk) as [w ->]. simpl.
      match goal with
      | |- context [MediaEnvironmentAgent.loop base rest ?res] =>
          destruct (IH res Hall) as (k' & Hin & Hk' & Hr)
      end.
      exists k'. auto.
    + exists k. rewrite (proj2 (index_mem _ k) Hk). auto.
Qed.

Lemma forallb_ext_eq {A : Type} (f g : A -> bool) (l : list A) :
  (forall x, f x = g x) -> forallb f l = forallb g l.
Proof. intros H. induction l; simpl; [|rewrite H, IHl]; reflexivity. Qed.

(** C4, as stated, fails: on an age-shares map with a key the parameter
    tables lack, both estimators raise [KeyError] for that key. *)
Lemma unknown_age_group_raises :
  PsychologicalMotivationAgent.analyze Inputs.ages_with_unknown "一般立委" []
  = Raise (KeyError "未知層")
  /\ MediaEnvironmentAgent.analyze Inputs.ages_with_unknown "一般立委" []
     = Raise (KeyError "未知層").
Proof. split; reflexivity. Qed.

(** C4, amended: the Motivation and Media estimators return a result, with
    an entry for every age group of the map, when every key of the
    age-shares map is one of the three age groups of the parameter tables;
    when some key is not, they raise [KeyError] for such a key instead of
    answering.  The Climate (social-mood) estimator always returns. *)
Theorem estimators_total_on_known_groups :
  forall ages target context,
    (forallb Spec.known_group (keys ages) = true ->
     (exists r, PsychologicalMotivationAgent.analyze ages target context = Ok r
                /\ forall k, In k (keys ages) -> mem r k = true)
     /\ (exists r, MediaEnvironmentAgent.analyze ages target context = Ok r
                   /\ forall k, In k (keys ages) -> mem r k = true))
    /\ (forallb Spec.known_group (keys ages) = false ->
        (exists k, In k (keys ages) /\ Spec.known_group k = false
                   /\ PsychologicalMotivationAgent.analyze ages target context
                      = Raise (KeyError k))
        /\ (exists k, In k (keys ages) /\ Spec.known_group k = false
                      /\ MediaEnvironmentAgent.analyze ages target context
                         = Raise (KeyError k)))
    /\ (forall forum heat pressure,
           is_ok (SocialAtmosphereAgent.analyze forum heat pressure) = true).
Proof.
  intros ages target context.
  assert (forall l, forallb (mem (PsychologicalMotivationAgent._get_base_params target)) l
                    = forallb Spec.known_group l) as Hp.
  { intros l. apply forallb_ext_eq. apply base_params_known. }
  assert (forall l, forallb (mem MediaEnvironmentAgent.media_weights) l
                    = forallb Spec.known_group l) as Hm.
  { intros l. apply forallb_ext_eq. apply media_weights_known. }
  split; [|split].
  - intros Hall. split.
    + unfold PsychologicalMotivationAgent.analyze.
      destruct (psychological_loop_total
                  (PsychologicalMotivationAgent._get_base_params target) ages [])
        as (r & Hr & Hmem); [rewrite Hp; exact Hall|].
      exists r. split; [exact Hr | intros; apply Hmem; now left].
    + unfold MediaEnvironmentAgent.analyze.
      destruct (media_loop_total
                  (MediaEnvironmentAgent._get_media_attention target) (keys ages) [])
        as (r & Hr & Hmem); [rewrite Hm; exact Hall|].
      exists r. split; [exact Hr | intros; apply Hmem; now left].
  - intros Hsome. split.
    + unfold PsychologicalMotivationAgent.analyze.
      destruct (psychological_loop_raises
                  (PsychologicalMotivationAgent._get_base_params target) ages [])
        as (k & Hin & Hk & Hr); [rewrite Hp; exact Hsome|].
      exists k. rewrite base_params_known in Hk. auto.
    + unfold MediaEnvironmentAgent.analyze.
      destruct (media_loop_raises
                  (MediaEnvironmentAgent._get_media_attention target) (keys ages) [])
        as (k & Hin & Hk & Hr); [rewrite Hm; exact Hsome|].
      exists k. rewrite media_weights_known in Hk. auto.
  - intros forum heat pressure. rewrite social_analyze_entries. reflexivity.
Qed.

Lemma estimators_total_on_known_groups_witness :
  (exists r, PsychologicalMotivationAgent.analyze Inputs.default_ages "一般立委" [] = Ok r
             /\ forall k, In k (keys Inputs.default_ages) -> mem r k = true)
  /\ (exists k, In k (keys Inputs.ages_with_unknown) /\ Spec.known_group k = false
                /\ MediaEnvironmentAgent.analyze Inputs.ages_with_unknown "一般立委" []
                   = Raise (KeyError k)).
Proof.
  split.
  - apply (estimators_total_on_known_groups Inputs.default_ages "一般立委" []).
    reflexivity.
  - apply (estimators_total_on_known_groups Inputs.ages_with_unknown "一般立委" []).
    reflexivity.
Defined.

(** ** The shape of a prediction *)

Lemma calculate_turnout_floor ages psychological media social climate regional target :
  exists t,
    MasterAnalysisAgent._calculate_turnout
      ages psychological media social climate regional target = Ok t
    /\ 20 <= t.
Proof.
  unfold MasterAnalysisAgent._calculate_turnout.
  rewrite (turnout_loop_sum ages psychological media social (keys ages) 0)
    by auto.
  cbn [bind]. eexists. split; [reflexivity|]. apply py_max_lower.
Qed.

Lemma calculate_agreement_range turnout sentiment target :
  10 <= MasterAnalysisAgent._calculate_agreement turnout sentiment target <= 90.
Proof.
  unfold MasterAnalysisAgent._calculate_agreement. cbv zeta.
  match goal with
  | |- context [py_max ?x 10] => generalize x
  end.
  intros x. by_comparisons; lra.
Qed.

(** What [conclude] returns: it never raises, and its fields are the
    results of the three helpers. *)
Lemma conclude_ok (c : MasterAnalysisAgent.Collected)
      (sentiment : ForumSentimentAgent.Entry) :
  exists t,
    MasterAnalysisAgent._calculate_turnout
      (MasterAnalysisAgent.c_ages c) (MasterAnalysisAgent.c_psychological c)
      (MasterAnalysisAgent.c_media c) (MasterAnalysisAgent.c_social c)
      (MasterAnalysisAgent.c_climate c) (MasterAnalysisAgent.c_regional c)
      (Some (MasterAnalysisAgent.c_target c)) = Ok t
    /\ 20 <= t
    /\ let a := MasterAnalysisAgent._calculate_agreement
                  t sentiment (Some (MasterAnalysisAgent.c_target c)) in
       MasterAnalysisAgent.conclude c sentiment
       = Ok (MasterAnalysisAgent.mkPrediction t a
               (fst (MasterAnalysisAgent._determine_recall_result t a))
               (snd (MasterAnalysisAgent._determine_recall_result t a))
               (MasterAnalysisAgent.mkAgentResults
                  (MasterAnalysisAgent.c_psychological c)
                  (MasterAnalysisAgent.c_media c)
                  (MasterAnalysisAgent.c_social c)
                  (MasterAnalysisAgent.c_climate c)
                  (MasterAnalysisAgent.c_regional c) sentiment)).
Proof.
  destruct (calculate_turnout_floor
              (MasterAnalysisAgent.c_ages c) (MasterAnalysisAgent.c_psychological c)
              (MasterAnalysisAgent.c_media c) (MasterAnalysisAgent.c_social c)
              (MasterAnalysisAgent.c_climate c) (MasterAnalysisAgent.c_regional c)
              (Some (MasterAnalysisAgent.c_target c))) as (t & Ht & Hfloor).
  exists t. split; [exact Ht | split; [exact Hfloor|]].
  unfold MasterAnalysisAgent.conclude. rewrite Ht. cbn [bind].
  destruct (MasterAnalysisAgent._determine_recall_result _ _). reflexivity.
Qed.

(** [collect] keeps the two indexed keys of the scenario. *)
Lemma collect_keys (s : MasterAnalysisAgent.Scenario) (c : MasterAnalysisAgent.Collected) :
  MasterAnalysisAgent.collect s = Ok c ->
  MasterAnalysisAgent.age_structure s = Some (MasterAnalysisAgent.c_ages c)
  /\ MasterAnalysisAgent.recall_target s = Some (MasterAnalysisAgent.c_target c).
Proof.
  unfold MasterAnalysisAgent.collect.
  destruct (MasterAnalysisAgent.age_structure s) as [ages|]; [|discriminate].
  destruct (MasterAnalysisAgent.recall_target s) as [target|]; [|discriminate].
  cbn [MasterAnalysisAgent.required bind].
  destruct (PsychologicalMotivationAgent.analyze _ _ _); [|discriminate].
  destruct (MediaEnvironmentAgent.analyze _ _ _); [|discriminate].
  destruct (SocialAtmosphereAgent.analyze _ _ _); [|discriminate].
  cbn [bind]. intros [= <-]. split; reflexivity.
Qed.

(** On a valid scenario the five deterministic agents all answer. *)
Lemma collect_valid (s : MasterAnalysisAgent.Scenario) :
  Spec.valid_scenario s = true -> exists c, MasterAnalysisAgent.collect s = Ok c.
Proof.
  unfold Spec.valid_scenario, MasterAnalysisAgent.collect.
  destruct (MasterAnalysisAgent.age_structure s) as [ages|]; [|discriminate].
  destruct (MasterAnalysisAgent.recall_target s) as [target|]; [|discriminate].
  intros Hvalid. repeat (apply andb_prop in Hvalid as [Hvalid _]).
  cbn [MasterAnalysisAgent.required bind].
  unfold PsychologicalMotivationAgent.analyze, MediaEnvironmentAgent.analyze.
  destruct (psychological_loop_total
              (PsychologicalMotivationAgent._get_base_params target) ages [])
    as (p & -> & _).
  { rewrite (forallb_ext_eq _ Spec.known_group); [exact Hvalid|].
    apply base_params_known. }
  destruct (media_loop_total
              (MediaEnvironmentAgent._get_media_attention target) (keys ages) [])
    as (m & -> & _).
  { rewrite (forallb_ext_eq _ Spec.known_group); [exact Hvalid|].
    apply media_weights_known. }
  cbn [bind]. rewrite social_analyze_entries. cbn [bind]. eauto.
Qed.

(** ** Bounds on the two headline numbers *)

(** C1, as stated, fails: a valid scenario (the default age structure, the
    most contested listed target, sentiment ratios of 60 percent) whose
    predicted turnout exceeds 100 percent. *)
Lemma turnout_exceeds_one_hundred :
  Spec.valid_scenario Inputs.contested = true
  /\ exists r,
      fst (MasterAnalysisAgent.predict Inputs.contested Inputs.ramp) = Ok r
      /\ 100 < MasterAnalysisAgent.predicted_turnout r.
Proof.
  split; [vm_compute; reflexivity|].
  eexists. split; [vm_compute; reflexivity|].
  vm_compute. reflexivity.
Qed.

(** C1, amended: for every valid scenario [predict] returns, with a
    turnout of at least 20 percent (the code applies no cap to it) and an
    agreement between 10 and 90 percent. *)
Theorem prediction_bounds :
  forall s g,
    Spec.valid_scenario s = true ->
    exists r,
      fst (MasterAnalysisAgent.predict s g) = Ok r
      /\ 20 <= MasterAnalysisAgent.predicted_turnout r
      /\ 10 <= MasterAnalysisAgent.predicted_agreement r <= 90.
Proof.
  intros s g Hvalid.
  destruct (collect_valid s Hvalid) as [c Hc].
  unfold MasterAnalysisAgent.predict. rewrite Hc.
  destruct (ForumSentimentAgent.analyze _ _ _ g) as [sentiment g'].
  destruct (conclude_ok c sentiment) as (t & _ & Hfloor & Hconclude).
  cbn [fst]. rewrite Hconclude. eexists. split; [reflexivity|].
  cbn [MasterAnalysisAgent.predicted_turnout MasterAnalysisAgent.predicted_agreement].
  split; [exact Hfloor | apply calculate_agreement_range].
Qed.

Lemma prediction_bounds_witness :
  exists r,
    fst (MasterAnalysisAgent.predict
           (EnhancedDashboardApp._prepare_scenario_data "韓國瑜 (2020年罷免成功)" "高雄市")
           Inputs.steady) = Ok r
    /\ 20 <= MasterAnalysisAgent.predicted_turnout r
    /\ 10 <= MasterAnalysisAgent.predicted_agreement r <= 90.
Proof.
  apply (prediction_bounds
           (EnhancedDashboardApp._prepare_scenario_data "韓國瑜 (2020年罷免成功)" "高雄市")
           Inputs.steady).
  vm_compute. reflexivity.
Defined.

(** ** The agreement formula *)

(** The code's clamp on the percent scale is the specification's clamp on
    the 0..1 scale. *)
Lemma clamp_percent (x : Q) :
  py_min (py_max (x * 100) 10) 90 == 100 * Spec.clamp x 0.10 0.90.
Proof. unfold Spec.clamp. by_comparisons; lra. Qed.

Lemma calculate_agreement_formula turnout sentiment target :
  MasterAnalysisAgent._calculate_agreement turnout sentiment target
  == 100 * Spec.agreement 0.30 0.45 0.25
             (get_default (ForumSentimentAgent.scalars sentiment) "s1_youth_forum" 0.5)
             (get_default (ForumSentimentAgent.scalars sentiment) "s2_middle_forum" 0.5)
             (get_default (ForumSentimentAgent.scalars sentiment) "s3_elder_news" 0.5)
             (MasterAnalysisAgent._get_dynamic_political_intensity target).
Proof.
  unfold MasterAnalysisAgent._calculate_agreement, Spec.agreement. cbv zeta.
  apply clamp_percent.
Qed.

(** C5, as stated, fails: on a valid scenario whose electorate is half
    youth, the predicted agreement is not the formula evaluated with the
    scenario's own age shares. *)
Lemma agreement_ignores_scenario_shares :
  Spec.valid_scenario Inputs.younger = true
  /\ exists r,
      fst (MasterAnalysisAgent.predict Inputs.younger Inputs.steady) = Ok r
      /\ ~ MasterAnalysisAgent.predicted_agreement r
           == 100 * Spec.agreement
                      (Spec.age_share Inputs.younger youth)
                      (Spec.age_share Inputs.younger middle)
                      (Spec.age_share Inputs.younger elder)
                      (Spec.breakdown_sentiment r "s1_youth_forum")
                      (Spec.breakdown_sentiment r "s2_middle_forum")
                      (Spec.breakdown_sentiment r "s3_elder_news")
                      (MasterAnalysisAgent._get_dynamic_political_intensity
                         (MasterAnalysisAgent.recall_target Inputs.younger)).
Proof.
  split; [vm_compute; reflexivity|].
  eexists. split; [vm_compute; reflexivity|].
  vm_compute. discriminate.
Qed.

(** C5, amended: whenever [predict] returns, the predicted agreement is
    the clamped formula evaluated with the fixed population shares 0.30,
    0.45 and 0.25 (youth, middle, elder), whatever the scenario's age
    shares are. *)
Theorem agreement_uses_fixed_shares :
  forall s g r,
    fst (MasterAnalysisAgent.predict s g) = Ok r ->
    MasterAnalysisAgent.predicted_agreement r
    == 100 * Spec.agreement 0.30 0.45 0.25
               (Spec.breakdown_sentiment r "s1_youth_forum")
               (Spec.breakdown_sentiment r "s2_middle_forum")
               (Spec.breakdown_sentiment r "s3_elder_news")
               (MasterAnalysisAgent._get_dynamic_political_intensity
                  (MasterAnalysisAgent.recall_target s)).
Proof.
  intros s g r. unfold MasterAnalysisAgent.predict.
  destruct (MasterAnalysisAgent.collect s) as [c|e] eqn:Hc; [|discriminate].
  destruct (collect_keys s c Hc) as [_ ->].
  destruct (ForumSentimentAgent.analyze _ _ _ g) as [sentiment g'].
  destruct (conclude_ok c sentiment) as (t & _ & _ & Hconclude).
  cbn [fst]. rewrite Hconclude. intros [= <-].
  unfold Spec.breakdown_sentiment.
  cbn [MasterAnalysisAgent.predicted_agreement MasterAnalysisAgent.agent_results
       MasterAnalysisAgent.sentiment].
  apply calculate_agreement_formula.
Qed.

Lemma agreement_uses_fixed_shares_witness :
  exists r,
    fst (MasterAnalysisAgent.predict Inputs.younger Inputs.steady) = Ok r
    /\ MasterAnalysisAgent.predicted_agreement r
       == 100 * Spec.agreement 0.30 0.45 0.25
                  (Spec.breakdown_sentiment r "s1_youth_forum")
                  (Spec.breakdown_sentiment r "s2_middle_forum")
                  (Spec.breakdown_sentiment r "s3_elder_news")
                  (MasterAnalysisAgent._get_dynamic_political_intensity
                     (MasterAnalysisAgent.recall_target Inputs.younger)).
Proof.
  eexists. split; [vm_compute; reflexivity|].
  apply (agreement_uses_fixed_shares Inputs.younger Inputs.steady).
  vm_compute. reflexivity.
Defined.

(** ** What a prediction owes to the random source *)

Lemma draws_only_ret {A : Type} (a : A) : Spec.draws_only (fun g => (a, g)).
Proof. intros g1 g2 H. split; [reflexivity | exact H]. Qed.

Lemma draws_only_bind {A B : Type} (f : Rng -> A * Rng) (k : A -> Rng -> B * Rng) :
  Spec.draws_only f ->
  (forall a, Spec.draws_only (k a)) ->
  Spec.draws_only (fun g => let '(a, g') := f g in k a g').
Proof.
  intros Hf Hk g1 g2 H. destruct (Hf g1 g2 H) as [Ha Hg].
  destruct (f g1) as [a1 g1'], (f g2) as [a2 g2']. simpl in Ha, Hg. subst a2.
  apply Hk, Hg.
Qed.

Lemma random_draws_only : Spec.draws_only random.
Proof.
  intros [t1 p1] [t2 p2] [Hp Ht]. simpl in Hp, Ht. subst p2.
  unfold random. simpl. split; [apply Ht | split; [reflexivity | exact Ht]].
Qed.

Lemma uniform_draws_only (a b : Q) : Spec.draws_only (uniform a b).
Proof.
  unfold uniform. apply draws_only_bind; [apply random_draws_only|].
  intros u. apply draws_only_ret.
Qed.

Lemma randint_draws_only (a b : Z) : Spec.draws_only (randint a b).
Proof.
  unfold randint. apply draws_only_bind; [apply random_draws_only|].
  intros u. apply draws_only_ret.
Qed.

Lemma crawl_forum_draws_only (target forum : string) :
  Spec.draws_only (ForumSentimentAgent._crawl_forum_sentiment target forum).
Proof.
  unfold ForumSentimentAgent._crawl_forum_sentiment. cbv zeta.
  apply draws_only_bind; [apply uniform_draws_only|]. intros base.
  apply draws_only_bind; [apply randint_draws_only|]. intros samples.
  apply draws_only_ret.
Qed.

Lemma forum_loop_draws_only (target : string) (usage : dict Q) :
  forall totals, Spec.draws_only (ForumSentimentAgent.forum_loop target usage totals).
Proof.
  induction usage as [|[forum weight] rest IH]; intros [[positive negative] weights].
  - apply draws_only_ret.
  - apply (draws_only_bind
             (ForumSentimentAgent._crawl_forum_sentiment target forum)
             (fun sentiment =>
                ForumSentimentAgent.forum_loop target rest
                  (positive + ForumSentimentAgent.positive_ratio sentiment * weight,
                   negative + ForumSentimentAgent.negative_ratio sentiment * weight,
                   weights + weight))).
    + apply crawl_forum_draws_only.
    + intros sentiment. apply IH.
Qed.

Lemma stratum_draws_only (target : string) (usage : dict Q) :
  Spec.draws_only (ForumSentimentAgent.stratum target usage).
Proof.
  unfold ForumSentimentAgent.stratum.
  apply (draws_only_bind
           (ForumSentimentAgent.forum_loop target usage (0, 0, 0))
           (fun totals g =>
              let '(positive, _, total_weight) := totals in
              (if Qltb 0 total_weight then positive / total_weight else 0.5, g))).
  - apply forum_loop_draws_only.
  - intros [[positive negative] weights]. apply draws_only_ret.
Qed.

Lemma news_loop_draws_only (sources : list string) :
  forall totals, Spec.draws_only (ForumSentimentAgent.news_loop sources totals).
Proof.
  induction sources as [|source rest IH]; intros [[positive negative] samples].
  - apply draws_only_ret.
  - set (bias := ForumSentimentAgent.source_bias source).
    apply (draws_only_bind
             (uniform (bias - 0.1) (bias + 0.1))
             (fun sentiment g =>
                let '(count, g) := randint 20 80 g in
                ForumSentimentAgent.news_loop rest
                  (positive + sentiment * inject_Z count,
                   negative + (1 - sentiment) * inject_Z count,
                   (samples + count)%Z) g)).
    + apply uniform_draws_only.
    + intros sentiment.
      apply (draws_only_bind
               (randint 20 80)
               (fun count =>
                  ForumSentimentAgent.news_loop rest
                    (positive + sentiment * inject_Z count,
                     negative + (1 - sentiment) * inject_Z count,
                     (samples + count)%Z))).
      * apply randint_draws_only.
      * intros count. apply IH.
Qed.

Lemma crawl_news_draws_only (target : string) :
  Spec.draws_only (ForumSentimentAgent._crawl_news_sentiment target).
Proof.
  unfold ForumSentimentAgent._crawl_news_sentiment.
  apply (draws_only_bind
           (ForumSentimentAgent.news_loop ForumSentimentAgent.news_sources (0, 0, 0%Z))
           (fun totals g =>
              let '(total_positive, total_negative, total_samples) := totals in
              (ForumSentimentAgent.mkNews
                 (if (0 <? total_samples)%Z
                  then total_positive / inject_Z total_samples else 0.5)
                 (if (0 <? total_samples)%Z
                  then total_negative / inject_Z total_samples else 0.5)
                 total_samples, g))).
  - apply news_loop_draws_only.
  - intros [[positive negative] samples]. apply draws_only_ret.
Qed.

Lemma sentiment_analyze_draws_only (dcard ptt : dict Q) (strength : Q) :
  Spec.draws_only (ForumSentimentAgent.analyze dcard ptt strength).
Proof.
  unfold ForumSentimentAgent.analyze. cbv zeta.
  apply draws_only_bind; [apply stratum_draws_only|]. intros s1.
  apply draws_only_bind; [apply stratum_draws_only|]. intros s2.
  apply draws_only_bind; [apply crawl_news_draws_only|]. intros news.
  apply draws_only_bind; [apply uniform_draws_only|]. intros factor.
  apply draws_only_ret.
Qed.

(** C8, as stated, fails: two successive calls of [predict] on the same
    scenario, the second one starting from the generator the first one
    left, predict different agreements. *)
Lemma predict_twice_differs :
  exists r1 r2,
    fst (MasterAnalysisAgent.predict Inputs.baseline Inputs.ramp) = Ok r1
    /\ fst (MasterAnalysisAgent.predict Inputs.baseline
              (snd (MasterAnalysisAgent.predict Inputs.baseline Inputs.ramp)))
       = Ok r2
    /\ ~ MasterAnalysisAgent.predicted_agreement r1
         == MasterAnalysisAgent.predicted_agreement r2.
Proof.
  do 2 eexists.
  split; [vm_compute; reflexivity|].
  split; [vm_compute; reflexivity|].
  vm_compute. discriminate.
Qed.

(** C8, amended: for one scenario, whatever the states of the random
    source, two calls of [predict] either raise the same error or return
    results with identical turnout and identical motivation, media,
    social-mood, weather and regional breakdown; and when the two
    generators deliver the same draws the whole results are identical.
    Agreement, verdict, reason and sentiment breakdown depend on the
    draws. *)
Theorem predict_deterministic_up_to_draws :
  (forall s g1 g2,
      match fst (MasterAnalysisAgent.predict s g1),
            fst (MasterAnalysisAgent.predict s g2) with
      | Ok r1, Ok r2 =>
          MasterAnalysisAgent.predicted_turnout r1
          = MasterAnalysisAgent.predicted_turnout r2
          /\ MasterAnalysisAgent.psychological (MasterAnalysisAgent.agent_results r1)
             = MasterAnalysisAgent.psychological (MasterAnalysisAgent.agent_results r2)
          /\ MasterAnalysisAgent.media (MasterAnalysisAgent.agent_results r1)
             = MasterAnalysisAgent.media (MasterAnalysisAgent.agent_results r2)
          /\ MasterAnalysisAgent.social (MasterAnalysisAgent.agent_results r1)
             = MasterAnalysisAgent.social (MasterAnalysisAgent.agent_results r2)
          /\ MasterAnalysisAgent.climate (MasterAnalysisAgent.agent_results r1)
             = MasterAnalysisAgent.climate (MasterAnalysisAgent.agent_results r2)
          /\ MasterAnalysisAgent.regional (MasterAnalysisAgent.agent_results r1)
             = MasterAnalysisAgent.regional (MasterAnalysisAgent.agent_results r2)
      | Raise e1, Raise e2 => e1 = e2
      | _, _ => False
      end)
  /\ (forall s g1 g2,
         Spec.same_draws g1 g2 ->
         fst (MasterAnalysisAgent.predict s g1)
         = fst (MasterAnalysisAgent.predict s g2)).
Proof.
  split.
  - intros s g1 g2. unfold MasterAnalysisAgent.predict.
    destruct (MasterAnalysisAgent.collect s) as [c|e]; [|reflexivity].
    destruct (ForumSentimentAgent.analyze _ _ _ g1) as [sentiment1 g1'].
    destruct (ForumSentimentAgent.analyze _ _ _ g2) as [sentiment2 g2'].
    destruct (conclude_ok c sentiment1) as (t1 & Ht1 & _ & ->).
    destruct (conclude_ok c sentiment2) as (t2 & Ht2 & _ & ->).
    assert (t1 = t2) as -> by congruence.
    cbn. repeat split.
  - intros s g1 g2 Hsame. unfold MasterAnalysisAgent.predict.
    destruct (MasterAnalysisAgent.collect s) as [c|e]; [|reflexivity].
    destruct (sentiment_analyze_draws_only
                (MasterAnalysisAgent.optional
                   (MasterAnalysisAgent.dcard_sentiment s) [("positive", 20)])
                (MasterAnalysisAgent.optional
                   (MasterAnalysisAgent.ptt_sentiment s) [("positive", 30)])
                (MasterAnalysisAgent.optional
                   (MasterAnalysisAgent.mobilization_strength s) 80)
                g1 g2 Hsame) as [Hfst _].
    destruct (ForumSentimentAgent.analyze _ _ _ g1) as [sentiment1 g1'].
    destruct (ForumSentimentAgent.analyze _ _ _ g2) as [sentiment2 g2'].
    simpl in Hfst. subst sentiment2. reflexivity.
Qed.

Lemma predict_deterministic_up_to_draws_witness :
  fst (MasterAnalysisAgent.predict Inputs.baseline Inputs.steady)
  = fst (MasterAnalysisAgent.predict Inputs.baseline
           (mkRng (fun n => tape Inputs.steady (n + 0)) 0)).
Proof.
  destruct predict_deterministic_up_to_draws as [_ same].
  apply same. split; reflexivity.
Defined.
(** * Further properties of the engine *)

(** ** The political intensity lookup *)

Lemma get_In {V : Type} (d : dict V) (k : string) (v : V) :
  get d k = Some v -> In (k, v) d.
Proof.
  induction d as [|[k0 v0] rest IH]; simpl; [discriminate|].
  destruct (String.eqb_spec k k0) as [->|_].
  - intros [= ->]. now left.
  - intros H. right. now apply IH.
Qed.

Lemma fuzzy_match_In (items : dict Q) (target : string) (v : Q) :
  MasterAnalysisAgent.fuzzy_match items target = Some v ->
  exists key, In (key, v) items.
Proof.
  induction items as [|[key value] rest IH]; simpl; [discriminate|].
  destruct (MasterAnalysisAgent.key_matches key target).
  - intros [= ->]. exists key. now left.
  - intros H. destruct (IH H) as [key' Hin]. exists key'. now right.
Qed.

Lemma intensity_map_values :
  Forall (fun kv => 0.8 <= snd kv <= 1.8) MasterAnalysisAgent.intensity_map.
Proof.
  unfold MasterAnalysisAgent.intensity_map.
  repeat (apply Forall_cons; [cbn [snd]; lra|]). apply Forall_nil.
Qed.

(** The intensity is the default or a value of the table. *)
Lemma intensity_from_table (target : option string) :
  MasterAnalysisAgent._get_dynamic_political_intensity target = 1.0
  \/ exists key,
      In (key, MasterAnalysisAgent._get_dynamic_political_intensity target)
         MasterAnalysisAgent.intensity_map.
Proof.
  unfold MasterAnalysisAgent._get_dynamic_political_intensity.
  set (t := match target with Some t => t | None => "一般立委" end).
  destruct (get MasterAnalysisAgent.intensity_map t) as [v|] eqn:Hget.
  - right. exists t. apply get_In, Hget.
  - destruct (MasterAnalysisAgent.fuzzy_match MasterAnalysisAgent.intensity_map t)
      as [v|] eqn:Hfuzzy; [right | now left].
    apply fuzzy_match_In in Hfuzzy. exact Hfuzzy.
Qed.

(** X1: whatever the target (listed, matched by a fragment of a listed
    name, unknown, or absent), the political intensity lies between 0.8
    and 1.8. *)
Theorem political_intensity_range :
  forall target,
    0.8 <= MasterAnalysisAgent._get_dynamic_political_intensity target <= 1.8.
Proof.
  intros target.
  pose proof intensity_map_values as Hall. rewrite Forall_forall in Hall.
  destruct (intensity_from_table target) as [->|[key Hin]].
  - lra.
  - apply (Hall _ Hin).
Qed.

(** Evaluates the tokens of a listed key. *)
Ltac tokens_of key toks :=
  unfold MasterAnalysisAgent.key_matches;
  replace (filter (fun name => (1 <? py_len name)%nat) (split key)) with toks
    by (vm_compute; reflexivity);
  reflexivity.

Lemma key_matches_first (target : string) :
  MasterAnalysisAgent.key_matches "韓國瑜 (2020年罷免成功)" target
  = any_in ["韓國瑜"; "(2020年罷免成功)"] target.
Proof. tokens_of "韓國瑜 (2020年罷免成功)" ["韓國瑜"; "(2020年罷免成功)"]. Qed.

Lemma key_matches_second (target : string) :
  MasterAnalysisAgent.key_matches "柯文哲 (台北市長)" target
  = any_in ["柯文哲"; "(台北市長)"] target.
Proof. tokens_of "柯文哲 (台北市長)" ["柯文哲"; "(台北市長)"]. Qed.

Lemma key_matches_third (target : string) :
  MasterAnalysisAgent.key_matches "羅智強 (台北市第1選區)" target
  = any_in ["羅智強"; "(台北市第1選區)"] target.
Proof. tokens_of "羅智強 (台北市第1選區)" ["羅智強"; "(台北市第1選區)"]. Qed.

(** The fuzzy scan stops at one of the first three keys when the target
    names one of the three most contested politicians. *)
Lemma fuzzy_match_contested (target : string) :
  any_in ["韓國瑜"; "柯文哲"; "羅智強"] target = true ->
  exists v,
    MasterAnalysisAgent.fuzzy_match MasterAnalysisAgent.intensity_map target = Some v
    /\ 1.5 <= v.
Proof.
  intros Hnamed.
  unfold MasterAnalysisAgent.intensity_map.
  cbn [MasterAnalysisAgent.fuzzy_match].
  rewrite key_matches_first, key_matches_second, key_matches_third.
  unfold any_in in *. cbn [existsb] in *.
  destruct (contains "韓國瑜" target); cbn [orb]; [eexists; split; [reflexivity|lra]|].
  destruct (contains "(2020年罷免成功)" target); cbn [orb]; [eexists; split; [reflexivity|lra]|].
  destruct (contains "柯文哲" target); cbn [orb]; [eexists; split; [reflexivity|lra]|].
  destruct (contains "(台北市長)" target); cbn [orb]; [eexists; split; [reflexivity|lra]|].
  destruct (contains "羅智強" target); cbn [orb]; [eexists; split; [reflexivity|lra]|].
  discriminate Hnamed.
Qed.

(** A listed key that names one of them carries an intensity of at least 1.5. *)
Lemma listed_contested_intensity (target : string) (v : Q) :
  get MasterAnalysisAgent.intensity_map target = Some v ->
  any_in ["韓國瑜"; "柯文哲"; "羅智強"] target = true ->
  1.5 <= v.
Proof.
  unfold MasterAnalysisAgent.intensity_map. cbn [get].
  repeat match goal with
    | |- context [String.eqb target ?k] =>
        destruct (String.eqb_spec target k) as [->|_];
        [intros [= <-]; intros H; try (vm_compute in H; discriminate H); lra|]
    end.
  discriminate.
Qed.

(** X2: a target whose name contains 韓國瑜, 柯文哲 or 羅智強 (the names
    the Motivation estimator boosts) always gets an intensity of at least
    1.5, however the rest of the target string reads. *)
Theorem contested_names_intensity :
  forall target,
    any_in ["韓國瑜"; "柯文哲"; "羅智強"] target = true ->
    1.5 <= MasterAnalysisAgent._get_dynamic_political_intensity (Some target).
Proof.
  intros target Hnamed.
  unfold MasterAnalysisAgent._get_dynamic_political_intensity.
  destruct (get MasterAnalysisAgent.intensity_map target) as [v|] eqn:Hget.
  - exact (listed_contested_intensity target v Hget Hnamed).
  - destruct (fuzzy_match_contested target Hnamed) as (v & -> & Hv). exact Hv.
Qed.

Lemma contested_names_intensity_witness :
  1.5 <= MasterAnalysisAgent._get_dynamic_political_intensity
           (Some "罷免羅智強連署").
Proof.
  apply contested_names_intensity. reflexivity.
Defined.

(** ** The motivation coefficients *)

(** Every entry the motivation loop stores is built from the parameters the
    table holds for its age group. *)
Lemma psychological_loop_entries (base : dict PsychologicalMotivationAgent.Params)
      (items : dict Q) :
  forall results r,
    (forall k e, get results k = Some e ->
                 exists p, get base k = Some p
                           /\ PsychologicalMotivationAgent.voting_intention e
                              = PsychologicalMotivationAgent.political_interest p
                                * PsychologicalMotivationAgent.political_efficacy p
                                * PsychologicalMotivationAgent.economic_motivation p) ->
    PsychologicalMotivationAgent.loop base items results = Ok r ->
    forall k e, get r k = Some e ->
                exists p, get base k = Some p
                          /\ PsychologicalMotivationAgent.voting_intention e
                             = PsychologicalMotivationAgent.political_interest p
                               * PsychologicalMotivationAgent.political_efficacy p
                               * PsychologicalMotivationAgent.economic_motivation p.
Proof.
  induction items as [|[group pct] rest IH]; intros results r Hinv; simpl.
  - intros [= <-]. exact Hinv.
  - unfold index. destruct (get base group) as [p|] eqn:Hp; simpl; [|discriminate].
    apply IH. intros k e. rewrite get_set.
    destruct (String.eqb_spec k group) as [->|_]; [|apply Hinv].
    intros [= <-]. exists p. split; [exact Hp | reflexivity].
Qed.

(** The parameter table, whether boosted or not, group by group. *)
Lemma base_params_cases (target k : string) (p : PsychologicalMotivationAgent.Params) :
  get (PsychologicalMotivationAgent._get_base_params target) k = Some p ->
  let boost := if any_in ["韓國瑜"; "柯文哲"; "羅智強"] target then 1.2 else 1 in
  exists interest efficacy economy,
    In (interest, efficacy, economy)
       [(0.6, 0.7, 0.8); (0.8, 0.6, 0.9); (0.9, 0.5, 0.7)]
    /\ get (PsychologicalMotivationAgent._get_base_params "") k
       = Some (PsychologicalMotivationAgent.mkParams interest efficacy economy)
    /\ PsychologicalMotivationAgent.political_interest p * PsychologicalMotivationAgent.political_efficacy p
       * PsychologicalMotivationAgent.economic_motivation p
       == boost * (interest * efficacy * economy).
Proof.
  unfold PsychologicalMotivationAgent._get_base_params.
  replace (any_in ["韓國瑜"; "柯文哲"; "羅智強"] "") with false by reflexivity.
  destruct (any_in _ target); cbn [map get];
    destruct (String.eqb k youth), (String.eqb k middle), (String.eqb k elder);
    try discriminate; intros [= <-]; cbv zeta;
    do 3 eexists; (split; [|split; [reflexivity|]]);
    cbn [PsychologicalMotivationAgent.political_interest
         PsychologicalMotivationAgent.political_efficacy
         PsychologicalMotivationAgent.economic_motivation];
    try ring; cbn [In]; tauto.
Qed.

(** X3: every voting intention the Motivation estimator returns lies
    between 0.315 (elder, ordinary target) and 0.5184 (middle, boosted
    target): the product of three proxies never leaves that band. *)
Theorem voting_intention_range :
  forall ages target context r k e,
    PsychologicalMotivationAgent.analyze ages target context = Ok r ->
    get r k = Some e ->
    0.315 <= PsychologicalMotivationAgent.voting_intention e <= 0.5184.
Proof.
  intros ages target context r k e Hr He.
  unfold PsychologicalMotivationAgent.analyze in Hr.
  destruct (psychological_loop_entries
              (PsychologicalMotivationAgent._get_base_params target) ages [] r
              ltac:(intros ? ? H; discriminate H) Hr k e He) as (p & Hp & ->).
  destruct (base_params_cases target k p Hp) as (i & f & m & Hin & _ & ->).
  cbn [In] in Hin.
  destruct (any_in _ target);
    destruct Hin as [[= <- <- <-]|[[= <- <- <-]|[[= <- <- <-]|[]]]]; lra.
Qed.

Lemma voting_intention_range_witness :
  exists r e,
    PsychologicalMotivationAgent.analyze Inputs.default_ages "柯文哲" [] = Ok r
    /\ get r middle = Some e
    /\ 0.315 <= PsychologicalMotivationAgent.voting_intention e <= 0.5184.
Proof.
  do 2 eexists.
  split; [vm_compute; reflexivity|].
  split; [vm_compute; reflexivity|].
  eapply (voting_intention_range Inputs.default_ages "柯文哲" []) with (k := middle);
    vm_compute; reflexivity.
Defined.

(** X4: for a target naming 韓國瑜, 柯文哲 or 羅智強 every age group's voting
    intention is exactly 1.2 times the one an ordinary target gets for the
    same age structure. *)
Theorem contested_target_boost :
  forall ages target context r r0 k e e0,
    any_in ["韓國瑜"; "柯文哲"; "羅智強"] target = true ->
    PsychologicalMotivationAgent.analyze ages target context = Ok r ->
    PsychologicalMotivationAgent.analyze ages "" context = Ok r0 ->
    get r k = Some e ->
    get r0 k = Some e0 ->
    PsychologicalMotivationAgent.voting_intention e
    == 1.2 * PsychologicalMotivationAgent.voting_intention e0.
Proof.
  intros ages target context r r0 k e e0 Hnamed Hr Hr0 He He0.
  unfold PsychologicalMotivationAgent.analyze in Hr, Hr0.
  destruct (psychological_loop_entries
              (PsychologicalMotivationAgent._get_base_params target) ages [] r
              ltac:(intros ? ? H; discriminate H) Hr k e He) as (p & Hp & ->).
  destruct (psychological_loop_entries
              (PsychologicalMotivationAgent._get_base_params "") ages [] r0
              ltac:(intros ? ? H; discriminate H) Hr0 k e0 He0) as (p0 & Hp0 & ->).
  destruct (base_params_cases target k p Hp) as (i & f & m & _ & Hplain & ->).
  rewrite Hnamed. rewrite Hplain in Hp0. injection Hp0 as <-.
  cbn [PsychologicalMotivationAgent.political_interest
       PsychologicalMotivationAgent.political_efficacy
       PsychologicalMotivationAgent.economic_motivation].
  reflexivity.
Qed.

Lemma contested_target_boost_witness :
  exists r r0 e e0,
    PsychologicalMotivationAgent.analyze Inputs.default_ages "罷免韓國瑜" [] = Ok r
    /\ PsychologicalMotivationAgent.analyze Inputs.default_ages "" [] = Ok r0
    /\ get r youth = Some e /\ get r0 youth = Some e0
    /\ PsychologicalMotivationAgent.voting_intention e
       == 1.2 * PsychologicalMotivationAgent.voting_intention e0.
Proof.
  do 4 eexists.
  split; [vm_compute; reflexivity|].
  split; [vm_compute; reflexivity|].
  split; [vm_compute; reflexivity|].
  split; [vm_compute; reflexivity|].
  eapply (contested_target_boost Inputs.default_ages "罷免韓國瑜" []) with (k := youth);
    vm_compute; reflexivity.
Defined.

(** ** The media coefficients *)

(** Every entry the media loop stores is the clamped sum over the platform
    table of its age group. *)
Lemma media_loop_entries (base : Q) (groups : list string) :
  forall results r,
    (forall k e, get results k = Some e ->
                 exists w, get MediaEnvironmentAgent.media_weights k = Some w
                           /\ e = MediaEnvironmentAgent.mkEntry
                                    (py_max 0.5
                                       (py_min (MediaEnvironmentAgent.accumulate base w 0.5) 1.5))
                                    (firstn 2 (keys w))) ->
    MediaEnvironmentAgent.loop base groups results = Ok r ->
    forall k e, get r k = Some e ->
                exists w, get MediaEnvironmentAgent.media_weights k = Some w
                          /\ e = MediaEnvironmentAgent.mkEntry
                                   (py_max 0.5
                                      (py_min (MediaEnvironmentAgent.accumulate base w 0.5) 1.5))
                                   (firstn 2 (keys w)).
Proof.
  induction groups as [|group rest IH]; intros results r Hinv; simpl.
  - intros [= <-]. exact Hinv.
  - unfold index.
    destruct (get MediaEnvironmentAgent.media_weights group) as [w|] eqn:Hw;
      simpl; [|discriminate].
    apply IH. intros k e. rewrite get_set.
    destruct (String.eqb_spec k group) as [->|_]; [|apply Hinv].
    intros [= <-]. exists w. split; [exact Hw | reflexivity].
Qed.

(** The six values the coefficient can take: three age groups, two levels
    of attention. *)
Lemma media_entry_cases (target k : string) (w : dict Q) :
  get MediaEnvironmentAgent.media_weights k = Some w ->
  let c := py_max 0.5
             (py_min (MediaEnvironmentAgent.accumulate
                        (MediaEnvironmentAgent._get_media_attention target) w 0.5) 1.5) in
  (c == 0.842 \/ c == 0.815 \/ c == 0.794
   \/ c == 1.013 \/ c == 0.9725 \/ c == 0.941)
  /\ List.length (firstn 2 (keys w)) = 2%nat.
Proof.
  unfold MediaEnvironmentAgent.media_weights, MediaEnvironmentAgent._get_media_attention.
  cbn [get].
  destruct (any_in _ target);
    destruct (String.eqb k youth), (String.eqb k middle), (String.eqb k elder);
    try discriminate; intros [= <-]; cbv zeta; (split; [|reflexivity]);
    vm_compute; intuition congruence.
Qed.

(** X5: every media coefficient is one of six values between 0.794 and
    1.013, so the clamp to [0.5, 1.5] never changes it; and every entry
    names exactly two dominant platforms. *)
Theorem media_coefficient_values :
  forall ages target coverage r k e,
    MediaEnvironmentAgent.analyze ages target coverage = Ok r ->
    get r k = Some e ->
    0.794 <= MediaEnvironmentAgent.media_coefficient e <= 1.013
    /\ List.length (MediaEnvironmentAgent.dominant_platforms e) = 2%nat.
Proof.
  intros ages target coverage r k e Hr He.
  unfold MediaEnvironmentAgent.analyze in Hr.
  destruct (media_loop_entries
              (MediaEnvironmentAgent._get_media_attention target) (keys ages) [] r
              ltac:(intros ? ? H; discriminate H) Hr k e He) as (w & Hw & ->).
  destruct (media_entry_cases target k w Hw) as [Hc Hlen].
  cbn [MediaEnvironmentAgent.media_coefficient MediaEnvironmentAgent.dominant_platforms].
  split; [|exact Hlen].
  destruct Hc as [->|[->|[->|[->|[->| ->]]]]]; lra.
Qed.

Lemma media_coefficient_values_witness :
  exists r e,
    MediaEnvironmentAgent.analyze Inputs.default_ages "趙少康" [] = Ok r
    /\ get r elder = Some e
    /\ 0.794 <= MediaEnvironmentAgent.media_coefficient e <= 1.013
    /\ List.length (MediaEnvironmentAgent.dominant_platforms e) = 2%nat.
Proof.
  do 2 eexists.
  split; [vm_compute; reflexivity|].
  split; [vm_compute; reflexivity|].
  eapply (media_coefficient_values Inputs.default_ages "趙少康" []) with (k := elder);
    vm_compute; reflexivity.
Defined.

(** ** The social-mood coefficients *)

Lemma social_factors_nonnegative (forum : dict Q) (heat pressure : Q) :
  0 <= get_default forum "dcard_positive" 20 ->
  0 <= get_default forum "ptt_positive" 30 ->
  0 <= heat -> 0 <= pressure ->
  0.5 <= SocialAtmosphereAgent._calculate_sentiment_score forum
  /\ 0.8 <= SocialAtmosphereAgent._calculate_heat_multiplier heat <= 1.5
  /\ 0.9 <= SocialAtmosphereAgent._calculate_pressure_factor pressure <= 1.3.
Proof.
  intros Hd Hp Hh Hpr.
  unfold SocialAtmosphereAgent._calculate_sentiment_score,
    SocialAtmosphereAgent._calculate_heat_multiplier,
    SocialAtmosphereAgent._calculate_pressure_factor.
  name_quotients. repeat split; by_comparisons; lra.
Qed.

Lemma clamped_affine_monotone (x a b : Q) :
  0 <= x -> a <= b ->
  py_max 0.5 (py_min (0.7 + x * a) 1.5) <= py_max 0.5 (py_min (0.7 + x * b) 1.5).
Proof.
  intros Hx Hab. apply py_max_monotone, py_min_monotone. nra.
Qed.

(** X6: with sentiment ratios, heat and peer pressure in their ranges
    (non-negative), the social-mood coefficient of the youth is at least the
    one of the middle-aged, which is at least the one of the elders; and all
    three are at least 0.772, so the lower clamp never acts. *)
Theorem social_coefficient_by_generation :
  forall forum heat pressure,
    0 <= get_default forum "dcard_positive" 20 ->
    0 <= get_default forum "ptt_positive" 30 ->
    0 <= heat -> 0 <= pressure ->
    exists cy cm ce,
      Spec.social_value (SocialAtmosphereAgent.analyze forum heat pressure) youth = Some cy
      /\ Spec.social_value (SocialAtmosphereAgent.analyze forum heat pressure) middle = Some cm
      /\ Spec.social_value (SocialAtmosphereAgent.analyze forum heat pressure) elder = Some ce
      /\ 0.772 <= ce /\ ce <= cm /\ cm <= cy.
Proof.
  intros forum heat pressure Hd Hp Hh Hpr.
  pose proof (social_analyze_entries forum heat pressure) as E.
  cbv zeta in E. rewrite E. clear E.
  destruct (social_factors_nonnegative forum heat pressure Hd Hp Hh Hpr)
    as (Hs & [Hh1 Hh2] & [Hp1 Hp2]).
  set (s := SocialAtmosphereAgent._calculate_sentiment_score forum) in *.
  set (h := SocialAtmosphereAgent._calculate_heat_multiplier heat) in *.
  set (p := SocialAtmosphereAgent._calculate_pressure_factor pressure) in *.
  assert (0.36 <= s * h * p) as Hx.
  { assert (0.4 <= s * h) as Hsh.
    { apply Qle_trans with (0.5 * h); [lra|].
      apply Qmult_le_compat_r; lra. }
    apply Qle_trans with (0.4 * p); [lra|].
    apply Qmult_le_compat_r; lra. }
  do 3 eexists.
  split; [reflexivity|]. split; [reflexivity|]. split; [reflexivity|].
  cbn [SocialAtmosphereAgent.social_coefficient].
  split; [|split].
  - generalize dependent (s * h * p). intros x Hx. by_comparisons; lra.
  - apply clamped_affine_monotone; lra.
  - apply clamped_affine_monotone; lra.
Qed.

Lemma social_coefficient_by_generation_witness :
  exists cy cm ce,
    Spec.social_value (SocialAtmosphereAgent.analyze [] 70 60) youth = Some cy
    /\ Spec.social_value (SocialAtmosphereAgent.analyze [] 70 60) middle = Some cm
    /\ Spec.social_value (SocialAtmosphereAgent.analyze [] 70 60) elder = Some ce
    /\ 0.772 <= ce /\ ce <= cm /\ cm <= cy.
Proof.
  apply (social_coefficient_by_generation [] 70 60); vm_compute; discriminate.
Defined.

(** X7: with non-negative sentiment ratios and heat, raising the peer
    pressure never lowers the social-mood coefficient of any age group; nor
    does raising the Dcard sentiment ratio. *)
Theorem social_coefficient_monotone_in_pressure_and_sentiment :
  forall forum heat k,
    0 <= get_default forum "dcard_positive" 20 ->
    0 <= get_default forum "ptt_positive" 30 ->
    0 <= heat ->
    In k SocialAtmosphereAgent.age_groups ->
    (forall pressure1 pressure2,
        0 <= pressure1 -> pressure1 <= pressure2 ->
        exists c1 c2,
          Spec.social_value (SocialAtmosphereAgent.analyze forum heat pressure1) k = Some c1
          /\ Spec.social_value (SocialAtmosphereAgent.analyze forum heat pressure2) k = Some c2
          /\ c1 <= c2)
    /\ (forall pressure ratio,
           0 <= pressure ->
           get_default forum "dcard_positive" 20 <= ratio ->
           exists c1 c2,
             Spec.social_value (SocialAtmosphereAgent.analyze forum heat pressure) k = Some c1
             /\ Spec.social_value
                  (SocialAtmosphereAgent.analyze
                     (("dcard_positive", ratio) :: forum) heat pressure) k = Some c2
             /\ c1 <= c2).
Proof.
  intros forum heat k Hd Hp Hh Hk. split.
  - intros pressure1 pressure2 H1 H12.
    pose proof (social_analyze_entries forum heat pressure1) as E1.
    pose proof (social_analyze_entries forum heat pressure2) as E2.
    cbv zeta in E1, E2. rewrite E1, E2. clear E1 E2.
    destruct (social_factors_nonnegative forum heat pressure1 Hd Hp Hh H1)
      as (Hs & [Hh1 _] & [Hp1 _]).
    assert (SocialAtmosphereAgent._calculate_pressure_factor pressure1
            <= SocialAtmosphereAgent._calculate_pressure_factor pressure2) as Hmono.
    { unfold SocialAtmosphereAgent._calculate_pressure_factor.
      apply py_min_monotone. name_quotients. lra. }
    set (s := SocialAtmosphereAgent._calculate_sentiment_score forum) in *.
    set (h := SocialAtmosphereAgent._calculate_heat_multiplier heat) in *.
    set (p1 := SocialAtmosphereAgent._calculate_pressure_factor pressure1) in *.
    set (p2 := SocialAtmosphereAgent._calculate_pressure_factor pressure2) in *.
    assert (s * h * p1 <= s * h * p2) as Hx.
    { rewrite (Qmult_comm (s * h) p1), (Qmult_comm (s * h) p2).
      apply Qmult_le_compat_r; [exact Hmono|].
      apply Qmult_le_0_compat; lra. }
    destruct Hk as [<-|[<-|[<-|[]]]];
      (do 2 eexists; split; [reflexivity|]; split; [reflexivity|];
       cbn [SocialAtmosphereAgent.social_coefficient];
       apply py_max_monotone, py_min_monotone; lra).
  - intros pressure ratio Hpr Hratio.
    pose proof (social_analyze_entries forum heat pressure) as E1.
    pose proof (social_analyze_entries
                  (("dcard_positive", ratio) :: forum) heat pressure) as E2.
    cbv zeta in E1, E2. rewrite E1, E2. clear E1 E2.
    destruct (social_factors_nonnegative forum heat pressure Hd Hp Hh Hpr)
      as (Hs & [Hh1 _] & [Hp1 _]).
    assert (SocialAtmosphereAgent._calculate_sentiment_score forum
            <= SocialAtmosphereAgent._calculate_sentiment_score
                 (("dcard_positive", ratio) :: forum)) as Hmono.
    { unfold SocialAtmosphereAgent._calculate_sentiment_score.
      change (get_default (("dcard_positive", ratio) :: forum) "dcard_positive" 20)
        with ratio.
      change (get_default (("dcard_positive", ratio) :: forum) "ptt_positive" 30)
        with (get_default forum "ptt_positive" 30).
      name_quotients. lra. }
    set (s1 := SocialAtmosphereAgent._calculate_sentiment_score forum) in *.
    set (s2 := SocialAtmosphereAgent._calculate_sentiment_score
                 (("dcard_positive", ratio) :: forum)) in *.
    set (h := SocialAtmosphereAgent._calculate_heat_multiplier heat) in *.
    set (p := SocialAtmosphereAgent._calculate_pressure_factor pressure) in *.
    assert (s1 * h * p <= s2 * h * p) as Hx.
    { apply Qmult_le_compat_r; [|lra].
      apply Qmult_le_compat_r; [exact Hmono | lra]. }
    destruct Hk as [<-|[<-|[<-|[]]]];
      (do 2 eexists; split; [reflexivity|]; split; [reflexivity|];
       cbn [SocialAtmosphereAgent.social_coefficient];
       apply py_max_monotone, py_min_monotone; lra).
Qed.

Lemma social_coefficient_monotone_in_pressure_and_sentiment_witness :
  exists c1 c2,
    Spec.social_value (SocialAtmosphereAgent.analyze [] 70 20) middle = Some c1
    /\ Spec.social_value (SocialAtmosphereAgent.analyze [] 70 30) middle = Some c2
    /\ c1 <= c2.
Proof.
  assert (In middle SocialAtmosphereAgent.age_groups) as Hk by (right; left; reflexivity).
  destruct (social_coefficient_monotone_in_pressure_and_sentiment
              [] 70 middle
              ltac:(vm_compute; discriminate) ltac:(vm_compute; discriminate)
              ltac:(vm_compute; discriminate) Hk) as [pressure_part _].
  apply pressure_part; vm_compute; discriminate.
Defined.

(** ** The weather coefficient: dead branches *)

(** X8: the weather coefficient is never below 0.67: the penalties that
    can be reached add up to 0.33 at most, so the floor of 0.5 is never
    applied. *)
Theorem weather_floor_never_applies :
  forall temperature rainfall condition,
    0.67 <= ClimateConditionAgent.weather_coefficient
              (ClimateConditionAgent.analyze temperature rainfall condition)
    /\ ClimateConditionAgent.weather_coefficient
         (ClimateConditionAgent.analyze temperature rainfall condition)
       == ClimateConditionAgent.after_condition condition
            (ClimateConditionAgent.after_rainfall rainfall
               (ClimateConditionAgent.after_temperature temperature 1.0)).
Proof.
  intros temperature rainfall condition.
  unfold ClimateConditionAgent.analyze, ClimateConditionAgent.after_temperature,
    ClimateConditionAgent.after_rainfall, ClimateConditionAgent.after_condition.
  cbn [ClimateConditionAgent.weather_coefficient].
  destruct (in_list condition ClimateConditionAgent.extreme_conditions);
    split; by_comparisons; lra.
Qed.

(** X9: the coefficient depends on the temperature only through the bands
    "above 30" and "below 10", and on the rainfall only through "above 5":
    any two temperatures above 30 degrees (34 and 40, say) give the same
    coefficient, and so do any two rainfalls above 5 mm. *)
Theorem weather_bands :
  forall temperature1 temperature2 rainfall1 rainfall2 condition,
    30 < temperature1 -> 30 < temperature2 ->
    5 < rainfall1 -> 5 < rainfall2 ->
    (forall rainfall,
        ClimateConditionAgent.weather_coefficient
          (ClimateConditionAgent.analyze temperature1 rainfall condition)
        == ClimateConditionAgent.weather_coefficient
             (ClimateConditionAgent.analyze temperature2 rainfall condition))
    /\ (forall temperature,
           ClimateConditionAgent.weather_coefficient
             (ClimateConditionAgent.analyze temperature rainfall1 condition)
           == ClimateConditionAgent.weather_coefficient
                (ClimateConditionAgent.analyze temperature rainfall2 condition)).
Proof.
  intros t1 t2 r1 r2 condition Ht1 Ht2 Hr1 Hr2.
  split; intros x;
    unfold ClimateConditionAgent.analyze, ClimateConditionAgent.after_temperature,
      ClimateConditionAgent.after_rainfall, ClimateConditionAgent.after_condition;
    cbn [ClimateConditionAgent.weather_coefficient];
    destruct (in_list condition ClimateConditionAgent.extreme_conditions);
    by_comparisons; lra.
Qed.

Lemma weather_bands_witness :
  ClimateConditionAgent.weather_coefficient
    (ClimateConditionAgent.analyze 34 0 "晴天")
  == ClimateConditionAgent.weather_coefficient
       (ClimateConditionAgent.analyze 40 0 "晴天").
Proof.
  assert (30 < 34 /\ 30 < 40 /\ 5 < 8 /\ 5 < 30) as (H1 & H2 & H3 & H4)
    by (repeat split; vm_compute; reflexivity).
  destruct (weather_bands 34 40 8 30 "晴天" H1 H2 H3 H4) as [same_temperature _].
  apply same_temperature.
Defined.

(** ** The regional coefficient *)

Lemma first_match_In (factors : dict Q) (region : string) :
  RegionalGeographyAgent.first_match factors region = 1.0
  \/ exists key, In (key, RegionalGeographyAgent.first_match factors region) factors
                 /\ contains key region = true.
Proof.
  induction factors as [|[key factor] rest IH]; simpl; [now left|].
  destruct (contains key region) eqn:Hc.
  - right. exists key. split; [now left | exact Hc].
  - destruct IH as [IH|(key' & Hin & Hc')]; [now left|].
    right. exists key'. split; [now right | exact Hc'].
Qed.

Lemma first_match_none (factors : dict Q) (region : string) :
  forallb (fun kv => negb (contains (fst kv) region)) factors = true ->
  RegionalGeographyAgent.first_match factors region = 1.0.
Proof.
  induction factors as [|[key factor] rest IH]; simpl; [reflexivity|].
  intros H. apply andb_prop in H as [Hk Hrest].
  apply negb_true_iff in Hk. rewrite Hk. exact (IH Hrest).
Qed.

Lemma region_factors_values :
  Forall (fun kv => 0.88 <= snd kv <= 1.08) RegionalGeographyAgent.region_factors.
Proof.
  unfold RegionalGeographyAgent.region_factors.
  repeat (apply Forall_cons; [cbn [snd]; lra|]). apply Forall_nil.
Qed.

Lemma region_multiplier_bounds (region : string) :
  0.88 <= RegionalGeographyAgent._get_region_multiplier region <= 1.08.
Proof.
  unfold RegionalGeographyAgent._get_region_multiplier.
  pose proof region_factors_values as Hall. rewrite Forall_forall in Hall.
  destruct (first_match_In RegionalGeographyAgent.region_factors region)
    as [->|(key & Hin & _)]; [lra | apply (Hall _ Hin)].
Qed.

(** X10: the region multiplier lies between 0.88 and 1.08; it is the
    factor of a listed place name the region string contains, and 1.0 when
    the region contains none of them. *)
Theorem region_multiplier_range :
  forall region,
    0.88 <= RegionalGeographyAgent._get_region_multiplier region <= 1.08
    /\ (forallb (fun kv => negb (contains (fst kv) region))
                RegionalGeographyAgent.region_factors = true ->
        RegionalGeographyAgent._get_region_multiplier region = 1.0)
    /\ (forallb (fun kv => negb (contains (fst kv) region))
                RegionalGeographyAgent.region_factors = false ->
        exists key,
          contains key region = true
          /\ get RegionalGeographyAgent.region_factors key
             = Some (RegionalGeographyAgent._get_region_multiplier region)).
Proof.
  intros region.
  split; [exact (region_multiplier_bounds region) | split];
    unfold RegionalGeographyAgent._get_region_multiplier.
  - apply first_match_none.
  - intros Hsome.
    assert (forall factors,
               forallb (fun kv => negb (contains (fst kv) region)) factors = false ->
               exists key, contains key region = true
                           /\ In (key, RegionalGeographyAgent.first_match factors region)
                                 factors) as Hfirst.
    { induction factors as [|[key factor] rest IH]; simpl; [discriminate|].
      destruct (contains key region) eqn:Hc; simpl.
      - intros _. exists key. split; [exact Hc | now left].
      - intros H. destruct (IH H) as (key' & Hc' & Hin).
        exists key'. split; [exact Hc' | now right]. }
    destruct (Hfirst _ Hsome) as (key & Hc & Hin). exists key. split; [exact Hc|].
    revert Hin. generalize (RegionalGeographyAgent.first_match
                              RegionalGeographyAgent.region_factors region).
    intros v. unfold RegionalGeographyAgent.region_factors. cbn [In get].
    intros Hin.
    repeat (destruct Hin as [[= <- <-]|Hin]; [reflexivity|]).
    destruct Hin.
Qed.

Lemma region_multiplier_range_witness :
  RegionalGeographyAgent._get_region_multiplier "海外" = 1.0.
Proof.
  apply region_multiplier_range. vm_compute. reflexivity.
Defined.

Lemma after_history_monotone (h1 h2 : Q) :
  h1 <= h2 ->
  RegionalGeographyAgent.after_history h1 1.0
  <= RegionalGeographyAgent.after_history h2 1.0
  /\ 0.95 <= RegionalGeographyAgent.after_history h1 1.0 <= 1.1.
Proof.
  intros H. unfold RegionalGeographyAgent.after_history. by_comparisons; lra.
Qed.

(** X11: for one region, a higher historical turnout and a higher
    mobilization capacity (from 0 up) never lower the regional
    coefficient. *)
Theorem regional_coefficient_monotone :
  forall region history1 history2 capacity1 capacity2,
    history1 <= history2 ->
    0 <= capacity1 -> capacity1 <= capacity2 ->
    RegionalGeographyAgent.adjustment_factor
      (RegionalGeographyAgent.analyze region history1 capacity1)
    <= RegionalGeographyAgent.adjustment_factor
         (RegionalGeographyAgent.analyze region history2 capacity2).
Proof.
  intros region h1 h2 c1 c2 Hh Hc0 Hc.
  unfold RegionalGeographyAgent.analyze.
  cbn [RegionalGeographyAgent.adjustment_factor].
  destruct (after_history_monotone h1 h2 Hh) as [Hmono [Hlow Hhigh]].
  destruct (after_history_monotone h2 h2 (Qle_refl h2)) as [_ [Hlow2 _]].
  destruct (region_multiplier_bounds region) as [Hm _].
  set (a1 := RegionalGeographyAgent.after_history h1 1.0) in *.
  set (a2 := RegionalGeographyAgent.after_history h2 1.0) in *.
  set (m := RegionalGeographyAgent._get_region_multiplier region) in *.
  assert (forall x y c, x <= y -> py_max (py_min x 1.1) c <= py_max (py_min y 1.1) c)
    as Hclamp by (intros; by_comparisons; lra).
  apply Hclamp.
  apply Qmult_le_compat_r; [|lra].
  name_quotients.
  apply Qle_trans with (a1 * (0.9 + q0 * 0.2)).
  - rewrite (Qmult_comm a1 (0.9 + q * 0.2)), (Qmult_comm a1 (0.9 + q0 * 0.2)).
    apply Qmult_le_compat_r; lra.
  - apply Qmult_le_compat_r; lra.
Qed.

Lemma regional_coefficient_monotone_witness :
  RegionalGeographyAgent.adjustment_factor
    (RegionalGeographyAgent.analyze "台南市" 48 20)
  <= RegionalGeographyAgent.adjustment_factor
       (RegionalGeographyAgent.analyze "台南市" 62 90).
Proof.
  apply regional_coefficient_monotone; vm_compute; discriminate.
Defined.

(** ** The simulated crawls *)

Lemma random_advance (g : Rng) : snd (random g) = Draws.advance 1 g.
Proof. reflexivity. Qed.

Lemma uniform_range (a b : Q) (g : Rng) :
  a <= b -> Draws.unit_draws g ->
  a <= fst (uniform a b g) <= b.
Proof.
  intros Hab Hg. unfold uniform, random. cbn [fst].
  destruct (Hg (pos g)) as [H0 H1].
  generalize dependent (tape g (pos g)). intros u H0 H1. nra.
Qed.

Lemma randint_range (a b : Z) (g : Rng) :
  (a <= b)%Z -> Draws.unit_draws g ->
  (a <= fst (randint a b g) <= b)%Z.
Proof.
  intros Hab Hg. unfold randint, random. cbn [fst].
  destruct (Hg (pos g)) as [H0 H1].
  generalize dependent (tape g (pos g)). intros u H0 H1.
  assert (0 < inject_Z (b - a + 1)) as Hn.
  { change 0 with (inject_Z 0). rewrite <- Zlt_Qlt. lia. }
  set (n := inject_Z (b - a + 1)) in *.
  assert (0 <= Qfloor (u * n))%Z as Hlow.
  { change 0%Z with (Qfloor 0). apply Qfloor_resp_le. nra. }
  assert (Qfloor (u * n) < b - a + 1)%Z as Hhigh.
  { rewrite Zlt_Qlt. apply Qle_lt_trans with (u * n); [apply Qfloor_le|].
    fold n. nra. }
  lia.
Qed.

Lemma crawl_forum_positive_bounds (target forum : string) (g : Rng) :
  0.1 <= ForumSentimentAgent.positive_ratio
           (fst (ForumSentimentAgent._crawl_forum_sentiment target forum g)) <= 0.9.
Proof.
  unfold ForumSentimentAgent._crawl_forum_sentiment.
  cbv zeta. unfold uniform, randint, random.
  cbn [fst ForumSentimentAgent.positive_ratio].
  match goal with
  | |- context [py_min 0.9 ?x] => generalize x
  end.
  intros x. by_comparisons; lra.
Qed.

(** X12: whatever the state of the random source, a simulated forum crawl
    returns a positive ratio between 0.1 and 0.9 and a negative ratio that
    complements it to 1. *)
Theorem forum_crawl_ratios :
  forall target forum g,
    let crawl := fst (ForumSentimentAgent._crawl_forum_sentiment target forum g) in
    0.1 <= ForumSentimentAgent.positive_ratio crawl <= 0.9
    /\ ForumSentimentAgent.positive_ratio crawl
       + ForumSentimentAgent.negative_ratio crawl == 1.
Proof.
  intros target forum g. cbv zeta.
  split; [exact (crawl_forum_positive_bounds target forum g)|].
  unfold ForumSentimentAgent._crawl_forum_sentiment.
  cbv zeta. unfold uniform, randint, random.
  cbn [fst ForumSentimentAgent.positive_ratio ForumSentimentAgent.negative_ratio].
  ring.
Qed.

(** The running totals of a stratum stay between 0.1 and 0.9 of the weight
    accumulated so far. *)
Lemma forum_loop_invariant (target : string) (usage : dict Q) :
  Forall (fun kv => 0 <= snd kv) usage ->
  forall positive negative weight g,
    0 <= weight ->
    0.1 * weight <= positive <= 0.9 * weight ->
    let '(positive', _, weight') :=
      fst (ForumSentimentAgent.forum_loop target usage (positive, negative, weight) g) in
    weight' == weight + Spec.total usage
    /\ 0.1 * weight' <= positive' <= 0.9 * weight'.
Proof.
  induction 1 as [|[forum w] rest Hw Hrest IH]; intros positive negative weight g Hweight Hpos.
  - cbn [ForumSentimentAgent.forum_loop fst Spec.total fold_right].
    split; [lra | exact Hpos].
  - change (Spec.total ((forum, w) :: rest)) with (w + Spec.total rest).
    cbn [ForumSentimentAgent.forum_loop snd] in *.
    pose proof (crawl_forum_positive_bounds target forum g) as Hcrawl.
    destruct (ForumSentimentAgent._crawl_forum_sentiment target forum g) as [crawl g'].
    cbn [fst] in Hcrawl. destruct Hcrawl as [Hlow Hhigh].
    match goal with
    | |- context [ForumSentimentAgent.forum_loop target rest (?p, ?n, ?t) g'] =>
        specialize (IH p n t g')
    end.
    destruct (fst (ForumSentimentAgent.forum_loop target rest _ g'))
      as [[positive' negative'] weight'].
    destruct IH as [Hsum Hbound].
    + lra.
    + generalize dependent (ForumSentimentAgent.positive_ratio crawl). intros x.
      intros. nra.
    + split; [lra | exact Hbound].
Qed.

Lemma stratum_range (target : string) (usage : dict Q) (g : Rng) :
  Forall (fun kv => 0 <= snd kv) usage ->
  0.1 <= fst (ForumSentimentAgent.stratum target usage g) <= 0.9.
Proof.
  intros Husage. unfold ForumSentimentAgent.stratum.
  pose proof (forum_loop_invariant target usage Husage 0 0 0 g) as Hinv.
  destruct (ForumSentimentAgent.forum_loop target usage (0, 0, 0) g)
    as [[[positive negative] weight] g'].
  cbn [fst] in *. destruct Hinv as [_ [Hlow Hhigh]]; [lra | lra |].
  destruct (Qltb 0 weight) eqn:Hw; [|lra].
  apply Qltb_true in Hw. split.
  - apply Qle_shift_div_l; [exact Hw | exact Hlow].
  - apply Qle_shift_div_r; [exact Hw | exact Hhigh].
Qed.

Lemma forum_usage_nonnegative (group : string) :
  Forall (fun kv => 0 <= snd kv)
         (get_default ForumSentimentAgent._get_forum_usage_by_age group []).
Proof.
  unfold get_default, ForumSentimentAgent._get_forum_usage_by_age. cbn [get].
  destruct (String.eqb group "youth"); [|destruct (String.eqb group "middle");
                                         [|destruct (String.eqb group "elder")]];
    repeat (apply Forall_cons; [cbn [snd]; lra|]); apply Forall_nil.
Qed.

(** X13: whatever the state of the random source, the youth and
    middle-aged forum sentiments the Sentiment estimator returns lie
    between 0.1 and 0.9; the compatibility keys ['dcard_positive'] and
    ['ptt_positive'] repeat them. *)
Theorem stratified_forum_sentiment_range :
  forall dcard ptt strength g,
    let scalars :=
      ForumSentimentAgent.scalars
        (fst (ForumSentimentAgent.analyze dcard ptt strength g)) in
    exists s1 s2,
      get scalars "s1_youth_forum" = Some s1
      /\ get scalars "s2_middle_forum" = Some s2
      /\ get scalars "dcard_positive" = Some s1
      /\ get scalars "ptt_positive" = Some s2
      /\ 0.1 <= s1 <= 0.9 /\ 0.1 <= s2 <= 0.9.
Proof.
  intros dcard ptt strength g. unfold ForumSentimentAgent.analyze. cbv zeta.
  pose proof (stratum_range "當前罷免對象" _ g (forum_usage_nonnegative "youth")) as H1.
  destruct (ForumSentimentAgent.stratum _ _ g) as [s1 g1]. cbn [fst] in H1.
  pose proof (stratum_range "當前罷免對象" _ g1 (forum_usage_nonnegative "middle")) as H2.
  destruct (ForumSentimentAgent.stratum _ _ g1) as [s2 g2]. cbn [fst] in H2.
  destruct (ForumSentimentAgent._crawl_news_sentiment _ g2) as [news g3].
  destruct (uniform 1.1 1.3 g3) as [factor g4].
  exists s1, s2. cbn [fst ForumSentimentAgent.scalars].
  repeat split; try reflexivity; tauto.
Qed.

Lemma unit_draws_advance (n : nat) (g : Rng) :
  Draws.unit_draws g -> Draws.unit_draws (Draws.advance n g).
Proof. intros Hg k. apply Hg. Qed.

Lemma source_bias_range (source : string) :
  0.4 <= ForumSentimentAgent.source_bias source <= 0.6.
Proof.
  unfold ForumSentimentAgent.source_bias.
  destruct (in_list source _); [lra|]. destruct (in_list source _); lra.
Qed.

(** The running totals of the news crawl: the positive total stays between
    0.3 and 0.7 of the samples, positive and negative add up to the
    samples, and each source brings 20 to 80 samples. *)
Lemma news_loop_invariant (sources : list string) :
  forall positive negative samples g,
    Draws.unit_draws g ->
    0.3 * inject_Z samples <= positive <= 0.7 * inject_Z samples ->
    positive + negative == inject_Z samples ->
    let '(positive', negative', samples') :=
      fst (ForumSentimentAgent.news_loop sources (positive, negative, samples) g) in
    0.3 * inject_Z samples' <= positive' <= 0.7 * inject_Z samples'
    /\ positive' + negative' == inject_Z samples'
    /\ (samples + 20 * Z.of_nat (List.length sources) <= samples'
        <= samples + 80 * Z.of_nat (List.length sources))%Z.
Proof.
  induction sources as [|source rest IH]; intros positive negative samples g Hg Hpos Hsum.
  - cbn [ForumSentimentAgent.news_loop fst List.length Z.of_nat].
    split; [exact Hpos | split; [exact Hsum | lia]].
  - cbn [ForumSentimentAgent.news_loop].
    pose proof (source_bias_range source) as Hbias.
    set (bias := ForumSentimentAgent.source_bias source) in *.
    assert (bias - 0.1 <= bias + 0.1) as Hab by lra.
    pose proof (uniform_range _ _ g Hab Hg) as Hu.
    assert (snd (uniform (bias - 0.1) (bias + 0.1) g) = Draws.advance 1 g) as Hg1
      by reflexivity.
    destruct (uniform (bias - 0.1) (bias + 0.1) g) as [sentiment g1].
    cbn [fst snd] in Hu, Hg1. subst g1.
    pose proof (randint_range 20 80 (Draws.advance 1 g) ltac:(lia)
                  (unit_draws_advance 1 g Hg)) as Hn.
    assert (snd (randint 20 80 (Draws.advance 1 g)) = Draws.advance 2 g) as Hg2
      by reflexivity.
    destruct (randint 20 80 (Draws.advance 1 g)) as [count g2].
    cbn [fst snd] in Hn, Hg2. subst g2.
    assert (20 <= inject_Z count <= 80) as Hcount.
    { change 20 with (inject_Z 20). change 80 with (inject_Z 80).
      rewrite <- !Zle_Qle. exact Hn. }
    match goal with
    | |- context [ForumSentimentAgent.news_loop rest (?p, ?n, ?t) ?g'] =>
        specialize (IH p n t g' (unit_draws_advance 2 g Hg))
    end.
    destruct (fst (ForumSentimentAgent.news_loop rest _ _))
      as [[positive' negative'] samples'].
    rewrite inject_Z_plus in IH.
    set (c := inject_Z count) in *. set (s := inject_Z samples) in *.
    clearbody c s.
    assert (0 <= (sentiment - 0.3) * c) as Hlow by (apply Qmult_le_0_compat; lra).
    assert (0 <= (0.7 - sentiment) * c) as Hhigh by (apply Qmult_le_0_compat; lra).
    destruct IH as (Hbound & Hsum' & Hsamples).
    + lra.
    + lra.
    + split; [exact Hbound | split; [exact Hsum'|]].
      cbn [List.length]. lia.
Qed.

(** X14: when the random source delivers unit draws, the simulated news
    crawl returns a positive ratio between 0.3 and 0.7, a negative ratio
    that complements it to 1, and between 100 and 400 samples. *)
Theorem news_crawl_ratios :
  forall target g,
    Draws.unit_draws g ->
    let news := fst (ForumSentimentAgent._crawl_news_sentiment target g) in
    0.3 <= ForumSentimentAgent.news_positive_ratio news <= 0.7
    /\ ForumSentimentAgent.news_positive_ratio news
       + ForumSentimentAgent.news_negative_ratio news == 1
    /\ (100 <= ForumSentimentAgent.news_sample_size news <= 400)%Z.
Proof.
  intros target g Hg. unfold ForumSentimentAgent._crawl_news_sentiment.
  pose proof (news_loop_invariant ForumSentimentAgent.news_sources 0 0 0%Z g Hg)
    as Hinv.
  destruct (ForumSentimentAgent.news_loop ForumSentimentAgent.news_sources
              (0, 0, 0%Z) g) as [[[positive negative] samples] g'].
  cbn [fst] in *.
  destruct Hinv as ([Hlow Hhigh] & Hsum & Hsamples);
    [change (inject_Z 0) with 0; lra | change (inject_Z 0) with 0; lra |].
  cbn [List.length ForumSentimentAgent.news_sources Z.of_nat] in Hsamples.
  cbn [ForumSentimentAgent.news_positive_ratio ForumSentimentAgent.news_negative_ratio
       ForumSentimentAgent.news_sample_size].
  assert (0 < samples)%Z as Hpos by lia.
  apply Z.ltb_lt in Hpos as Hb. rewrite Hb.
  assert (0 < inject_Z samples) as Hq.
  { change 0 with (inject_Z 0). rewrite <- Zlt_Qlt. exact Hpos. }
  split; [split|split].
  - apply Qle_shift_div_l; [exact Hq | exact Hlow].
  - apply Qle_shift_div_r; [exact Hq | exact Hhigh].
  - generalize dependent (inject_Z samples). intros s Hlow Hhigh Hsum Hs.
    field_simplify_eq; lra.
  - lia.
Qed.

Lemma news_crawl_ratios_witness :
  let news := fst (ForumSentimentAgent._crawl_news_sentiment "" Inputs.steady) in
  0.3 <= ForumSentimentAgent.news_positive_ratio news <= 0.7
  /\ ForumSentimentAgent.news_positive_ratio news
     + ForumSentimentAgent.news_negative_ratio news == 1
  /\ (100 <= ForumSentimentAgent.news_sample_size news <= 400)%Z.
Proof.
  apply news_crawl_ratios. intros n. cbn. lra.
Defined.

(** ** What [predict] draws, and when it raises *)

Lemma sentiment_analyze_advance (dcard ptt : dict Q) (strength : Q) (g : Rng) :
  snd (ForumSentimentAgent.analyze dcard ptt strength g) = Draws.advance 23 g.
Proof. reflexivity. Qed.

(** X15: a call of [predict] that returns has consumed exactly 23 draws
    of the random source (12 for the two forum strata, 10 for the news
    crawl, 1 for the mobilization factor) and left the tape as it was; a
    call that raises has consumed none. *)
Theorem predict_draws_consumed :
  forall s g,
    match fst (MasterAnalysisAgent.predict s g) with
    | Ok _ => snd (MasterAnalysisAgent.predict s g) = Draws.advance 23 g
    | Raise _ => snd (MasterAnalysisAgent.predict s g) = g
    end.
Proof.
  intros s g. unfold MasterAnalysisAgent.predict.
  destruct (MasterAnalysisAgent.collect s) as [c|e]; [|reflexivity].
  pose proof (sentiment_analyze_advance
                (MasterAnalysisAgent.optional
                   (MasterAnalysisAgent.dcard_sentiment s) [("positive", 20)])
                (MasterAnalysisAgent.optional
                   (MasterAnalysisAgent.ptt_sentiment s) [("positive", 30)])
                (MasterAnalysisAgent.optional
                   (MasterAnalysisAgent.mobilization_strength s) 80) g) as Hadvance.
  destruct (ForumSentimentAgent.analyze _ _ _ g) as [sentiment g'].
  destruct (conclude_ok c sentiment) as (t & _ & _ & ->).
  exact Hadvance.
Qed.

(** [collect], case by case. *)
Lemma collect_cases (s : MasterAnalysisAgent.Scenario) :
  match MasterAnalysisAgent.age_structure s, MasterAnalysisAgent.recall_target s with
  | None, _ => MasterAnalysisAgent.collect s = Raise (KeyError "age_structure")
  | Some _, None => MasterAnalysisAgent.collect s = Raise (KeyError "recall_target")
  | Some ages, Some target =>
      if forallb Spec.known_group (keys ages)
      then exists c,
          MasterAnalysisAgent.collect s = Ok c
          /\ MasterAnalysisAgent.c_ages c = ages
          /\ (forall k, In k (keys ages) ->
                        Spec.in_all_three (MasterAnalysisAgent.c_psychological c)
                          (MasterAnalysisAgent.c_media c)
                          (MasterAnalysisAgent.c_social c) k = true)
      else exists k,
          In k (keys ages) /\ Spec.known_group k = false
          /\ MasterAnalysisAgent.collect s = Raise (KeyError k)
  end.
Proof.
  unfold MasterAnalysisAgent.collect.
  destruct (MasterAnalysisAgent.age_structure s) as [ages|]; [|reflexivity].
  destruct (MasterAnalysisAgent.recall_target s) as [target|]; [|reflexivity].
  cbn [MasterAnalysisAgent.required bind].
  unfold PsychologicalMotivationAgent.analyze, MediaEnvironmentAgent.analyze.
  assert (forallb (mem (PsychologicalMotivationAgent._get_base_params target)) (keys ages)
          = forallb Spec.known_group (keys ages)) as Hp
      by (apply forallb_ext_eq, base_params_known).
  assert (forallb (mem MediaEnvironmentAgent.media_weights) (keys ages)
          = forallb Spec.known_group (keys ages)) as Hm
      by (apply forallb_ext_eq, media_weights_known).
  destruct (forallb Spec.known_group (keys ages)) eqn:Hknown.
  - destruct (psychological_loop_total _ ages [] Hp) as (p & -> & Hpmem).
    destruct (media_loop_total
                (MediaEnvironmentAgent._get_media_attention target) (keys ages) [] Hm)
      as (m & -> & Hmmem).
    cbn [bind].
    pose proof (social_analyze_entries
                  (MasterAnalysisAgent.optional (MasterAnalysisAgent.forum_sentiment s) [])
                  (MasterAnalysisAgent.optional (MasterAnalysisAgent.discussion_heat s) 70)
                  (MasterAnalysisAgent.optional (MasterAnalysisAgent.peer_pressure s) 60))
      as Hsocial.
    cbv zeta in Hsocial. rewrite Hsocial. cbn [bind].
    eexists. split; [reflexivity|]. split; [reflexivity|].
    cbn [MasterAnalysisAgent.c_psychological MasterAnalysisAgent.c_media
         MasterAnalysisAgent.c_social].
    intros k Hk. unfold Spec.in_all_three.
    rewrite (Hpmem k (or_introl Hk)), (Hmmem k (or_introl Hk)). cbn [andb].
    rewrite forallb_forall in Hknown. specialize (Hknown k Hk).
    unfold Spec.known_group, in_list in Hknown. cbn [existsb] in Hknown.
    unfold mem. cbn [get].
    destruct (String.eqb k youth); [reflexivity|].
    destruct (String.eqb k middle); [reflexivity|].
    destruct (String.eqb k elder); [reflexivity | discriminate Hknown].
  - destruct (psychological_loop_raises _ ages [] Hp) as (k & Hin & Hk & ->).
    exists k. rewrite base_params_known in Hk. auto.
Qed.

(** X16: [predict] raises [KeyError('age_structure')] when the scenario
    has no age structure (whatever else is missing), [KeyError('recall_target')]
    when only the target is missing, [KeyError] for an age group outside the
    three known ones when the age structure has one, and returns a result in
    every other case. *)
Theorem predict_errors :
  forall s g,
    match MasterAnalysisAgent.age_structure s, MasterAnalysisAgent.recall_target s with
    | None, _ =>
        fst (MasterAnalysisAgent.predict s g) = Raise (KeyError "age_structure")
    | Some _, None =>
        fst (MasterAnalysisAgent.predict s g) = Raise (KeyError "recall_target")
    | Some ages, Some _ =>
        if forallb Spec.known_group (keys ages)
        then exists r, fst (MasterAnalysisAgent.predict s g) = Ok r
        else exists k,
            In k (keys ages) /\ Spec.known_group k = false
            /\ fst (MasterAnalysisAgent.predict s g) = Raise (KeyError k)
    end.
Proof.
  intros s g. pose proof (collect_cases s) as Hc.
  unfold MasterAnalysisAgent.predict.
  destruct (MasterAnalysisAgent.age_structure s) as [ages|]; [|rewrite Hc; reflexivity].
  destruct (MasterAnalysisAgent.recall_target s) as [target|]; [|rewrite Hc; reflexivity].
  destruct (forallb Spec.known_group (keys ages)).
  - destruct Hc as (c & -> & _).
    destruct (ForumSentimentAgent.analyze _ _ _ g) as [sentiment g'].
    destruct (conclude_ok c sentiment) as (t & _ & _ & ->).
    cbn [fst]. eexists. reflexivity.
  - destruct Hc as (k & Hin & Hk & ->). exists k. cbn [fst]. auto.
Qed.

Lemma filter_all {A : Type} (f : A -> bool) (l : list A) :
  (forall x, In x l -> f x = true) -> filter f l = l.
Proof.
  induction l as [|x rest IH]; intros H; simpl; [reflexivity|].
  rewrite (H x (or_introl eq_refl)), IH; [reflexivity|].
  intros y Hy. apply H. now right.
Qed.

(** X17: in a prediction that [predict] returns no age group is skipped:
    every age group of the scenario has an entry in each of the three
    per-group breakdowns of the prediction, and the turnout is the floored
    product of the weather, regional and intensity factors with the sum,
    over every age group of the scenario, of share x voting intention x
    media coefficient x social coefficient, taken from these entries. *)
Theorem predict_counts_every_group :
  forall s g r,
    fst (MasterAnalysisAgent.predict s g) = Ok r ->
    exists ages,
      MasterAnalysisAgent.age_structure s = Some ages
      /\ (forall k,
             In k (keys ages) ->
             Spec.in_all_three
               (MasterAnalysisAgent.psychological (MasterAnalysisAgent.agent_results r))
               (MasterAnalysisAgent.media (MasterAnalysisAgent.agent_results r))
               (MasterAnalysisAgent.social (MasterAnalysisAgent.agent_results r))
               k = true)
      /\ MasterAnalysisAgent.predicted_turnout r
         = py_max
             (Spec.raw_turnout ages
                (MasterAnalysisAgent.psychological (MasterAnalysisAgent.agent_results r))
                (MasterAnalysisAgent.media (MasterAnalysisAgent.agent_results r))
                (MasterAnalysisAgent.social (MasterAnalysisAgent.agent_results r))
                (keys ages)
              * ClimateConditionAgent.weather_coefficient
                  (MasterAnalysisAgent.climate (MasterAnalysisAgent.agent_results r))
              * RegionalGeographyAgent.adjustment_factor
                  (MasterAnalysisAgent.regional (MasterAnalysisAgent.agent_results r))
              * MasterAnalysisAgent._get_dynamic_political_intensity
                  (MasterAnalysisAgent.recall_target s)
              * 100) 20.
Proof.
  intros s g r. pose proof (collect_cases s) as Hc.
  unfold MasterAnalysisAgent.predict.
  destruct (MasterAnalysisAgent.age_structure s) as [ages|];
    [|rewrite Hc; discriminate].
  destruct (MasterAnalysisAgent.recall_target s) as [target|] eqn:Htarget;
    [|rewrite Hc; discriminate].
  destruct (forallb Spec.known_group (keys ages));
    [|destruct Hc as (k & _ & _ & ->); discriminate].
  destruct Hc as (c & Hcollect & Hages & Hall). rewrite Hcollect.
  destruct (collect_keys s c Hcollect) as [_ Htarget'].
  rewrite Htarget in Htarget'. injection Htarget' as Htarget'.
  destruct (ForumSentimentAgent.analyze _ _ _ g) as [sentiment g'].
  destruct (conclude_ok c sentiment) as (t & Ht & _ & ->).
  cbn [fst]. intros [= <-]. exists ages. split; [reflexivity|].
  cbn [MasterAnalysisAgent.predicted_turnout MasterAnalysisAgent.agent_results
       MasterAnalysisAgent.psychological MasterAnalysisAgent.media
       MasterAnalysisAgent.social MasterAnalysisAgent.climate
       MasterAnalysisAgent.regional].
  split; [exact Hall|].
  unfold MasterAnalysisAgent._calculate_turnout in Ht.
  rewrite Hages in Ht.
  rewrite (turnout_loop_sum ages _ _ _ (keys ages) 0) in Ht by auto.
  rewrite (filter_all _ _ Hall) in Ht. cbn [bind] in Ht.
  injection Ht as <-. rewrite Htarget'. reflexivity.
Qed.

Lemma predict_counts_every_group_witness :
  exists r ages,
    fst (MasterAnalysisAgent.predict Inputs.baseline Inputs.steady) = Ok r
    /\ MasterAnalysisAgent.age_structure Inputs.baseline = Some ages
    /\ (forall k,
           In k (keys ages) ->
           Spec.in_all_three
             (MasterAnalysisAgent.psychological (MasterAnalysisAgent.agent_results r))
             (MasterAnalysisAgent.media (MasterAnalysisAgent.agent_results r))
             (MasterAnalysisAgent.social (MasterAnalysisAgent.agent_results r))
             k = true)
    /\ MasterAnalysisAgent.predicted_turnout r
       = py_max
           (Spec.raw_turnout ages
              (MasterAnalysisAgent.psychological (MasterAnalysisAgent.agent_results r))
              (MasterAnalysisAgent.media (MasterAnalysisAgent.agent_results r))
              (MasterAnalysisAgent.social (MasterAnalysisAgent.agent_results r))
              (keys ages)
            * ClimateConditionAgent.weather_coefficient
                (MasterAnalysisAgent.climate (MasterAnalysisAgent.agent_results r))
            * RegionalGeographyAgent.adjustment_factor
                (MasterAnalysisAgent.regional (MasterAnalysisAgent.agent_results r))
            * MasterAnalysisAgent._get_dynamic_political_intensity
                (MasterAnalysisAgent.recall_target Inputs.baseline)
            * 100) 20.
Proof.
  destruct (predict_counts_every_group Inputs.baseline Inputs.steady
              (match fst (MasterAnalysisAgent.predict Inputs.baseline Inputs.steady) with
               | Ok r => r
               | Raise _ =>
                   MasterAnalysisAgent.mkPrediction 0 0 false
                     (MasterAnalysisAgent.TurnoutBelowThreshold 0)
                     (MasterAnalysisAgent.mkAgentResults [] [] []
                        (ClimateConditionAgent.analyze 0 0 "")
                        (RegionalGeographyAgent.analyze "" 0 0)
                        (ForumSentimentAgent.mkEntry [] []))
               end)) as (ages & Hages & Hall & Hturnout).
  - vm_compute. reflexivity.
  - eexists. exists ages. split; [vm_compute; reflexivity|].
    split; [exact Hages|]. split; [exact Hall | exact Hturnout].
Defined.

(** ** Agreement when the random source is well behaved *)

(** Replaces the inverse of every closed constant by its value, for [lra]. *)
Ltac invert_constants :=
  unfold Qdiv;
  repeat match goal with
    | |- context [/ ?c] =>
        let v := eval vm_compute in (/ c) in change (/ c) with v
    end.

Lemma crawl_forum_advance (target forum : string) (g : Rng) :
  snd (ForumSentimentAgent._crawl_forum_sentiment target forum g) = Draws.advance 2 g.
Proof. reflexivity. Qed.

(** With unit draws the clamp of a forum crawl is idle: the positive ratio
    is the base sentiment, between 0.3 and 0.7, divided by the bias. *)
Lemma crawl_forum_unit (target forum : string) (g : Rng) :
  Draws.unit_draws g ->
  0.3 / Draws.bias_of forum
  <= ForumSentimentAgent.positive_ratio
       (fst (ForumSentimentAgent._crawl_forum_sentiment target forum g))
  <= 0.7 / Draws.bias_of forum.
Proof.
  intros Hg. unfold ForumSentimentAgent._crawl_forum_sentiment, Draws.bias_of.
  cbv zeta. unfold uniform, randint, random.
  cbn [fst ForumSentimentAgent.positive_ratio].
  destruct (Hg (pos g)) as [H0 H1].
  generalize dependent (tape g (pos g)). intros u H0 H1.
  unfold get_default, ForumSentimentAgent.forum_characteristics. cbn [get].
  destruct (String.eqb forum "ptt"); [|destruct (String.eqb forum "dcard");
                                       [|destruct (String.eqb forum "mobile01")]];
    cbn [ForumSentimentAgent.negativity_bias];
    invert_constants; by_comparisons; lra.
Qed.

Lemma low_high_sums_cons (forum : string) (w : Q) (rest : dict Q) :
  Draws.low_sum ((forum, w) :: rest)
  = w * (0.3 / Draws.bias_of forum) + Draws.low_sum rest
  /\ Draws.high_sum ((forum, w) :: rest)
     = w * (0.7 / Draws.bias_of forum) + Draws.high_sum rest.
Proof. split; reflexivity. Qed.

(** The totals of a stratum under unit draws. *)
Lemma forum_loop_unit (target : string) (usage : dict Q) :
  Forall (fun kv => 0 <= snd kv) usage ->
  forall positive negative weight g,
    Draws.unit_draws g ->
    let '(positive', _, weight') :=
      fst (ForumSentimentAgent.forum_loop target usage (positive, negative, weight) g) in
    weight' == weight + Spec.total usage
    /\ positive + Draws.low_sum usage <= positive'
       <= positive + Draws.high_sum usage.
Proof.
  induction 1 as [|[forum w] rest Hw Hrest IH]; intros positive negative weight g Hg.
  - cbn [ForumSentimentAgent.forum_loop fst]. cbn. lra.
  - change (Spec.total ((forum, w) :: rest)) with (w + Spec.total rest).
    destruct (low_high_sums_cons forum w rest) as [-> ->].
    cbn [ForumSentimentAgent.forum_loop snd] in *.
    pose proof (crawl_forum_unit target forum g Hg) as [Hlow Hhigh].
    pose proof (crawl_forum_advance target forum g) as Hnext.
    destruct (ForumSentimentAgent._crawl_forum_sentiment target forum g) as [crawl g'].
    cbn [fst snd] in Hlow, Hhigh, Hnext. subst g'.
    match goal with
    | |- context [ForumSentimentAgent.forum_loop target rest (?p, ?n, ?t) ?g'] =>
        specialize (IH p n t g' (unit_draws_advance 2 g Hg))
    end.
    destruct (fst (ForumSentimentAgent.forum_loop target rest _ _))
      as [[positive' negative'] weight'].
    destruct IH as [Hsum [Hlo Hhi]].
    set (x := ForumSentimentAgent.positive_ratio crawl) in *.
    set (lo := 0.3 / Draws.bias_of forum) in *.
    set (hi := 0.7 / Draws.bias_of forum) in *.
    clearbody x lo hi.
    assert (lo * w <= x * w) by (apply Qmult_le_compat_r; assumption).
    assert (x * w <= hi * w) by (apply Qmult_le_compat_r; assumption).
    split; [lra | split; lra].
Qed.

Lemma forum_loop_advance (target : string) (usage : dict Q) :
  forall totals g,
    snd (ForumSentimentAgent.forum_loop target usage totals g)
    = Draws.advance (2 * List.length usage) g.
Proof.
  induction usage as [|[forum w] rest IH]; intros [[positive negative] weight] g.
  - destruct g. reflexivity.
  - cbn [ForumSentimentAgent.forum_loop].
    pose proof (crawl_forum_advance target forum g) as Hnext.
    destruct (ForumSentimentAgent._crawl_forum_sentiment target forum g) as [crawl g'].
    cbn [snd] in Hnext. subst g'. rewrite IH.
    unfold Draws.advance. cbn [tape pos List.length]. f_equal. lia.
Qed.

(** The two forum strata of [analyze] under unit draws. *)
Lemma stratum_unit (target group : string) (g : Rng) :
  Draws.unit_draws g ->
  In group ["youth"; "middle"] ->
  let usage := get_default ForumSentimentAgent._get_forum_usage_by_age group [] in
  0.289 <= fst (ForumSentimentAgent.stratum target usage g) <= 0.6826
  /\ (group = "youth" -> fst (ForumSentimentAgent.stratum target usage g) <= 0.6748)
  /\ (group = "middle" -> 0.2925 <= fst (ForumSentimentAgent.stratum target usage g))
  /\ snd (ForumSentimentAgent.stratum target usage g) = Draws.advance 6 g.
Proof.
  intros Hg Hgroup usage. unfold ForumSentimentAgent.stratum.
  pose proof (forum_loop_unit target usage (forum_usage_nonnegative group) 0 0 0 g Hg)
    as Hinv.
  pose proof (forum_loop_advance target usage (0, 0, 0) g) as Hnext.
  destruct (ForumSentimentAgent.forum_loop target usage (0, 0, 0) g)
    as [[[positive negative] weight] g'].
  cbn [fst snd] in *. destruct Hinv as [Hweight [Hlow Hhigh]]. subst g'.
  destruct Hgroup as [<-|[<-|[]]].
  - assert (weight == 1) as Hone by (rewrite Hweight; vm_compute; reflexivity).
    assert (0.2891 <= Draws.low_sum usage) as Hl by (vm_compute; discriminate).
    assert (Draws.high_sum usage <= 0.6748) as Hh by (vm_compute; discriminate).
    destruct (Qltb 0 weight) eqn:Hw; [|apply Qltb_false in Hw; lra].
    apply Qltb_true in Hw.
    assert (0.2891 <= positive / weight <= 0.6748) as [H1 H2].
    { split; [apply Qle_shift_div_l | apply Qle_shift_div_r]; try exact Hw.
      - rewrite Hone. lra.
      - rewrite Hone. lra. }
    repeat split; try lra; try reflexivity. discriminate.
  - assert (weight == 1) as Hone by (rewrite Hweight; vm_compute; reflexivity).
    assert (0.2925 <= Draws.low_sum usage) as Hl by (vm_compute; discriminate).
    assert (Draws.high_sum usage <= 0.6826) as Hh by (vm_compute; discriminate).
    destruct (Qltb 0 weight) eqn:Hw; [|apply Qltb_false in Hw; lra].
    apply Qltb_true in Hw.
    assert (0.2925 <= positive / weight <= 0.6826) as [H1 H2].
    { split; [apply Qle_shift_div_l | apply Qle_shift_div_r]; try exact Hw.
      - rewrite Hone. lra.
      - rewrite Hone. lra. }
    repeat split; try lra; try reflexivity. discriminate.
Qed.

Lemma news_positive_unit (target : string) (g : Rng) :
  Draws.unit_draws g ->
  0.3 <= ForumSentimentAgent.news_positive_ratio
           (fst (ForumSentimentAgent._crawl_news_sentiment target g)) <= 0.7.
Proof.
  intros Hg. unfold ForumSentimentAgent._crawl_news_sentiment.
  pose proof (news_loop_invariant ForumSentimentAgent.news_sources 0 0 0%Z g Hg)
    as Hinv.
  destruct (ForumSentimentAgent.news_loop ForumSentimentAgent.news_sources
              (0, 0, 0%Z) g) as [[[positive negative] samples] g'].
  cbn [fst] in *.
  destruct Hinv as ([Hlow Hhigh] & _ & Hsamples);
    [change (inject_Z 0) with 0; lra | change (inject_Z 0) with 0; lra |].
  cbn [List.length ForumSentimentAgent.news_sources Z.of_nat] in Hsamples.
  cbn [ForumSentimentAgent.news_positive_ratio].
  assert (0 < samples)%Z as Hpos by lia.
  apply Z.ltb_lt in Hpos as Hb. rewrite Hb.
  assert (0 < inject_Z samples) as Hq.
  { change 0 with (inject_Z 0). rewrite <- Zlt_Qlt. exact Hpos. }
  split; [apply Qle_shift_div_l | apply Qle_shift_div_r]; assumption.
Qed.

(** The three stratified sentiments of [analyze] under unit draws. *)
Lemma sentiment_analyze_unit (dcard ptt : dict Q) (strength : Q) (g : Rng) :
  Draws.unit_draws g ->
  let scalars :=
    ForumSentimentAgent.scalars
      (fst (ForumSentimentAgent.analyze dcard ptt strength g)) in
  0.289 <= get_default scalars "s1_youth_forum" 0.5 <= 0.6748
  /\ 0.2925 <= get_default scalars "s2_middle_forum" 0.5 <= 0.6826
  /\ 0.3 <= get_default scalars "s3_elder_news" 0.5 <= 0.7.
Proof.
  intros Hg. unfold ForumSentimentAgent.analyze. cbv zeta.
  destruct (stratum_unit "當前罷免對象" "youth" g Hg (or_introl eq_refl))
    as ([H1 _] & H1' & _ & Hg1).
  specialize (H1' eq_refl). cbv zeta in H1, H1', Hg1.
  destruct (ForumSentimentAgent.stratum _ _ g) as [s1 g1].
  cbn [fst snd] in H1, H1', Hg1. subst g1.
  destruct (stratum_unit "當前罷免對象" "middle" (Draws.advance 6 g)
              (unit_draws_advance 6 g Hg) (or_intror (or_introl eq_refl)))
    as ([_ H2] & _ & H2' & Hg2).
  specialize (H2' eq_refl). cbv zeta in H2, H2', Hg2.
  destruct (ForumSentimentAgent.stratum _ _ (Draws.advance 6 g)) as [s2 g2].
  cbn [fst snd] in H2, H2', Hg2. subst g2.
  pose proof (news_positive_unit "當前罷免對象" _
                (unit_draws_advance 6 _ (unit_draws_advance 6 g Hg))) as H3.
  destruct (ForumSentimentAgent._crawl_news_sentiment _ _) as [news g3].
  cbn [fst] in H3.
  destruct (uniform 1.1 1.3 g3) as [factor g4].
  cbn [fst ForumSentimentAgent.scalars].
  cbv [get_default get String.eqb Ascii.eqb Bool.eqb].
  repeat split; lra.
Qed.

Lemma intensity_at_least (target : option string) :
  0.8 <= MasterAnalysisAgent._get_dynamic_political_intensity target.
Proof.
  pose proof intensity_map_values as Hall. rewrite Forall_forall in Hall.
  destruct (intensity_from_table target) as [->|[key Hin]]; [lra|].
  specialize (Hall _ Hin). cbn [snd] in Hall. lra.
Qed.

(** The agreement before and after its clamp, under unit draws. *)
Lemma calculate_agreement_unit (dcard ptt : dict Q) (strength : Q) (g : Rng)
      (turnout : Q) (target : option string) :
  Draws.unit_draws g ->
  let intensity := MasterAnalysisAgent._get_dynamic_political_intensity target in
  let agreement :=
    MasterAnalysisAgent._calculate_agreement turnout
      (fst (ForumSentimentAgent.analyze dcard ptt strength g)) target in
  py_min (29.56 * intensity) 90 <= agreement <= py_min (69.02 * intensity) 90.
Proof.
  intros Hg intensity agreement. subst agreement.
  destruct (sentiment_analyze_unit dcard ptt strength g Hg) as (H1 & H2 & H3).
  cbv zeta in H1, H2, H3.
  unfold MasterAnalysisAgent._calculate_agreement. cbv zeta. fold intensity.
  pose proof (intensity_at_least target) as Hi. fold intensity in Hi.
  set (s1 := get_default _ "s1_youth_forum" 0.5) in *.
  set (s2 := get_default _ "s2_middle_forum" 0.5) in *.
  set (s3 := get_default _ "s3_elder_news" 0.5) in *.
  clearbody s1 s2 s3 intensity.
  set (base := 0.30 * (s1 * 1.2) + 0.45 * (s2 * 1.0) + 0.25 * (s3 * 0.8)).
  assert (0.2956 <= base <= 0.6902) as [Hlow Hhigh] by (subst base; lra).
  assert (0.2956 * intensity <= base * intensity) as Hl
      by (apply Qmult_le_compat_r; [assumption | lra]).
  assert (base * intensity <= 0.6902 * intensity) as Hh
      by (apply Qmult_le_compat_r; [assumption | lra]).
  generalize dependent (base * intensity). intros x Hl Hh.
  split; by_comparisons; lra.
Qed.

(** X18: when the random source delivers unit draws, the predicted
    agreement lies between 29.56 and 69.02 times the political intensity
    of the target (each capped at 90); the lower clamp of 10 is never
    applied. *)
Theorem agreement_under_unit_draws :
  forall s g r,
    Draws.unit_draws g ->
    fst (MasterAnalysisAgent.predict s g) = Ok r ->
    let intensity :=
      MasterAnalysisAgent._get_dynamic_political_intensity
        (MasterAnalysisAgent.recall_target s) in
    py_min (29.56 * intensity) 90 <= MasterAnalysisAgent.predicted_agreement r
    /\ MasterAnalysisAgent.predicted_agreement r <= py_min (69.02 * intensity) 90
    /\ 23.6 <= MasterAnalysisAgent.predicted_agreement r.
Proof.
  intros s g r Hg. unfold MasterAnalysisAgent.predict.
  destruct (MasterAnalysisAgent.collect s) as [c|e] eqn:Hc; [|discriminate].
  destruct (collect_keys s c Hc) as [_ ->].
  pose proof (calculate_agreement_unit
                (MasterAnalysisAgent.optional
                   (MasterAnalysisAgent.dcard_sentiment s) [("positive", 20)])
                (MasterAnalysisAgent.optional
                   (MasterAnalysisAgent.ptt_sentiment s) [("positive", 30)])
                (MasterAnalysisAgent.optional
                   (MasterAnalysisAgent.mobilization_strength s) 80) g) as Hunit.
  destruct (ForumSentimentAgent.analyze _ _ _ g) as [sentiment g'].
  cbn [fst] in Hunit.
  destruct (conclude_ok c sentiment) as (t & _ & _ & ->).
  cbn [fst]. intros [= <-]. cbv zeta.
  cbn [MasterAnalysisAgent.predicted_agreement].
  specialize (Hunit t (Some (MasterAnalysisAgent.c_target c)) Hg).
  cbv zeta in Hunit. destruct Hunit as [Hlow Hhigh].
  pose proof (intensity_at_least (Some (MasterAnalysisAgent.c_target c))) as Hi.
  split; [exact Hlow | split; [exact Hhigh|]].
  generalize dependent (MasterAnalysisAgent._get_dynamic_political_intensity
                          (Some (MasterAnalysisAgent.c_target c))).
  intros i Hlow Hhigh Hi. revert Hlow. by_comparisons; lra.
Qed.

Lemma agreement_under_unit_draws_witness :
  exists r,
    fst (MasterAnalysisAgent.predict Inputs.baseline Inputs.steady) = Ok r
    /\ 23.6 <= MasterAnalysisAgent.predicted_agreement r.
Proof.
  assert (exists r, fst (MasterAnalysisAgent.predict Inputs.baseline Inputs.steady) = Ok r)
    as [r Hr] by (eexists; vm_compute; reflexivity).
  exists r. split; [exact Hr|].
  apply (agreement_under_unit_draws Inputs.baseline Inputs.steady r).
  - intros n. cbn. lra.
  - exact Hr.
Defined.

Lemma han_intensity (target : string) :
  contains "韓國瑜" target = true ->
  MasterAnalysisAgent._get_dynamic_political_intensity (Some target) = 1.8.
Proof.
  intros Hnamed. unfold MasterAnalysisAgent._get_dynamic_political_intensity.
  destruct (get MasterAnalysisAgent.intensity_map target) as [v|] eqn:Hget.
  - revert Hget Hnamed. unfold MasterAnalysisAgent.intensity_map. cbn [get].
    repeat match goal with
      | |- context [String.eqb target ?k] =>
          destruct (String.eqb_spec target k) as [->|_];
          [intros [= <-]; intros H; try (vm_compute in H; discriminate H); reflexivity|]
      end.
    discriminate.
  - unfold MasterAnalysisAgent.intensity_map.
    cbn [MasterAnalysisAgent.fuzzy_match]. rewrite key_matches_first.
    unfold any_in. cbn [existsb]. rewrite Hnamed. reflexivity.
Qed.

(** X19: for a target naming 韓國瑜 the intensity is 1.8, so with unit
    draws the predicted agreement is at least 53.2 percent: whether the
    recall is predicted to pass then depends on the turnout alone. *)
Theorem han_verdict_is_turnout :
  forall s g r target,
    Draws.unit_draws g ->
    MasterAnalysisAgent.recall_target s = Some target ->
    contains "韓國瑜" target = true ->
    fst (MasterAnalysisAgent.predict s g) = Ok r ->
    53.2 <= MasterAnalysisAgent.predicted_agreement r
    /\ (MasterAnalysisAgent.will_pass r = true
        <-> 25 <= MasterAnalysisAgent.predicted_turnout r).
Proof.
  intros s g r target Hg Htarget Hnamed. unfold MasterAnalysisAgent.predict.
  destruct (MasterAnalysisAgent.collect s) as [c|e] eqn:Hc; [|discriminate].
  destruct (collect_keys s c Hc) as [_ Hkeep]. rewrite Htarget in Hkeep.
  injection Hkeep as Hkeep.
  pose proof (calculate_agreement_unit
                (MasterAnalysisAgent.optional
                   (MasterAnalysisAgent.dcard_sentiment s) [("positive", 20)])
                (MasterAnalysisAgent.optional
                   (MasterAnalysisAgent.ptt_sentiment s) [("positive", 30)])
                (MasterAnalysisAgent.optional
                   (MasterAnalysisAgent.mobilization_strength s) 80) g) as Hunit.
  destruct (ForumSentimentAgent.analyze _ _ _ g) as [sentiment g'].
  cbn [fst] in Hunit.
  destruct (conclude_ok c sentiment) as (t & _ & _ & ->).
  cbn [fst]. intros [= <-].
  cbn [MasterAnalysisAgent.predicted_agreement MasterAnalysisAgent.predicted_turnout
       MasterAnalysisAgent.will_pass].
  specialize (Hunit t (Some (MasterAnalysisAgent.c_target c)) Hg).
  cbv zeta in Hunit. rewrite <- Hkeep, (han_intensity target Hnamed) in Hunit.
  rewrite <- Hkeep.
  destruct Hunit as [Hlow _].
  assert (53.2 <= MasterAnalysisAgent._calculate_agreement t sentiment (Some target))
    as Hagree by (revert Hlow; by_comparisons; lra).
  split; [exact Hagree|].
  unfold MasterAnalysisAgent._determine_recall_result.
  generalize dependent (MasterAnalysisAgent._calculate_agreement t sentiment (Some target)).
  intros a _ Ha.
  by_comparisons; cbn [fst]; split; intros; try discriminate; try lra; reflexivity.
Qed.

Lemma han_verdict_is_turnout_witness :
  exists r,
    fst (MasterAnalysisAgent.predict Inputs.contested Inputs.steady) = Ok r
    /\ 53.2 <= MasterAnalysisAgent.predicted_agreement r
    /\ (MasterAnalysisAgent.will_pass r = true
        <-> 25 <= MasterAnalysisAgent.predicted_turnout r).
Proof.
  assert (exists r, fst (MasterAnalysisAgent.predict Inputs.contested Inputs.steady) = Ok r)
    as [r Hr] by (eexists; vm_compute; reflexivity).
  exists r. split; [exact Hr|].
  apply (han_verdict_is_turnout Inputs.contested Inputs.steady r
           "韓國瑜 (2020年罷免成功)").
  - intros n. cbn. lra.
  - reflexivity.
  - reflexivity.
  - exact Hr.
Defined.

(** ** The data a scenario is prepared from *)

Example target_name_examples :
  EnhancedDashboardApp.target_name "韓國瑜 (2020年罷免成功)" = "韓國瑜"
  /\ EnhancedDashboardApp.target_name "  羅智強  " = "羅智強"
  /\ EnhancedDashboardApp.target_name "(無名)" = "".
Proof. repeat split; vm_compute; reflexivity. Qed.

(** The ideographic space U+3000 and the no-break space U+00A0 are stripped
    like the ASCII space; the zero-width space U+200B is not white space. *)
Example target_name_wide_spaces :
  let ideographic := string_of_list_ascii (map ascii_of_nat [227; 128; 128]%nat) in
  let no_break := string_of_list_ascii (map ascii_of_nat [194; 160]%nat) in
  let zero_width := string_of_list_ascii (map ascii_of_nat [226; 128; 139]%nat) in
  EnhancedDashboardApp.target_name (ideographic ++ "韓國瑜" ++ no_break ++ "(2020)")
  = "韓國瑜"
  /\ EnhancedDashboardApp.target_name ("韓國瑜" ++ zero_width)
     = "韓國瑜" ++ zero_width.
Proof. split; vm_compute; reflexivity. Qed.

Lemma get_default_range {V : Type} (P : V -> Prop) (d : dict V) (k : string)
      (default : V) :
  Forall (fun kv => P (snd kv)) d -> P default -> P (get_default d k default).
Proof.
  intros Hall Hdefault. unfold get_default.
  destruct (get d k) as [v|] eqn:Hget; [|exact Hdefault].
  rewrite Forall_forall in Hall. apply (Hall _ (get_In d k v Hget)).
Qed.

(** Proves a range for every value of a literal table. *)
Ltac table_range :=
  repeat (apply Forall_cons; [cbn [snd]; lra|]); apply Forall_nil.

(** X20: for every region and target the adjusted historical turnout lies
    between 46.8 and 63.2 percent; the cap of 85 is never applied, so the
    value is the average of the three major elections times 0.7 times the
    fame and regional coefficients. *)
Theorem historical_turnout_range :
  forall region recall_target,
    let data := EnhancedDashboardApp._get_historical_turnout_data region recall_target in
    46.8 <= EnhancedDashboardApp.adjusted_turnout data <= 63.2
    /\ EnhancedDashboardApp.adjusted_turnout data
       == 68.3 * 0.7 * EnhancedDashboardApp.fame_coefficient data
          * EnhancedDashboardApp.regional_coefficient data.
Proof.
  intros region recall_target.
  unfold EnhancedDashboardApp._get_historical_turnout_data. cbv zeta.
  cbn [EnhancedDashboardApp.adjusted_turnout EnhancedDashboardApp.fame_coefficient
       EnhancedDashboardApp.regional_coefficient].
  assert (1.0 <= get_default EnhancedDashboardApp.target_coefficients
                   (EnhancedDashboardApp.target_name recall_target) 1.0 <= 1.2) as Ht.
  { apply (get_default_range (fun v => 1.0 <= v <= 1.2)); [|lra].
    unfold EnhancedDashboardApp.target_coefficients. table_range. }
  assert (0.98 <= get_default EnhancedDashboardApp.regional_coefficients region 1.0 <= 1.1)
    as Hr.
  { apply (get_default_range (fun v => 0.98 <= v <= 1.1)); [|lra].
    unfold EnhancedDashboardApp.regional_coefficients. table_range. }
  set (tc := get_default EnhancedDashboardApp.target_coefficients _ 1.0) in *.
  set (rc := get_default EnhancedDashboardApp.regional_coefficients region 1.0) in *.
  clearbody tc rc.
  assert ((get_default EnhancedDashboardApp.base_turnout_data "2020總統大選" 0
           + get_default EnhancedDashboardApp.base_turnout_data "2022九合一選舉" 0
           + get_default EnhancedDashboardApp.base_turnout_data "2018九合一選舉" 0) / 3
          == 68.3) as Havg by (vm_compute; reflexivity).
  set (avg := (_ + _ + _) / 3) in *. clearbody avg.
  assert (0.98 <= tc * rc <= 1.32) as [Hlow Hhigh].
  { split.
    - apply Qle_trans with (1.0 * rc); [lra|]. apply Qmult_le_compat_r; lra.
    - apply Qle_trans with (1.2 * rc); [|lra]. apply Qmult_le_compat_r; lra. }
  assert (avg * 0.7 * tc * rc == 47.81 * (tc * rc)) as Hprod
      by (rewrite Havg; ring).
  split.
  - generalize dependent (avg * 0.7 * tc * rc). intros x Hx.
    generalize dependent (tc * rc). intros y Hlow Hhigh Hx.
    by_comparisons; lra.
  - generalize dependent (avg * 0.7 * tc * rc). intros x Hx.
    by_comparisons; lra.
Qed.

(** The three organisation scores of a region and their mean. *)
Lemma base_capacity_range (region : string) :
  69.3 <= (get_default EnhancedDashboardApp.party_strength region 70
           + get_default EnhancedDashboardApp.faction_influence region 70
           + get_default EnhancedDashboardApp.civic_activity region 70) / 3
       <= 73.4.
Proof.
  unfold get_default, EnhancedDashboardApp.party_strength,
    EnhancedDashboardApp.faction_influence, EnhancedDashboardApp.civic_activity.
  cbn [get].
  repeat match goal with
    | |- context [String.eqb region ?k] => destruct (String.eqb region k)
    end;
    invert_constants; lra.
Qed.

(** X21: for every region and target the mobilization capacity lies
    between 69.3 and 95 and the mobilization strength between 76.2 and 98,
    never below the capacity. *)
Theorem mobilization_range :
  forall region recall_target,
    let data := EnhancedDashboardApp._get_mobilization_capacity region recall_target in
    69.3 <= EnhancedDashboardApp.capacity data <= 95
    /\ 76.2 <= EnhancedDashboardApp.strength data <= 98
    /\ EnhancedDashboardApp.capacity data <= EnhancedDashboardApp.strength data.
Proof.
  intros region recall_target.
  unfold EnhancedDashboardApp._get_mobilization_capacity. cbv zeta.
  cbn [EnhancedDashboardApp.capacity EnhancedDashboardApp.strength].
  pose proof (base_capacity_range region) as [Hlow Hhigh].
  set (base := (_ + _ + _) / 3) in *. clearbody base.
  assert (1.0 <= get_default EnhancedDashboardApp.controversy_multiplier
                   (EnhancedDashboardApp.target_name recall_target) 1.0 <= 1.3) as Hm.
  { apply (get_default_range (fun v => 1.0 <= v <= 1.3)); [|lra].
    unfold EnhancedDashboardApp.controversy_multiplier. table_range. }
  set (m := get_default EnhancedDashboardApp.controversy_multiplier _ 1.0) in *.
  clearbody m.
  assert (69.3 <= base * m) as Hprod.
  { apply Qle_trans with (base * 1.0); [lra|].
    rewrite (Qmult_comm base 1.0), (Qmult_comm base m).
    apply Qmult_le_compat_r; lra. }
  generalize dependent (base * m). intros x Hx.
  repeat split; by_comparisons; lra.
Qed.

(** ** Prepared scenarios *)

(** What [collect] hands on besides the two indexed keys. *)
Lemma collect_fields (s : MasterAnalysisAgent.Scenario) (c : MasterAnalysisAgent.Collected) :
  MasterAnalysisAgent.collect s = Ok c ->
  MasterAnalysisAgent.c_climate c
  = ClimateConditionAgent.analyze
      (MasterAnalysisAgent.optional (MasterAnalysisAgent.temperature s) 25)
      (MasterAnalysisAgent.optional (MasterAnalysisAgent.rainfall s) 0)
      (MasterAnalysisAgent.optional (MasterAnalysisAgent.weather_condition s) "晴天")
  /\ MasterAnalysisAgent.c_regional c
     = RegionalGeographyAgent.analyze
         (MasterAnalysisAgent.optional (MasterAnalysisAgent.region s) "")
         (MasterAnalysisAgent.optional (MasterAnalysisAgent.historical_turnout s) 55)
         (MasterAnalysisAgent.optional (MasterAnalysisAgent.mobilization_capacity s) 70)
  /\ Ok (MasterAnalysisAgent.c_social c)
     = SocialAtmosphereAgent.analyze
         (MasterAnalysisAgent.optional (MasterAnalysisAgent.forum_sentiment s) [])
         (MasterAnalysisAgent.optional (MasterAnalysisAgent.discussion_heat s) 70)
         (MasterAnalysisAgent.optional (MasterAnalysisAgent.peer_pressure s) 60).
Proof.
  unfold MasterAnalysisAgent.collect.
  destruct (MasterAnalysisAgent.age_structure s) as [ages|]; [|discriminate].
  destruct (MasterAnalysisAgent.recall_target s) as [target|]; [|discriminate].
  cbn [MasterAnalysisAgent.required bind].
  destruct (PsychologicalMotivationAgent.analyze _ _ _); [|discriminate].
  destruct (MediaEnvironmentAgent.analyze _ _ _); [|discriminate].
  destruct (SocialAtmosphereAgent.analyze _ _ _); [|discriminate].
  cbn [bind]. intros [= <-]. repeat split; reflexivity.
Qed.

Lemma forum_rows_ranges (recall_target : string) :
  let forum := EnhancedDashboardApp.numbers
                 (EnhancedDashboardApp._get_forum_sentiment_data recall_target) in
  28.5 <= get_default forum "dcard_positive" 20 <= 51.3
  /\ 29.4 <= get_default forum "ptt_positive" 30 <= 52.1
  /\ 68 <= get_default forum "discussion_heat" 0 <= 92
  /\ 58 <= get_default forum "peer_pressure" 0 <= 78.
Proof.
  unfold EnhancedDashboardApp._get_forum_sentiment_data. cbv zeta.
  cbn [EnhancedDashboardApp.numbers].
  generalize (EnhancedDashboardApp.target_name recall_target). intros name.
  unfold EnhancedDashboardApp.sentiment_data. cbn [get].
  repeat match goal with
    | |- context [String.eqb name ?k] => destruct (String.eqb name k)
    end;
    vm_compute; intuition discriminate.
Qed.

Lemma prepared_fields (recall_target region : string) :
  let s := EnhancedDashboardApp._prepare_scenario_data recall_target region in
  MasterAnalysisAgent.age_structure s = Some [(youth, 30); (middle, 45); (elder, 25)]
  /\ MasterAnalysisAgent.recall_target s = Some recall_target
  /\ MasterAnalysisAgent.temperature s = Some 28.5
  /\ MasterAnalysisAgent.rainfall s = Some 2.3
  /\ MasterAnalysisAgent.weather_condition s = Some "多雲時晴"
  /\ MasterAnalysisAgent.peer_pressure s
     = Some (get_default
               (EnhancedDashboardApp.numbers
                  (EnhancedDashboardApp._get_forum_sentiment_data recall_target))
               "peer_pressure" 0).
Proof. repeat split; reflexivity. Qed.

(** The five deterministic agents answer on a prepared scenario. *)
Lemma prepared_collect (recall_target region : string) :
  let s := EnhancedDashboardApp._prepare_scenario_data recall_target region in
  exists c,
    MasterAnalysisAgent.collect s = Ok c
    /\ (forall k, In k [youth; middle; elder] ->
                  Spec.in_all_three (MasterAnalysisAgent.c_psychological c)
                    (MasterAnalysisAgent.c_media c)
                    (MasterAnalysisAgent.c_social c) k = true).
Proof.
  intros s. pose proof (collect_cases s) as Hcases.
  destruct (prepared_fields recall_target region) as (Hages & Htarget & _).
  fold s in Hages, Htarget. rewrite Hages, Htarget in Hcases.
  replace (forallb Spec.known_group (keys [(youth, 30); (middle, 45); (elder, 25)]))
    with true in Hcases by reflexivity.
  destruct Hcases as (c & Hc & _ & Hall). exists c. split; [exact Hc | exact Hall].
Qed.

Lemma prepared_pressure_cap (recall_target region : string) :
  let s := EnhancedDashboardApp._prepare_scenario_data recall_target region in
  SocialAtmosphereAgent._calculate_pressure_factor
    (MasterAnalysisAgent.optional (MasterAnalysisAgent.peer_pressure s) 60) == 1.3.
Proof.
  intros s.
  destruct (prepared_fields recall_target region) as (_ & _ & _ & _ & _ & Hpressure).
  fold s in Hpressure. rewrite Hpressure. cbn [MasterAnalysisAgent.optional].
  destruct (forum_rows_ranges recall_target) as (_ & _ & _ & [Hlow Hhigh]).
  cbv zeta in Hlow, Hhigh.
  unfold SocialAtmosphereAgent._calculate_pressure_factor.
  name_quotients. by_comparisons; lra.
Qed.

Lemma prepared_weather (recall_target region : string) :
  let s := EnhancedDashboardApp._prepare_scenario_data recall_target region in
  ClimateConditionAgent.weather_coefficient
    (ClimateConditionAgent.analyze
       (MasterAnalysisAgent.optional (MasterAnalysisAgent.temperature s) 25)
       (MasterAnalysisAgent.optional (MasterAnalysisAgent.rainfall s) 0)
       (MasterAnalysisAgent.optional (MasterAnalysisAgent.weather_condition s) "晴天"))
  == 1.
Proof.
  intros s.
  destruct (prepared_fields recall_target region) as (_ & _ & Ht & Hr & Hw & _).
  fold s in Ht, Hr, Hw. rewrite Ht, Hr, Hw. cbn [MasterAnalysisAgent.optional].
  vm_compute. reflexivity.
Qed.

Lemma within_true (lo hi x : Q) : lo <= x <= hi -> Spec.within lo hi x = true.
Proof.
  intros [Hlow Hhigh]. unfold Spec.within.
  apply andb_true_intro. split; apply Qle_bool_iff; assumption.
Qed.

Lemma field_within_get (lo hi : Q) (d : dict Q) (k : string) (default : Q) :
  lo <= get_default d k default <= hi -> Spec.field_within lo hi (get d k) = true.
Proof.
  unfold get_default, Spec.field_within.
  destruct (get d k); [apply within_true | reflexivity].
Qed.

(** The historical turnout and the mobilization capacity of a prepared
    scenario are percentages. *)
Lemma prepared_percentages (recall_target region : string) :
  0 <= EnhancedDashboardApp.adjusted_turnout
         (EnhancedDashboardApp._get_historical_turnout_data region recall_target) <= 100
  /\ 0 <= EnhancedDashboardApp.capacity
            (EnhancedDashboardApp._get_mobilization_capacity region recall_target) <= 100.
Proof.
  split.
  - unfold EnhancedDashboardApp._get_historical_turnout_data. cbv zeta.
    cbn [EnhancedDashboardApp.adjusted_turnout].
    assert (0 <= get_default EnhancedDashboardApp.target_coefficients
                   (EnhancedDashboardApp.target_name recall_target) 1.0) as Ht.
    { apply (get_default_range (fun v => 0 <= v)); [|lra].
      unfold EnhancedDashboardApp.target_coefficients. table_range. }
    assert (0 <= get_default EnhancedDashboardApp.regional_coefficients region 1.0) as Hr.
    { apply (get_default_range (fun v => 0 <= v)); [|lra].
      unfold EnhancedDashboardApp.regional_coefficients. table_range. }
    set (tc := get_default EnhancedDashboardApp.target_coefficients _ 1.0) in *.
    set (rc := get_default EnhancedDashboardApp.regional_coefficients region 1.0) in *.
    clearbody tc rc.
    assert ((get_default EnhancedDashboardApp.base_turnout_data "2020總統大選" 0
             + get_default EnhancedDashboardApp.base_turnout_data "2022九合一選舉" 0
             + get_default EnhancedDashboardApp.base_turnout_data "2018九合一選舉" 0) / 3
            == 68.3) as Havg by (vm_compute; reflexivity).
    set (avg := (_ + _ + _) / 3) in *. clearbody avg.
    assert (0 <= avg * 0.7 * tc * rc) as Hprod.
    { repeat apply Qmult_le_0_compat; lra. }
    generalize dependent (avg * 0.7 * tc * rc). intros x Hx.
    by_comparisons; lra.
  - unfold EnhancedDashboardApp._get_mobilization_capacity. cbv zeta.
    cbn [EnhancedDashboardApp.capacity].
    pose proof (base_capacity_range region) as [Hlow Hhigh].
    set (base := (_ + _ + _) / 3) in *. clearbody base.
    assert (0 <= get_default EnhancedDashboardApp.controversy_multiplier
                   (EnhancedDashboardApp.target_name recall_target) 1.0) as Hm.
    { apply (get_default_range (fun v => 0 <= v)); [|lra].
      unfold EnhancedDashboardApp.controversy_multiplier. table_range. }
    set (m := get_default EnhancedDashboardApp.controversy_multiplier _ 1.0) in *.
    clearbody m.
    assert (0 <= base * m) as Hprod by (apply Qmult_le_0_compat; lra).
    generalize dependent (base * m). intros x Hx.
    by_comparisons; lra.
Qed.

Lemma prepared_inputs (recall_target region : string) :
  let s := EnhancedDashboardApp._prepare_scenario_data recall_target region in
  let forum := EnhancedDashboardApp.numbers
                 (EnhancedDashboardApp._get_forum_sentiment_data recall_target) in
  MasterAnalysisAgent.forum_sentiment s = Some forum
  /\ MasterAnalysisAgent.discussion_heat s = Some (get_default forum "discussion_heat" 0)
  /\ MasterAnalysisAgent.historical_turnout s
     = Some (EnhancedDashboardApp.adjusted_turnout
               (EnhancedDashboardApp._get_historical_turnout_data region recall_target))
  /\ MasterAnalysisAgent.mobilization_capacity s
     = Some (EnhancedDashboardApp.capacity
               (EnhancedDashboardApp._get_mobilization_capacity region recall_target)).
Proof. repeat split; reflexivity. Qed.

(** Every scenario [_prepare_scenario_data] builds is a valid scenario:
    the post counts of its forum dictionary are no sentiment ratios. *)
Lemma prepared_scenario_valid (recall_target region : string) :
  Spec.valid_scenario
    (EnhancedDashboardApp._prepare_scenario_data recall_target region) = true.
Proof.
  destruct (prepared_fields recall_target region)
    as (Hages & Htarget & _ & _ & _ & Hpressure).
  destruct (prepared_inputs recall_target region) as (Hforum & Hheat & Hhistory & Hcapacity).
  cbv zeta in Hages, Htarget, Hpressure, Hforum, Hheat, Hhistory, Hcapacity.
  unfold Spec.valid_scenario.
  rewrite Hages, Htarget, Hforum, Hheat, Hpressure, Hhistory, Hcapacity.
  destruct (forum_rows_ranges recall_target) as (Hdcard & Hptt & Hh & Hp).
  cbv zeta in Hdcard, Hptt, Hh, Hp.
  destruct (prepared_percentages recall_target region) as [Hturnout Hmobilization].
  rewrite (field_within_get 0 100 _ "dcard_positive" 20) by lra.
  rewrite (field_within_get 0 100 _ "ptt_positive" 30) by lra.
  cbn [Spec.field_within].
  rewrite !within_true by lra.
  reflexivity.
Qed.

(** X22: for every target and region, [predict] returns on the scenario
    [_prepare_scenario_data] builds, all three age groups are in its
    breakdown, its weather coefficient is 1 (the July averages carry no
    penalty), and the peer-pressure factor of the social-mood estimator is
    at its cap 1.3. *)
Theorem prepared_scenario_prediction :
  forall recall_target region g,
    exists r,
      fst (MasterAnalysisAgent.predict
             (EnhancedDashboardApp._prepare_scenario_data recall_target region) g)
      = Ok r
      /\ (forall k, In k [youth; middle; elder] ->
                    Spec.in_all_three
                      (MasterAnalysisAgent.psychological (MasterAnalysisAgent.agent_results r))
                      (MasterAnalysisAgent.media (MasterAnalysisAgent.agent_results r))
                      (MasterAnalysisAgent.social (MasterAnalysisAgent.agent_results r))
                      k = true)
      /\ ClimateConditionAgent.weather_coefficient
           (MasterAnalysisAgent.climate (MasterAnalysisAgent.agent_results r)) == 1
      /\ (forall k e,
             get (MasterAnalysisAgent.social (MasterAnalysisAgent.agent_results r)) k
             = Some e ->
             SocialAtmosphereAgent.pressure_impact e == 1.3).
Proof.
  intros recall_target region g.
  destruct (prepared_collect recall_target region) as (c & Hc & Hall).
  pose proof (prepared_weather recall_target region) as Hweather.
  pose proof (prepared_pressure_cap recall_target region) as Hcap.
  cbv zeta in Hc, Hweather, Hcap.
  generalize dependent (EnhancedDashboardApp._prepare_scenario_data recall_target region).
  intros s Hc Hweather Hcap.
  destruct (collect_fields s c Hc) as (Hclimate & _ & Hsocial).
  unfold MasterAnalysisAgent.predict. rewrite Hc.
  destruct (ForumSentimentAgent.analyze _ _ _ g) as [sentiment g'].
  destruct (conclude_ok c sentiment) as (t & _ & _ & ->).
  cbn [fst]. eexists. split; [reflexivity|].
  cbn [MasterAnalysisAgent.agent_results MasterAnalysisAgent.psychological
       MasterAnalysisAgent.media MasterAnalysisAgent.social MasterAnalysisAgent.climate].
  split; [exact Hall | split].
  - rewrite Hclimate. exact Hweather.
  - intros k e Hk.
    pose proof (social_analyze_entries
                  (MasterAnalysisAgent.optional (MasterAnalysisAgent.forum_sentiment s) [])
                  (MasterAnalysisAgent.optional (MasterAnalysisAgent.discussion_heat s) 70)
                  (MasterAnalysisAgent.optional (MasterAnalysisAgent.peer_pressure s) 60))
      as Hentries.
    cbv zeta in Hentries. rewrite <- Hsocial in Hentries. injection Hentries as Hentries.
    rewrite Hentries in Hk. clear Hentries Hsocial.
    cbn [get] in Hk.
    destruct (String.eqb k youth); [injection Hk as <-; exact Hcap|].
    destruct (String.eqb k middle); [injection Hk as <-; exact Hcap|].
    destruct (String.eqb k elder); [injection Hk as <-; exact Hcap | discriminate].
Qed.

(** ** The confidence score *)

(** X23: the confidence score lies between 60 and 95; it is 95 whenever
    the turnout is between 25 and 60 and the agreement between 30 and 80,
    whatever the weather and the region; and it is at most 80 as soon as the
    turnout is above 80. *)
Theorem confidence_score :
  forall r,
    (60 <= EnhancedDashboardApp._calculate_confidence r <= 95)%Z
    /\ (25 <= MasterAnalysisAgent.predicted_turnout r <= 60 ->
        30 <= MasterAnalysisAgent.predicted_agreement r <= 80 ->
        EnhancedDashboardApp._calculate_confidence r = 95%Z)
    /\ (80 < MasterAnalysisAgent.predicted_turnout r ->
        (EnhancedDashboardApp._calculate_confidence r <= 80)%Z).
Proof.
  intros r. unfold EnhancedDashboardApp._calculate_confidence, EnhancedDashboardApp.between.
  cbv zeta.
  generalize (MasterAnalysisAgent.predicted_turnout r)
             (MasterAnalysisAgent.predicted_agreement r)
             (ClimateConditionAgent.weather_coefficient
                (MasterAnalysisAgent.climate (MasterAnalysisAgent.agent_results r)))
             (RegionalGeographyAgent.adjustment_factor
                (MasterAnalysisAgent.regional (MasterAnalysisAgent.agent_results r))).
  intros t a w f.
  repeat split; intros; by_comparisons; cbn [andb orb]; try lia; lra.
Qed.

Lemma confidence_score_witness :
  EnhancedDashboardApp._calculate_confidence
    (MasterAnalysisAgent.mkPrediction 40 55 true
       (MasterAnalysisAgent.ThresholdsMet 40 55)
       (MasterAnalysisAgent.mkAgentResults [] [] []
          (ClimateConditionAgent.analyze 38 20 "颱風")
          (RegionalGeographyAgent.analyze "" 55 10)
          (ForumSentimentAgent.mkEntry [] [])))
  = 95%Z.
Proof.
  apply confidence_score; cbn [MasterAnalysisAgent.predicted_turnout
                               MasterAnalysisAgent.predicted_agreement]; lra.
Defined.

(** ** The second prediction path *)

(** The motivation estimator on two age structures of the three groups:
    the entries differ by their shares only. *)
Lemma psychological_on_three_groups (a b c a' b' c' : Q) (target : string) :
  exists vy vm ve py pm pe,
    PsychologicalMotivationAgent.analyze [(youth, a); (middle, b); (elder, c)] target []
    = Ok [ (youth, PsychologicalMotivationAgent.mkEntry a py vy);
           (middle, PsychologicalMotivationAgent.mkEntry b pm vm);
           (elder, PsychologicalMotivationAgent.mkEntry c pe ve) ]
    /\ PsychologicalMotivationAgent.analyze
         [(youth, a'); (middle, b'); (elder, c')] target []
       = Ok [ (youth, PsychologicalMotivationAgent.mkEntry a' py vy);
              (middle, PsychologicalMotivationAgent.mkEntry b' pm vm);
              (elder, PsychologicalMotivationAgent.mkEntry c' pe ve) ].
Proof.
  unfold PsychologicalMotivationAgent.analyze, PsychologicalMotivationAgent._get_base_params.
  destruct (any_in _ target); do 6 eexists; split; reflexivity.
Qed.

(** The media estimator reads the keys of the age structure only. *)
Lemma media_on_three_groups (a b c a' b' c' : Q) (target : string) :
  exists ey em ee,
    MediaEnvironmentAgent.analyze [(youth, a); (middle, b); (elder, c)] target []
    = Ok [(youth, ey); (middle, em); (elder, ee)]
    /\ MediaEnvironmentAgent.analyze [(youth, a'); (middle, b'); (elder, c')] target []
       = Ok [(youth, ey); (middle, em); (elder, ee)].
Proof.
  unfold MediaEnvironmentAgent.analyze.
  generalize (MediaEnvironmentAgent._get_media_attention target). intros attention.
  do 3 eexists; split; reflexivity.
Qed.

Lemma py_max_compat (a b c : Q) : a == b -> py_max a c == py_max b c.
Proof. intros H. by_comparisons; lra. Qed.

(** Evaluates the lookups of the two turnout loops on explicit
    dictionaries keyed by the three age groups. *)
Ltac run_lookups :=
  cbv [EnhancedDashboardApp.unified_turnout_loop MasterAnalysisAgent.turnout_loop
       MasterAnalysisAgent._calculate_turnout keys map fst
       mem get index bind andb youth middle elder String.eqb Ascii.eqb Bool.eqb].

(** X24: [_calculate_unified_prediction] never takes its [except] branch;
    and on the scenario with the same target and region and every other
    input at its default, the turnout of [predict] is the unified turnout
    rate times the political intensity, as a percentage, floored at 20. *)
Theorem unified_turnout_matches_predict :
  forall recall_target region g,
    let u := fst (EnhancedDashboardApp._calculate_unified_prediction
                    recall_target region g) in
    EnhancedDashboardApp.error u = None
    /\ exists r,
        fst (MasterAnalysisAgent.predict (bare_scenario recall_target region) g) = Ok r
        /\ MasterAnalysisAgent.predicted_turnout r
           == py_max (EnhancedDashboardApp.turnout_rate u
                      * MasterAnalysisAgent._get_dynamic_political_intensity
                          (Some recall_target)
                      * 100) 20.
Proof.
  intros recall_target region g.
  destruct (psychological_on_three_groups 30 45 25 0.30 0.45 0.25 recall_target)
    as (vy & vm & ve & py & pm & pe & Hp & Hp').
  destruct (media_on_three_groups 30 45 25 0.30 0.45 0.25 recall_target)
    as (ey & em & ee & Hm & Hm').
  pose proof (social_analyze_entries [] 70 60) as Hs. cbv zeta in Hs.
  unfold EnhancedDashboardApp._calculate_unified_prediction,
    EnhancedDashboardApp.unified_collect, EnhancedDashboardApp.unified_ages,
    MasterAnalysisAgent.predict, MasterAnalysisAgent.collect, bare_scenario.
  cbn [MasterAnalysisAgent.age_structure MasterAnalysisAgent.recall_target
       MasterAnalysisAgent.political_context MasterAnalysisAgent.media_coverage
       MasterAnalysisAgent.forum_sentiment MasterAnalysisAgent.discussion_heat
       MasterAnalysisAgent.peer_pressure MasterAnalysisAgent.temperature
       MasterAnalysisAgent.rainfall MasterAnalysisAgent.weather_condition
       MasterAnalysisAgent.region MasterAnalysisAgent.historical_turnout
       MasterAnalysisAgent.mobilization_capacity MasterAnalysisAgent.dcard_sentiment
       MasterAnalysisAgent.ptt_sentiment MasterAnalysisAgent.mobilization_strength
       MasterAnalysisAgent.required MasterAnalysisAgent.optional bind].
  cbv zeta. rewrite Hp', Hm'. cbn [bind]. rewrite Hp. cbn [bind]. rewrite Hm. cbn [bind].
  rewrite Hs. cbn [bind].
  destruct (ForumSentimentAgent.analyze [("positive", 20)] [("positive", 30)] 80 g)
    as [sentiment g'].
  unfold MasterAnalysisAgent.conclude.
  cbn [MasterAnalysisAgent.c_ages MasterAnalysisAgent.c_target
       MasterAnalysisAgent.c_psychological MasterAnalysisAgent.c_media
       MasterAnalysisAgent.c_social MasterAnalysisAgent.c_climate
       MasterAnalysisAgent.c_regional].
  run_lookups.
  cbn [PsychologicalMotivationAgent.voting_intention
       SocialAtmosphereAgent.social_coefficient
       RegionalGeographyAgent.regional_coefficient
       RegionalGeographyAgent.adjustment_factor RegionalGeographyAgent.analyze].
  split; [reflexivity|].
  destruct (MasterAnalysisAgent._determine_recall_result _ _) as [verdict why].
  eexists. split; [reflexivity|].
  cbn [fst MasterAnalysisAgent.predicted_turnout EnhancedDashboardApp.turnout_rate].
  apply py_max_compat. field.
Qed.

Lemma Qmult_bounds (x y a1 a2 b1 b2 : Q) :
  0 <= a1 -> a1 <= x <= a2 -> 0 <= b1 -> b1 <= y <= b2 ->
  a1 * b1 <= x * y <= a2 * b2.
Proof.
  intros Ha [Hx1 Hx2] Hb [Hy1 Hy2]. split.
  - apply Qle_trans with (x * b1).
    + apply Qmult_le_compat_r; assumption.
    + rewrite (Qmult_comm x b1), (Qmult_comm x y).
      apply Qmult_le_compat_r; [assumption | lra].
  - apply Qle_trans with (a2 * y).
    + apply Qmult_le_compat_r; [assumption | lra].
    + rewrite (Qmult_comm a2 y), (Qmult_comm a2 b2).
      apply Qmult_le_compat_r; [assumption | lra].
Qed.

Lemma crawl_news_advance (target : string) (g : Rng) :
  snd (ForumSentimentAgent._crawl_news_sentiment target g) = Draws.advance 10 g.
Proof. reflexivity. Qed.

(** Every numeric entry of the Sentiment estimator's answer, under unit
    draws. *)
Lemma sentiment_scalars_unit (dcard ptt : dict Q) (strength : Q) (g : Rng) :
  Draws.unit_draws g ->
  exists s1 s2 s3 factor,
    ForumSentimentAgent.scalars (fst (ForumSentimentAgent.analyze dcard ptt strength g))
    = [ ("positive_emotion_ratio", (s1 + s2 + s3) / 3);
        ("mobilization_modifier", (s1 * 0.4 + s2 * 0.35 + s3 * 0.25) * factor);
        ("mobilization_strength", (s1 * 0.4 + s2 * 0.35 + s3 * 0.25) * factor);
        ("s1_youth_forum", s1);
        ("s2_middle_forum", s2);
        ("s3_elder_news", s3);
        ("dcard_positive", s1);
        ("ptt_positive", s2);
        ("final_support_rate",
         (s1 + s2 + s3) / 3 * ((s1 * 0.4 + s2 * 0.35 + s3 * 0.25) * factor)) ]
    /\ 0.289 <= s1 <= 0.6748 /\ 0.2925 <= s2 <= 0.6826 /\ 0.3 <= s3 <= 0.7
    /\ 1.1 <= factor <= 1.3.
Proof.
  intros Hg. unfold ForumSentimentAgent.analyze. cbv zeta.
  destruct (stratum_unit "當前罷免對象" "youth" g Hg (or_introl eq_refl))
    as ([H1 _] & H1' & _ & Hg1).
  specialize (H1' eq_refl). cbv zeta in H1, H1', Hg1.
  destruct (ForumSentimentAgent.stratum _ _ g) as [s1 g1].
  cbn [fst snd] in H1, H1', Hg1. subst g1.
  destruct (stratum_unit "當前罷免對象" "middle" (Draws.advance 6 g)
              (unit_draws_advance 6 g Hg) (or_intror (or_introl eq_refl)))
    as ([_ H2] & _ & H2' & Hg2).
  specialize (H2' eq_refl). cbv zeta in H2, H2', Hg2.
  destruct (ForumSentimentAgent.stratum _ _ (Draws.advance 6 g)) as [s2 g2].
  cbn [fst snd] in H2, H2', Hg2. subst g2.
  assert (Draws.unit_draws (Draws.advance 6 (Draws.advance 6 g))) as Hg12
      by (apply unit_draws_advance, unit_draws_advance, Hg).
  pose proof (news_positive_unit "當前罷免對象" _ Hg12) as H3.
  pose proof (crawl_news_advance "當前罷免對象" (Draws.advance 6 (Draws.advance 6 g)))
    as Hg3.
  destruct (ForumSentimentAgent._crawl_news_sentiment _ _) as [news g3].
  cbn [fst snd] in H3, Hg3. subst g3.
  assert (1.1 <= 1.3) as Hab by lra.
  pose proof (uniform_range 1.1 1.3 _ Hab (unit_draws_advance 10 _ Hg12)) as Hf.
  destruct (uniform 1.1 1.3 _) as [factor g4]. cbn [fst] in Hf.
  exists s1, s2, (ForumSentimentAgent.news_positive_ratio news), factor.
  cbn [fst ForumSentimentAgent.scalars].
  split; [reflexivity|]. repeat split; lra.
Qed.

(** X25: when the random source delivers unit draws,
    [_calculate_unified_prediction] returns an agreement rate between 0.11
    and 0.43, whatever the target and the region: its verdict [will_pass]
    is always false. *)
Theorem unified_never_passes :
  forall recall_target region g,
    Draws.unit_draws g ->
    let u := fst (EnhancedDashboardApp._calculate_unified_prediction
                    recall_target region g) in
    0.11 <= EnhancedDashboardApp.agreement_rate u <= 0.43
    /\ EnhancedDashboardApp.unified_will_pass u = false.
Proof.
  intros recall_target region g Hg.
  destruct (psychological_on_three_groups 30 45 25 0.30 0.45 0.25 recall_target)
    as (vy & vm & ve & py & pm & pe & _ & Hp').
  destruct (media_on_three_groups 30 45 25 0.30 0.45 0.25 recall_target)
    as (ey & em & ee & _ & Hm').
  pose proof (social_analyze_entries [] 70 60) as Hs. cbv zeta in Hs.
  destruct (sentiment_scalars_unit [("positive", 20)] [("positive", 30)] 80 g Hg)
    as (s1 & s2 & s3 & factor & Hscalars & H1 & H2 & H3 & Hf).
  unfold EnhancedDashboardApp._calculate_unified_prediction,
    EnhancedDashboardApp.unified_collect, EnhancedDashboardApp.unified_ages.
  cbv zeta. rewrite Hp', Hm'. cbn [bind]. rewrite Hs. cbn [bind].
  destruct (ForumSentimentAgent.analyze [("positive", 20)] [("positive", 30)] 80 g)
    as [sentiment g'].
  cbn [fst] in Hscalars. rewrite Hscalars.
  cbn [MasterAnalysisAgent.c_ages MasterAnalysisAgent.c_target
       MasterAnalysisAgent.c_psychological MasterAnalysisAgent.c_media
       MasterAnalysisAgent.c_social MasterAnalysisAgent.c_climate
       MasterAnalysisAgent.c_regional].
  run_lookups.
  cbv [EnhancedDashboardApp.unified_sentiment_loop get_default get
       youth middle elder String.eqb Ascii.eqb Bool.eqb].
  cbn [fst EnhancedDashboardApp.agreement_rate EnhancedDashboardApp.unified_will_pass].
  set (weighted := 0 + 0.30 * (0.40 * s2 + 0.60 * s1)
                   + 0.45 * (0.20 * 0.30 + 0.30 * 0.25 + 0.50 * 0.45)
                   + 0.25 * (0.80 * 0.45 + 0.20 * 0.55)).
  assert (0.366 <= weighted <= 0.483) as Hw by (subst weighted; lra).
  assert (0.2929 <= s1 * 0.4 + s2 * 0.35 + s3 * 0.25 <= 0.684) as Hi by lra.
  pose proof (Qmult_bounds _ _ 0.2929 0.684 1.1 1.3 ltac:(lra) Hi ltac:(lra) Hf) as Hm.
  assert (0.32 <= (s1 * 0.4 + s2 * 0.35 + s3 * 0.25) * factor <= 0.8892) as Hm2 by lra.
  pose proof (Qmult_bounds _ _ 0.366 0.483 0.32 0.8892 ltac:(lra) Hw ltac:(lra) Hm2)
    as Hprod.
  clearbody weighted.
  generalize dependent (weighted * ((s1 * 0.4 + s2 * 0.35 + s3 * 0.25) * factor)).
  intros a Ha.
  assert (0.11 <= a <= 0.43) as [Hlow Hhigh] by lra.
  split; [split; assumption|].
  apply andb_false_iff. right. apply Qltb_false. lra.
Qed.

Lemma unified_never_passes_witness :
  let u := fst (EnhancedDashboardApp._calculate_unified_prediction
                  "羅智強 (台北市第6選區)" "台北市第6選區" Inputs.steady) in
  0.11 <= EnhancedDashboardApp.agreement_rate u <= 0.43
  /\ EnhancedDashboardApp.unified_will_pass u = false.
Proof.
  apply unified_never_passes. intros n. cbn. lra.
Defined.

(** ** Simulated weather *)

Lemma choice_In {A : Type} (seq : list A) (default : A) (g : Rng) :
  seq <> [] -> Draws.unit_draws g -> In (fst (choice seq default g)) seq.
Proof.
  intros Hseq Hg. unfold choice, random. cbn [fst].
  destruct (Hg (pos g)) as [H0 H1].
  generalize dependent (tape g (pos g)). intros u H0 H1.
  apply nth_In.
  assert (0 < Z.of_nat (List.length seq))%Z as Hlen.
  { destruct seq; [contradiction | cbn [List.length]; lia]. }
  assert (0 < inject_Z (Z.of_nat (List.length seq))) as Hn.
  { change 0 with (inject_Z 0). rewrite <- Zlt_Qlt. exact Hlen. }
  set (n := inject_Z (Z.of_nat (List.length seq))) in *.
  assert (0 <= Qfloor (u * n))%Z as Hlow.
  { change 0%Z with (Qfloor 0). apply Qfloor_resp_le. nra. }
  assert (Qfloor (u * n) < Z.of_nat (List.length seq))%Z as Hhigh.
  { rewrite Zlt_Qlt. apply Qle_lt_trans with (u * n); [apply Qfloor_le|].
    fold n. nra. }
  lia.
Qed.

(** X26: when the random source delivers unit draws, the simulated weather
    has a temperature between 20 and 35 degrees and a rainfall among 0, 2,
    5, 8 and 12 mm, and the weather coefficient computed from it is at
    least 0.85. *)
Theorem simulated_weather_coefficient :
  forall region g,
    Draws.unit_draws g ->
    let data := fst (WeatherAnalyzer.get_weather_data region g) in
    (20 <= WeatherAnalyzer.temperature data <= 35)%Z
    /\ In (WeatherAnalyzer.rainfall data) [0; 2; 5; 8; 12]
    /\ 0.85 <= ClimateConditionAgent.weather_coefficient
                 (ClimateConditionAgent.analyze
                    (inject_Z (WeatherAnalyzer.temperature data))
                    (WeatherAnalyzer.rainfall data)
                    (WeatherAnalyzer.condition data)).
Proof.
  intros region g Hg. unfold WeatherAnalyzer.get_weather_data.
  pose proof (randint_range 20 35 g ltac:(lia) Hg) as Ht.
  assert (snd (randint 20 35 g) = Draws.advance 1 g) as Hnext by reflexivity.
  destruct (randint 20 35 g) as [temperature g1]. cbn [fst snd] in Ht, Hnext. subst g1.
  pose proof (choice_In [0; 0; 0; 2; 5; 8; 12] 0 (Draws.advance 1 g)
                ltac:(discriminate) (unit_draws_advance 1 g Hg)) as Hr.
  destruct (choice _ 0 (Draws.advance 1 g)) as [rainfall g2]. cbn [fst] in Hr.
  cbv zeta.
  cbn [fst WeatherAnalyzer.temperature WeatherAnalyzer.rainfall WeatherAnalyzer.condition].
  split; [exact Ht | split].
  - cbn [In] in *. tauto.
  - assert (rainfall <= 12) as Hrain.
    { cbn [In] in Hr.
      destruct Hr as [<-|[<-|[<-|[<-|[<-|[<-|[<-|[]]]]]]]]; lra. }
    assert (20 <= inject_Z temperature) as Hwarm.
    { change 20 with (inject_Z 20). rewrite <- Zle_Qle. lia. }
    unfold ClimateConditionAgent.analyze, ClimateConditionAgent.after_temperature,
      ClimateConditionAgent.after_rainfall, ClimateConditionAgent.after_condition.
    cbn [ClimateConditionAgent.weather_coefficient].
    replace (in_list "晴天" ClimateConditionAgent.extreme_conditions) with false
      by reflexivity.
    by_comparisons; lra.
Qed.

Lemma simulated_weather_coefficient_witness :
  let data := fst (WeatherAnalyzer.get_weather_data "台北市" Inputs.steady) in
  (20 <= WeatherAnalyzer.temperature data <= 35)%Z
  /\ In (WeatherAnalyzer.rainfall data) [0; 2; 5; 8; 12]
  /\ 0.85 <= ClimateConditionAgent.weather_coefficient
               (ClimateConditionAgent.analyze
                  (inject_Z (WeatherAnalyzer.temperature data))
                  (WeatherAnalyzer.rainfall data)
                  (WeatherAnalyzer.condition data)).
Proof.
  apply simulated_weather_coefficient. intros n. cbn. lra.
Defined.
